(** * mern-backend: authentication, ownership and upload contracts

    A shallow embedding of the Express route handlers of the blogging
    backend (routes/postRoutes.js, routes/userRoutes.js,
    middleware/authMiddleware.js, server.js) together with the properties
    its specification states about them.

    Conventions of the embedding:
    - a JavaScript string is the [string] of its UTF-8 bytes (a string
      literal of this file is exactly that); a value that may be
      [undefined] is an [option];
    - a Mongo collection is the list of its documents in insertion order;
      an [ObjectId] is the string its [toString()] gives, and the ids
      that requests and tokens carry are taken to be well-formed
      ObjectIds (a string that is not one makes the query fail with a
      CastError, which is left out);
    - the Express response object [res] and the database are threaded
      through a state-and-exception monad in which a [throw] keeps the
      changes made before it (as [res.status(404); throw ...] does);
    - what the repository imports from elsewhere (jsonwebtoken, bcrypt,
      the regular-expression engine of the database, the clock) is a
      field of the record [Platform]. *)

From Stdlib Require Import String Ascii List ZArith Lia Bool QArith Qround.
From Stdlib Require Import DecimalString Permutation Sorted.
Import ListNotations.
Local Open Scope string_scope.
Local Open Scope Z_scope.

(* ================================================================== *)
(** * JavaScript primitives used by the handlers *)
(* ================================================================== *)

Module JS.

(** [!v] is false exactly for a non-empty string; [undefined] and the
    empty string are falsy. *)
Definition truthy (v : option string) : bool :=
  match v with
  | Some s => negb (s =? "")%string
  | None => false
  end.

(** [a || b] on a possibly undefined string [a] and a string [b]. *)
Definition or_else (a : option string) (b : string) : string :=
  match a with
  | Some s => if (s =? "")%string then b else s
  | None => b
  end.

(** [s.startsWith(p)] *)
Definition startsWith (s p : string) : bool := String.prefix p s.

(** [s.split(sep)] for a one-character separator. *)
Fixpoint split (sep : ascii) (s : string) : list string :=
  match s with
  | EmptyString => [EmptyString]
  | String c s' =>
      if Ascii.eqb c sep then EmptyString :: split sep s'
      else match split sep s' with
           | [] => [String c EmptyString]
           | w :: ws => String c w :: ws
           end
  end.

(** [s.includes(p)]: [p] occurs in [s] as a contiguous substring. *)
Fixpoint includes (p s : string) : bool :=
  String.prefix p s ||
  match s with
  | EmptyString => false
  | String _ s' => includes p s'
  end.

Definition is_upper (c : ascii) : bool :=
  let n := nat_of_ascii c in (65 <=? n)%nat && (n <=? 90)%nat.

Definition lower_char (c : ascii) : ascii :=
  if is_upper c then ascii_of_nat (nat_of_ascii c + 32) else c.

(** [s.toLowerCase()] on the ASCII letters.  The characters outside
    ASCII whose lower-case form JavaScript changes never map to a letter
    of "jpeg", "jpg" or "png", the only use made of it here. *)
Fixpoint toLowerCase (s : string) : string :=
  match s with
  | EmptyString => EmptyString
  | String c s' => String (lower_char c) (toLowerCase s')
  end.

(** ** [String.prototype.trim]

    [s.trim()] removes from both ends of [s] the characters that
    ECMAScript calls white space or line terminators: U+0009 to U+000D,
    U+0020, U+00A0, U+1680, U+2000 to U+200A, U+2028, U+2029, U+202F,
    U+205F, U+3000 and U+FEFF.  A string being the sequence of its UTF-8
    bytes, each of them is one of the byte sequences below (U+00A0 is
    the two bytes 194 160; the byte 160 alone is no character, and it
    also ends other characters, U+00E0 for one).  None of the sequences
    is the beginning of another, and none begins with a continuation
    byte, so in well-formed UTF-8 a sequence found at the beginning of a
    string is its first character, and an ending of the string that is
    made of such sequences starts at the boundary of a character. *)

Definition bytes (l : list nat) : string :=
  fold_right (fun n s => String (ascii_of_nat n) s) EmptyString l.

Definition white_space : list string :=
  map bytes
    [ [9]; [10]; [11]; [12]; [13]; [32];                 (* U+0009..000D, U+0020 *)
      [194; 160];                                        (* U+00A0 *)
      [225; 154; 128];                                   (* U+1680 *)
      [226; 128; 128]; [226; 128; 129]; [226; 128; 130]; (* U+2000..2002 *)
      [226; 128; 131]; [226; 128; 132]; [226; 128; 133]; (* U+2003..2005 *)
      [226; 128; 134]; [226; 128; 135]; [226; 128; 136]; (* U+2006..2008 *)
      [226; 128; 137]; [226; 128; 138];                  (* U+2009, U+200A *)
      [226; 128; 168]; [226; 128; 169];                  (* U+2028, U+2029 *)
      [226; 128; 175];                                   (* U+202F *)
      [226; 129; 159];                                   (* U+205F *)
      [227; 128; 128];                                   (* U+3000 *)
      [239; 187; 191] ]%nat.                             (* U+FEFF *)

(** What is left of [s] after its beginning [p], if [s] begins with [p]. *)
Fixpoint strip_prefix (p s : string) : option string :=
  match p with
  | EmptyString => Some s
  | String a p' =>
      match s with
      | EmptyString => None
      | String b s' => if Ascii.eqb a b then strip_prefix p' s' else None
      end
  end.

Fixpoint strip_any (ps : list string) (s : string) : option string :=
  match ps with
  | [] => None
  | p :: ps' =>
      match strip_prefix p s with
      | Some r => Some r
      | None => strip_any ps' s
      end
  end.

(** [s] without its first character, when that is white space. *)
Definition strip_space (s : string) : option string := strip_any white_space s.

(** A white-space character has at least one byte, so the length of the
    string bounds the number of characters to remove. *)
Fixpoint trimStart_from (fuel : nat) (s : string) : string :=
  match fuel with
  | O => s
  | S fuel' =>
      match strip_space s with
      | Some r => trimStart_from fuel' r
      | None => s
      end
  end.

Definition trimStart (s : string) : string := trimStart_from (String.length s) s.

(** [s] consists of white space only. *)
Definition blank (s : string) : bool := (trimStart s =? "")%string.

(** The longest ending of [s] made of white space starts at the first
    position from which everything is white space. *)
Fixpoint trimEnd (s : string) : string :=
  match s with
  | EmptyString => EmptyString
  | String c s' => if blank s then EmptyString else String c (trimEnd s')
  end.

Definition trim (s : string) : string := trimEnd (trimStart s).

(** The test of the regular expression [/jpeg|jpg|png/]: an unanchored
    alternation of three literals, so a substring search for any of
    them. *)
Definition filetypes_test (s : string) : bool :=
  includes "jpeg" s || includes "jpg" s || includes "png" s.

(** ** [path.extname] (Node, POSIX flavour)

    The extension of the last path component: from its last '.' to its
    end; empty when that component has no '.', when its only '.' is its
    first character, or when the component is "..". *)

Fixpoint last_nonempty (l : list string) : string :=
  match l with
  | [] => EmptyString
  | w :: ws =>
      match last_nonempty ws with
      | EmptyString => w
      | b => b
      end
  end.

Definition basename (p : string) : string := last_nonempty (split "/" p).

Fixpoint last_dot_suffix (s : string) : option string :=
  match s with
  | EmptyString => None
  | String c s' =>
      match last_dot_suffix s' with
      | Some e => Some e
      | None => if Ascii.eqb c "." then Some s else None
      end
  end.

Definition extname (p : string) : string :=
  match basename p with
  | EmptyString => EmptyString
  | String _ rest as b =>
      if (b =? "..")%string then EmptyString
      else match last_dot_suffix rest with
           | Some e => e
           | None => EmptyString
           end
  end.

(** [Math.ceil(a / b)] on integers, through the rationals. *)
Definition Math_ceil_div (a b : Z) : Z :=
  Qceiling (inject_Z a / inject_Z b).

End JS.

(* ================================================================== *)
(** * Response payloads *)
(* ================================================================== *)

(** A JSON value, as [res.json] sends it. *)
#[warnings="-register-all"] Inductive json : Type :=
| JNull
| JBool (b : bool)
| JNum (n : Z)
| JStr (s : string)
| JArr (items : list json)
| JObj (fields : list (string * json)).

(** [has_field k j]: some object inside [j], at any depth, has a member
    named [k]. *)
Fixpoint has_field (k : string) (j : json) : bool :=
  match j with
  | JArr items => existsb (has_field k) items
  | JObj fields =>
      existsb (fun kv => (fst kv =? k)%string || has_field k (snd kv)) fields
  | _ => false
  end.

(** A member whose value is [undefined] is left out by [JSON.stringify]. *)
Definition member (k : string) (v : option json) : list (string * json) :=
  match v with
  | Some j => [(k, j)]
  | None => []
  end.

Definition jstr (k : string) (s : string) : list (string * json) := [(k, JStr s)].

(* ================================================================== *)
(** * Documents and collections *)
(* ================================================================== *)

Definition Id := string.

(** Modelled from the spec: the user schema of models/userModel.js, which
    is not among the sources ("identity, username, email, password stored
    only as a one-way hash, profile picture URL, bio").  [password] holds
    the stored hash; it is [None] on a document loaded with
    [.select('-password')]. *)
Record User := mkUser {
  user_id : Id;
  username : string;
  email : string;
  password : option string;
  profilePicture : string;
  bio : string
}.

(** Modelled from the spec: the post schema of models/postModel.js, which
    is not among the sources ("title, content, author, tags, image URL,
    comments of text, user reference and creation time, likes"). *)
Record Comment := mkComment {
  comment_text : option string;
  comment_user : Id;
  comment_createdAt : Z
}.

Record Post := mkPost {
  post_id : Id;
  title : string;
  content : string;
  author : Id;
  tags : list string;
  image : string;
  comments : list Comment;
  likes : list Id;
  createdAt : Z
}.

Record Db := mkDb {
  users : list User;
  posts : list Post
}.

(** What the repository imports from outside. *)
Record Platform := mkPlatform {
  (** [jwt.sign({ id }, JWT_SECRET, { expiresIn: '30d' })] *)
  jwt_sign : Id -> string;
  (** [jwt.verify(token, JWT_SECRET)]: the decoded id, or the message of
      the error it throws; the token may be [undefined]. *)
  jwt_verify : option string -> string + Id;
  (** the salted one-way hash applied when a user is saved *)
  bcrypt_hash : string -> string;
  (** [bcrypt.compare(plain, hash)] *)
  bcrypt_compare : string -> string -> bool;
  (** the database's case-insensitive regular-expression search:
      [None] for a pattern it refuses *)
  regex_i : string -> option (string -> bool);
  (** [Date.now()] *)
  Date_now : Z;
  (** the identifier given to the next created document *)
  new_ObjectId : Id;
  (** [process.env.NODE_ENV === 'development'] *)
  development : bool
}.

(** ** Items thrown and caught *)

(** A JavaScript [Error] object, or a bare string passed to a callback. *)
Inductive Thrown : Type :=
| ErrorObj (name message stack : string)
| ErrorStr (s : string).

Definition new_Error (message : string) : Thrown := ErrorObj "Error" message "".

(** [error.message] *)
Definition err_message (e : Thrown) : option string :=
  match e with
  | ErrorObj _ m _ => Some m
  | ErrorStr _ => None
  end.

(** [error.toString()] *)
Definition err_toString (e : Thrown) : string :=
  match e with
  | ErrorObj n m _ => if (m =? "")%string then n else n ++ ": " ++ m
  | ErrorStr s => s
  end.

(** [error.name === n] *)
Definition err_name_is (e : Thrown) (n : string) : bool :=
  match e with
  | ErrorObj name _ _ => (name =? n)%string
  | ErrorStr _ => false
  end.

(** [Object.values(error.errors).map(err => err.message)]: the messages
    of the field errors of a validation error; none of the items thrown
    here carries any. *)
Definition err_errors (e : Thrown) : list string := [].

(** [error.stack] *)
Definition err_stack (e : Thrown) : option string :=
  match e with
  | ErrorObj _ _ st => Some st
  | ErrorStr _ => None
  end.

(* ================================================================== *)
(** * The handler monad: database, response object, exceptions *)
(* ================================================================== *)

(** The Express response object: the status set so far (200 until
    [res.status] is called) and the payload once [res.json] has sent. *)
Record Res := mkRes {
  statusCode : Z;
  sent : option json
}.

Record World := mkWorld {
  db : Db;
  res : Res
}.

Inductive completion (A : Type) : Type :=
| Returned (a : A)
| Threw (e : Thrown).
Arguments Returned {A} a.
Arguments Threw {A} e.

Definition M (A : Type) : Type := World -> completion A * World.

Definition ret {A} (a : A) : M A := fun w => (Returned a, w).

Definition bind {A B} (m : M A) (k : A -> M B) : M B :=
  fun w =>
    match m w with
    | (Returned a, w') => k a w'
    | (Threw e, w') => (Threw e, w')
    end.

Definition throw {A} (e : Thrown) : M A := fun w => (Threw e, w).

(** [try { body } catch (error) { handler }] *)
Definition try_catch {A} (body : M A) (handler : Thrown -> M A) : M A :=
  fun w =>
    match body w with
    | (Returned a, w') => (Returned a, w')
    | (Threw e, w') => handler e w'
    end.

Declare Scope handler_scope.
Delimit Scope handler_scope with handler.
Notation "x <- m ;; k" := (bind m (fun x => k))
  (at level 61, m at next level, right associativity) : handler_scope.
Notation "m ;; k" := (bind m (fun _ => k))
  (at level 61, right associativity) : handler_scope.
Local Open Scope handler_scope.

Definition get_db : M Db := fun w => (Returned (db w), w).
Definition put_db (d : Db) : M unit :=
  fun w => (Returned tt, mkWorld d (res w)).

(** [res.status(code)] *)
Definition res_status (code : Z) : M unit :=
  fun w => (Returned tt, mkWorld (db w) (mkRes code (sent (res w)))).

(** [res.json(payload)] *)
Definition res_json (payload : json) : M unit :=
  fun w => (Returned tt, mkWorld (db w) (mkRes (statusCode (res w)) (Some payload))).

(** One request against a database: the database and the response it
    leaves. *)
Definition serve (d : Db) (route : M unit) : Db * Res :=
  let w := snd (route (mkWorld d (mkRes 200 None))) in (db w, res w).

(* ================================================================== *)
(** * The models (object-document mapper) *)
(* ================================================================== *)

Definition id_eqb (a b : Id) : bool := (a =? b)%string.

(** ** models/userModel.js *)
Module UserModel.

(** [User.findById(id)] for an [id] that is a well-formed ObjectId, as
    the ids of the path parameters and of the tokens are taken to be (the
    short ids of the examples stand for such ObjectIds).  For a string
    that cannot be cast to an ObjectId mongoose rejects the query with a
    CastError before it compares anything; that case is not part of the
    embedding. *)
Definition findById (id : Id) : M (option User) :=
  d <- get_db ;;
  ret (find (fun u => id_eqb (user_id u) id) (users d)).

(** [.select('-password')] *)
Definition select_minus_password (u : User) : User :=
  mkUser (user_id u) (username u) (email u) None (profilePicture u) (bio u).

(** [User.findOne({ email })] *)
Definition findOne_email (e : string) : M (option User) :=
  d <- get_db ;;
  ret (find (fun u => (email u =? e)%string) (users d)).

(** [User.findOne({ $or: [{ email }, { username }] })] *)
Definition findOne_email_or_username (e n : string) : M (option User) :=
  d <- get_db ;;
  ret (find (fun u => (email u =? e)%string || (username u =? n)%string) (users d)).

(** Modelled from the spec: the unique indexes of userModel.js, which is
    not among the sources ("username and email are globally unique").
    Another document holds the user name or the e-mail of [u]. *)
Definition collides (u : User) (us : list User) : bool :=
  existsb (fun v => negb (id_eqb (user_id v) (user_id u)) &&
                    ((username v =? username u)%string || (email v =? email u)%string)) us.

Fixpoint replace_user (u : User) (us : list User) : list User :=
  match us with
  | [] => []
  | v :: vs => if id_eqb (user_id v) (user_id u) then u :: vs
               else v :: replace_user u vs
  end.

(** Modelled from the spec: [user.save()] of userModel.js, which is not
    among the sources.  A password assigned since the document was loaded
    is hashed before storage ("hashes the password (one-way, salted)
    before storage"); a collision on a unique index is thrown; the
    document replaces the stored one of the same id, or is appended. *)
Definition save (P : Platform) (u : User) (password_modified : bool) : M User :=
  d <- get_db ;;
  if collides u (users d) then
    throw (ErrorObj "MongoServerError" "E11000 duplicate key error collection: users" "")
  else
    let u' := if password_modified
              then mkUser (user_id u) (username u) (email u)
                     (option_map (bcrypt_hash P) (password u))
                     (profilePicture u) (bio u)
              else u in
    let us := if existsb (fun v => id_eqb (user_id v) (user_id u)) (users d)
              then replace_user u' (users d)
              else (users d ++ [u'])%list in
    put_db (mkDb us (posts d)) ;;
    ret u'.

(** [User.create({ username, email, password })] *)
Definition create (P : Platform) (n e p : string) : M User :=
  save P (mkUser (new_ObjectId P) n e (Some p) "" "") true.

(** Modelled from the spec: [user.matchPassword(entered)] of
    userModel.js, the "password-match check" of the credential store. *)
Definition matchPassword (P : Platform) (u : User) (entered : string) : bool :=
  match password u with
  | Some h => bcrypt_compare P entered h
  | None => false
  end.

(** The document as [res.json] serialises it. *)
Definition toJSON (u : User) : json :=
  JObj (jstr "_id" (user_id u) ++ jstr "username" (username u) ++
        jstr "email" (email u) ++
        member "password" (option_map JStr (password u)) ++
        jstr "profilePicture" (profilePicture u) ++ jstr "bio" (bio u))%list.

End UserModel.

(** ** models/postModel.js *)
Module PostModel.

(** [Post.findById(id)], for a well-formed ObjectId (see
    [UserModel.findById]). *)
Definition findById (id : Id) : M (option Post) :=
  d <- get_db ;;
  ret (find (fun p => id_eqb (post_id p) id) (posts d)).

Fixpoint replace_post (p : Post) (ps : list Post) : list Post :=
  match ps with
  | [] => []
  | q :: qs => if id_eqb (post_id q) (post_id p) then p :: qs
               else q :: replace_post p qs
  end.

(** [post.save()]: the document replaces the stored one of the same id,
    or is appended to the collection. *)
Definition save (p : Post) : M Post :=
  d <- get_db ;;
  let ps := if existsb (fun q => id_eqb (post_id q) (post_id p)) (posts d)
            then replace_post p (posts d)
            else (posts d ++ [p])%list in
  put_db (mkDb (users d) ps) ;;
  ret p.

Fixpoint remove_post (id : Id) (ps : list Post) : list Post :=
  match ps with
  | [] => []
  | q :: qs => if id_eqb (post_id q) id then qs else q :: remove_post id qs
  end.

(** [Post.findByIdAndDelete(id)] *)
Definition findByIdAndDelete (id : Id) : M (option Post) :=
  d <- get_db ;;
  match find (fun p => id_eqb (post_id p) id) (posts d) with
  | Some p => put_db (mkDb (users d) (remove_post id (posts d))) ;; ret (Some p)
  | None => ret None
  end.

(** The filter of a query: [{}] or
    [{ $or: [{ title: { $regex: k, $options: 'i' } },
             { content: { $regex: k, $options: 'i' } }] }]. *)
Definition Filter := option string.

Definition compile (P : Platform) (f : Filter) : M (Post -> bool) :=
  match f with
  | None => ret (fun _ => true)
  | Some k =>
      match regex_i P k with
      | Some m => ret (fun p => m (title p) || m (content p))
      | None => throw (ErrorObj "MongoServerError" "Regular expression is invalid" "")
      end
  end.

(** [Post.countDocuments(filter)] *)
Definition countDocuments (P : Platform) (f : Filter) : M Z :=
  m <- compile P f ;;
  d <- get_db ;;
  ret (Z.of_nat (length (filter m (posts d)))).

(** [.sort({ createdAt: -1 })]: newest first, ties in collection order. *)
Fixpoint insert_desc (p : Post) (ps : list Post) : list Post :=
  match ps with
  | [] => [p]
  | q :: qs => if createdAt q <? createdAt p then p :: q :: qs
               else q :: insert_desc p qs
  end.

Fixpoint sort_desc (ps : list Post) : list Post :=
  match ps with
  | [] => []
  | p :: ps' => insert_desc p (sort_desc ps')
  end.

(** [Post.find(filter).sort({ createdAt: -1 }).limit(l).skip(s)]: the
    options of one query, so the skip applies before the limit whatever
    the order of the calls; the database refuses a negative skip. *)
Definition find_sorted (P : Platform) (f : Filter) (l s : Z) : M (list Post) :=
  m <- compile P f ;;
  d <- get_db ;;
  if s <? 0 then
    throw (ErrorObj "MongoServerError" "Skip value must be non-negative" "")
  else
    ret (firstn (Z.to_nat l) (skipn (Z.to_nat s) (sort_desc (filter m (posts d))))).

(** [.populate(path, 'username profilePicture')]: the referenced user
    reduced to the selected fields, [null] when there is none. *)
Definition populated (d : Db) (id : Id) : json :=
  match find (fun u => id_eqb (user_id u) id) (users d) with
  | Some u => JObj (jstr "_id" (user_id u) ++ jstr "username" (username u) ++
                    jstr "profilePicture" (profilePicture u))%list
  | None => JNull
  end.

Definition unpopulated (id : Id) : json := JStr id.

Definition comment_toJSON (user_repr : Id -> json) (c : Comment) : json :=
  JObj (member "text" (option_map JStr (comment_text c)) ++
        [("user", user_repr (comment_user c));
         ("createdAt", JNum (comment_createdAt c))])%list.

(** The document as [res.json] serialises it, the author and the comment
    authors shown through the given representations. *)
Definition toJSON (author_repr user_repr : Id -> json) (p : Post) : json :=
  JObj [("_id", JStr (post_id p));
        ("title", JStr (title p));
        ("content", JStr (content p));
        ("author", author_repr (author p));
        ("tags", JArr (map JStr (tags p)));
        ("image", JStr (image p));
        ("comments", JArr (map (comment_toJSON user_repr) (comments p)));
        ("likes", JArr (map JStr (likes p)));
        ("createdAt", JNum (createdAt p))].

End PostModel.

(* ================================================================== *)
(** * Requests *)
(* ================================================================== *)

(** The file part of a multipart request, as multer presents it to the
    file filter. *)
Record File := mkFile {
  originalname : string;
  mimetype : string;
  size : Z
}.

(** What the handlers read from a request.  A body field is [None] when
    the request does not carry it.  [query_page] is [Number(req.query.page)]
    when that is an integer and [None] when it is [NaN] (parameter absent
    or not numeric). *)
Record Req := mkReq {
  authorization : option string;
  params_id : Id;
  query_page : option Z;
  query_keyword : option string;
  body_username : option string;
  body_email : option string;
  body_password : option string;
  body_bio : option string;
  body_title : option string;
  body_content : option string;
  body_tags : option string;
  body_text : option string;
  file_part : option File
}.

Definition string_of_Z (z : Z) : string := NilZero.string_of_int (Z.to_int z).

(** ** multer *)
Module Multer.

(** [limits: { fileSize: 1024 * 1024 * 5 }] *)
Definition fileSize_limit : Z := 1024 * 1024 * 5.

(** [upload.single(field)] with a disk storage: the file filter decides
    first; an accepted file larger than the limit is refused by multer;
    otherwise the file is stored and [req.file.filename] is set.  A
    request without a file part passes with [req.file] undefined. *)
Definition single (fileFilter : File -> Thrown + bool)
    (filename : File -> string) (req : Req) : Thrown + option string :=
  match file_part req with
  | None => inr None
  | Some f =>
      match fileFilter f with
      | inl e => inl e
      | inr false => inr None
      | inr true =>
          if fileSize_limit <? size f
          then inl (ErrorObj "MulterError" "File too large" "MulterError: File too large")
          else inr (Some (filename f))
      end
  end.

End Multer.

(* ================================================================== *)
(** * middleware/authMiddleware.js *)
(* ================================================================== *)

Module AuthMiddleware.

Definition no_token : M (option User) :=
  res_status 401 ;;
  res_json (JObj (jstr "message" "Not authorized, no token")) ;;
  ret None.

(** [protect]: [Some user] when it calls [next()] with [req.user = user],
    [None] when it has answered the request itself. *)
Definition protect (P : Platform) (req : Req) : M (option User) :=
  if JS.truthy (authorization req) &&
     JS.startsWith (JS.or_else (authorization req) "") "Bearer"
  then
    try_catch
      (let token := nth_error (JS.split " " (JS.or_else (authorization req) "")) 1 in
       decoded <- match jwt_verify P token with
                  | inl msg => throw (ErrorObj "JsonWebTokenError" msg "")
                  | inr id => ret id
                  end ;;
       found <- UserModel.findById decoded ;;
       match found with
       | None => throw (new_Error "User not found")
       | Some u => ret (Some (UserModel.select_minus_password u))
       end)
      (fun error =>
         res_status 401 ;;
         res_json (JObj (jstr "message" "Not authorized, token failed" ++
                         member "error" (option_map JStr (err_message error)))%list) ;;
         ret None)
  else no_token.

End AuthMiddleware.

(* ================================================================== *)
(** * server.js *)
(* ================================================================== *)

Module Server.

(** The error-handling middleware; none of the items thrown here carries
    a [statusCode], so [err.statusCode || 500] is 500. *)
Definition error_middleware (P : Platform) (err : Thrown) : M unit :=
  let statusCode := 500 in
  res_status statusCode ;;
  res_json (JObj (member "message" (option_map JStr (err_message err)) ++
                  (if development P
                   then member "stack" (option_map JStr (err_stack err))
                   else [("stack", JNull)]))%list).

(** [router.METHOD(path, protect, handler)] *)
Definition guarded (P : Platform) (req : Req) (handler : User -> M unit) : M unit :=
  r <- AuthMiddleware.protect P req ;;
  match r with
  | Some user => handler user
  | None => ret tt
  end.

(** [router.METHOD(path, protect, upload.single(field), handler)]: an
    error of the upload goes to the error-handling middleware. *)
Definition guarded_upload (P : Platform) (req : Req)
    (upload : Req -> Thrown + option string)
    (handler : User -> option string -> M unit) : M unit :=
  guarded P req (fun user =>
    match upload req with
    | inl err => error_middleware P err
    | inr file => handler user file
    end).

End Server.

(* ================================================================== *)
(** * routes/postRoutes.js *)
(* ================================================================== *)

Module PostRoutes.

(** [storage.filename]: [`post-${Date.now()}${path.extname(file.originalname)}`] *)
Definition filename (P : Platform) (file : File) : string :=
  "post-" ++ string_of_Z (Date_now P) ++ JS.extname (originalname file).

(** [upload.fileFilter]: [cb(null, true)] is [inr true],
    [cb('Error: Images only!')] is [inl] of that string. *)
Definition fileFilter (file : File) : Thrown + bool :=
  let extname := JS.filetypes_test (JS.toLowerCase (JS.extname (originalname file))) in
  let mimetype := JS.filetypes_test (mimetype file) in
  if extname && mimetype then inr true
  else inl (ErrorStr "Error: Images only!").

Definition upload_single (P : Platform) : Req -> Thrown + option string :=
  Multer.single fileFilter (filename P).

(** [tags.split(',').map(tag => tag.trim())] *)
Definition parse_tags (t : string) : list string := map JS.trim (JS.split "," t).

Definition message (m : option string) : json :=
  JObj (member "message" (option_map JStr m)).

(** [router.post('/')]: create a post. *)
Definition create_post (P : Platform) (req : Req) (user : User) (file : option string) : M unit :=
  try_catch
    (if negb (JS.truthy (body_title req)) || negb (JS.truthy (body_content req)) then
       res_status 400 ;;
       res_json (JObj (jstr "message" "Title and content are required"))
     else
       let post := mkPost (new_ObjectId P)
                     (JS.or_else (body_title req) "")
                     (JS.or_else (body_content req) "")
                     (user_id user)
                     (if JS.truthy (body_tags req)
                      then parse_tags (JS.or_else (body_tags req) "") else [])
                     (match file with
                      | Some fname => "/uploads/posts/" ++ fname
                      | None => ""
                      end)
                     [] [] (Date_now P) in
       createdPost <- PostModel.save post ;;
       populatedPost <- PostModel.findById (post_id createdPost) ;;
       d <- get_db ;;
       res_status 201 ;;
       res_json (match populatedPost with
                 | Some p => PostModel.toJSON (PostModel.populated d) PostModel.unpopulated p
                 | None => JNull
                 end))
    (fun error =>
       if err_name_is error "ValidationError" then
         res_status 400 ;;
         res_json (JObj [("message", JStr "Validation error");
                         ("errors", JArr (map JStr (err_errors error)))])
       else
         res_status 500 ;;
         res_json (JObj [("message", JStr "Failed to create post");
                         ("error", JStr (err_toString error))])).

(** [Number(req.query.page) || 1] *)
Definition page_of (req : Req) : Z :=
  match query_page req with
  | Some n => if n =? 0 then 1 else n
  | None => 1
  end.

(** [router.get('/')]: the posts, newest first, ten to a page. *)
Definition list_posts (P : Platform) (req : Req) : M unit :=
  try_catch
    (let pageSize := 10 in
     let page := page_of req in
     let keyword : PostModel.Filter :=
       if JS.truthy (query_keyword req) then query_keyword req else None in
     count <- PostModel.countDocuments P keyword ;;
     found <- PostModel.find_sorted P keyword pageSize (pageSize * (page - 1)) ;;
     d <- get_db ;;
     res_json (JObj [("posts", JArr (map (PostModel.toJSON (PostModel.populated d)
                                            PostModel.unpopulated) found));
                     ("page", JNum page);
                     ("pages", JNum (JS.Math_ceil_div count pageSize));
                     ("total", JNum count)]))
    (fun error => res_status 400 ;; res_json (message (err_message error))).

(** [router.get('/:id')] *)
Definition get_post (req : Req) : M unit :=
  try_catch
    (post <- PostModel.findById (params_id req) ;;
     d <- get_db ;;
     match post with
     | Some p => res_json (PostModel.toJSON (PostModel.populated d) (PostModel.populated d) p)
     | None => res_status 404 ;; throw (new_Error "Post not found")
     end)
    (fun error => res_status 404 ;; res_json (message (err_message error))).

(** [router.put('/:id')]: update a post. *)
Definition update_post (req : Req) (user : User) (file : option string) : M unit :=
  try_catch
    (found <- PostModel.findById (params_id req) ;;
     match found with
     | Some post =>
         (if negb (author post =? user_id user)%string then
            res_status 401 ;;
            throw (new_Error "Not authorized to update this post")
          else ret tt) ;;
         let title' := JS.or_else (body_title req) (title post) in
         let content' := JS.or_else (body_content req) (content post) in
         let tags' := if JS.truthy (body_tags req)
                      then parse_tags (JS.or_else (body_tags req) "")
                      else tags post in
         let image' := match file with
                       | Some fname => "/uploads/posts/" ++ fname
                       | None => image post
                       end in
         updatedPost <- PostModel.save
           (mkPost (post_id post) title' content' (author post) tags' image'
                   (comments post) (likes post) (createdAt post)) ;;
         res_json (PostModel.toJSON PostModel.unpopulated PostModel.unpopulated updatedPost)
     | None => res_status 404 ;; throw (new_Error "Post not found")
     end)
    (fun error => res_status 400 ;; res_json (message (err_message error))).

(** [router.delete('/:id')] *)
Definition delete_post (req : Req) (user : User) : M unit :=
  try_catch
    (found <- PostModel.findById (params_id req) ;;
     match found with
     | None =>
         res_status 404 ;; res_json (JObj (jstr "message" "Post not found"))
     | Some post =>
         if negb (author post =? user_id user)%string then
           res_status 401 ;;
           res_json (JObj (jstr "message" "Not authorized to delete this post"))
         else
           deletedPost <- PostModel.findByIdAndDelete (params_id req) ;;
           match deletedPost with
           | Some p =>
               res_status 200 ;;
               res_json (JObj [("message", JStr "Post deleted successfully");
                               ("postId", JStr (post_id p))])
           | None =>
               res_status 404 ;;
               res_json (JObj (jstr "message" "Post not found during deletion"))
           end
     end)
    (fun error =>
       res_status 500 ;;
       res_json (JObj (jstr "message" "Server error while deleting post" ++
                       member "error" (option_map JStr (err_message error)))%list)).

(** [router.post('/:id/comments')] *)
Definition add_comment (P : Platform) (req : Req) (user : User) : M unit :=
  try_catch
    (let text := body_text req in
     found <- PostModel.findById (params_id req) ;;
     match found with
     | Some post =>
         let comment := mkComment text (user_id user) (Date_now P) in
         PostModel.save
           (mkPost (post_id post) (title post) (content post) (author post)
                   (tags post) (image post) (comments post ++ [comment])%list
                   (likes post) (createdAt post)) ;;
         updatedPost <- PostModel.findById (params_id req) ;;
         d <- get_db ;;
         res_status 201 ;;
         res_json (JArr (map (PostModel.comment_toJSON (PostModel.populated d))
                             (match updatedPost with
                              | Some p => comments p
                              | None => []
                              end)))
     | None => res_status 404 ;; throw (new_Error "Post not found")
     end)
    (fun error => res_status 400 ;; res_json (message (err_message error))).

(** [post.likes.findIndex(id => id.toString() === req.user._id.toString())
    === -1] *)
Definition not_liked (l : list Id) (uid : Id) : bool :=
  negb (existsb (fun id => (id =? uid)%string) l).

(** The new like list: the caller pushed when absent, every occurrence
    of the caller filtered out otherwise. *)
Definition toggle (l : list Id) (uid : Id) : list Id :=
  if not_liked l uid then (l ++ [uid])%list
  else filter (fun id => negb (id =? uid)%string) l.

(** [router.patch('/:id/like')] *)
Definition like_post (req : Req) (user : User) : M unit :=
  try_catch
    (found <- PostModel.findById (params_id req) ;;
     match found with
     | None =>
         res_status 404 ;; res_json (JObj (jstr "message" "Post not found"))
     | Some post =>
         updatedPost <- PostModel.save
           (mkPost (post_id post) (title post) (content post) (author post)
                   (tags post) (image post) (comments post)
                   (toggle (likes post) (user_id user)) (createdAt post)) ;;
         res_json (JArr (map JStr (likes updatedPost)))
     end)
    (fun error => res_status 400 ;; res_json (message (err_message error))).

(** The routes as mounted, behind their middleware. *)
Definition POST_posts (P : Platform) (req : Req) : M unit :=
  Server.guarded_upload P req (upload_single P) (create_post P req).
Definition GET_posts (P : Platform) (req : Req) : M unit := list_posts P req.
Definition GET_post (P : Platform) (req : Req) : M unit := get_post req.
Definition PUT_post (P : Platform) (req : Req) : M unit :=
  Server.guarded_upload P req (upload_single P) (update_post req).
Definition DELETE_post (P : Platform) (req : Req) : M unit :=
  Server.guarded P req (delete_post req).
Definition POST_comment (P : Platform) (req : Req) : M unit :=
  Server.guarded P req (add_comment P req).
Definition PATCH_like (P : Platform) (req : Req) : M unit :=
  Server.guarded P req (like_post req).

End PostRoutes.

(* ================================================================== *)
(** * routes/userRoutes.js *)
(* ================================================================== *)

Module UserRoutes.

(** [storage.filename]: [`user-${Date.now()}${path.extname(file.originalname)}`] *)
Definition filename (P : Platform) (file : File) : string :=
  "user-" ++ string_of_Z (Date_now P) ++ JS.extname (originalname file).

(** [upload.fileFilter] *)
Definition fileFilter (file : File) : Thrown + bool :=
  let extname := JS.filetypes_test (JS.toLowerCase (JS.extname (originalname file))) in
  let mimetype := JS.filetypes_test (mimetype file) in
  if extname && mimetype then inr true
  else inl (ErrorStr "Error: Images only!").

Definition upload_single (P : Platform) : Req -> Thrown + option string :=
  Multer.single fileFilter (filename P).

(** [generateToken] *)
Definition generateToken (P : Platform) (id : Id) : string := jwt_sign P id.

(** [error.message || fallback] *)
Definition message_or (error : Thrown) (fallback : string) : string :=
  JS.or_else (err_message error) fallback.

(** [router.post('/register')] *)
Definition register (P : Platform) (req : Req) : M unit :=
  try_catch
    (if negb (JS.truthy (body_username req)) || negb (JS.truthy (body_email req))
        || negb (JS.truthy (body_password req)) then
       res_status 400 ;;
       res_json (JObj (jstr "message" "Please provide all required fields"))
     else
       let username_ := JS.or_else (body_username req) "" in
       let email_ := JS.or_else (body_email req) "" in
       let password_ := JS.or_else (body_password req) "" in
       userExists <- UserModel.findOne_email_or_username email_ username_ ;;
       match userExists with
       | Some existing =>
           res_status 400 ;;
           res_json (JObj (jstr "message"
                             (if (email existing =? email_)%string
                              then "Email already registered"
                              else "Username already taken")))
       | None =>
           user <- UserModel.create P username_ email_ password_ ;;
           let token := generateToken P (user_id user) in
           res_status 201 ;;
           res_json (JObj [("_id", JStr (user_id user));
                           ("username", JStr (username user));
                           ("email", JStr (email user));
                           ("token", JStr token)])
       end)
    (fun error =>
       res_status 400 ;;
       res_json (JObj [("message", JStr (message_or error "Registration failed"));
                       ("error", JStr (err_toString error))])).

(** [router.post('/login')] *)
Definition login (P : Platform) (req : Req) : M unit :=
  try_catch
    (if negb (JS.truthy (body_email req)) || negb (JS.truthy (body_password req)) then
       res_status 400 ;;
       res_json (JObj (jstr "message" "Please provide email and password"))
     else
       let email_ := JS.or_else (body_email req) "" in
       let password_ := JS.or_else (body_password req) "" in
       found <- UserModel.findOne_email email_ ;;
       match found with
       | None =>
           res_status 401 ;;
           res_json (JObj (jstr "message" "Invalid email or password"))
       | Some user =>
           let isMatch := UserModel.matchPassword P user password_ in
           if negb isMatch then
             res_status 401 ;;
             res_json (JObj (jstr "message" "Invalid email or password"))
           else
             let token := generateToken P (user_id user) in
             res_json (JObj [("_id", JStr (user_id user));
                             ("username", JStr (username user));
                             ("email", JStr (email user));
                             ("profilePicture", JStr (profilePicture user));
                             ("token", JStr token)])
       end)
    (fun error =>
       res_status 401 ;;
       res_json (JObj [("message", JStr (message_or error "Login failed"));
                       ("error", JStr (err_toString error))])).

(** [router.put('/profile')] *)
Definition update_profile (P : Platform) (req : Req) (caller : User)
    (file : option string) : M unit :=
  try_catch
    (found <- UserModel.findById (user_id caller) ;;
     match found with
     | Some user =>
         let username' := JS.or_else (body_username req) (username user) in
         let email' := JS.or_else (body_email req) (email user) in
         let bio' := JS.or_else (body_bio req) (bio user) in
         let profilePicture' := match file with
                                | Some fname => "/uploads/profiles/" ++ fname
                                | None => profilePicture user
                                end in
         let password' := if JS.truthy (body_password req)
                          then body_password req else password user in
         updatedUser <- UserModel.save P
           (mkUser (user_id user) username' email' password' profilePicture' bio')
           (JS.truthy (body_password req)) ;;
         res_json (JObj [("_id", JStr (user_id updatedUser));
                         ("username", JStr (username updatedUser));
                         ("email", JStr (email updatedUser));
                         ("profilePicture", JStr (profilePicture updatedUser));
                         ("bio", JStr (bio updatedUser));
                         ("token", JStr (generateToken P (user_id updatedUser)))])
     | None => res_status 404 ;; throw (new_Error "User not found")
     end)
    (fun error =>
       res_status 400 ;;
       res_json (JObj (member "message" (option_map JStr (err_message error))))).

(** [router.get('/profile/:id')] *)
Definition get_profile (req : Req) : M unit :=
  try_catch
    (found <- UserModel.findById (params_id req) ;;
     match option_map UserModel.select_minus_password found with
     | Some user => res_json (UserModel.toJSON user)
     | None => res_status 404 ;; throw (new_Error "User not found")
     end)
    (fun error =>
       res_status 404 ;;
       res_json (JObj (member "message" (option_map JStr (err_message error))))).

(** The routes as mounted, behind their middleware. *)
Definition POST_register (P : Platform) (req : Req) : M unit := register P req.
Definition POST_login (P : Platform) (req : Req) : M unit := login P req.
Definition PUT_profile (P : Platform) (req : Req) : M unit :=
  Server.guarded_upload P req (upload_single P) (update_profile P req).
Definition GET_profile (P : Platform) (req : Req) : M unit := get_profile req.

End UserRoutes.

(** The endpoints of the HTTP surface. *)
Inductive Endpoint : Type :=
| PostRegister | PostLogin | PutProfile | GetProfile
| PostPosts | GetPosts | GetPost | PutPost | DeletePost
| PostComment | PatchLike.

Definition route (P : Platform) (ep : Endpoint) (req : Req) : M unit :=
  match ep with
  | PostRegister => UserRoutes.POST_register P req
  | PostLogin => UserRoutes.POST_login P req
  | PutProfile => UserRoutes.PUT_profile P req
  | GetProfile => UserRoutes.GET_profile P req
  | PostPosts => PostRoutes.POST_posts P req
  | GetPosts => PostRoutes.GET_posts P req
  | GetPost => PostRoutes.GET_post P req
  | PutPost => PostRoutes.PUT_post P req
  | DeletePost => PostRoutes.DELETE_post P req
  | PostComment => PostRoutes.POST_comment P req
  | PatchLike => PostRoutes.PATCH_like P req
  end.

(** ** A concrete platform and database, for examples *)

Definition demo_platform : Platform :=
  mkPlatform
    (fun id => "tok:" ++ id)
    (fun t => match t with
              | None => inl "jwt must be provided"
              | Some s => if JS.startsWith s "tok:"
                          then inr (substring 4 (String.length s - 4) s)
                          else inl "jwt malformed"
              end)
    (fun p => "hash:" ++ p)
    (fun p h => (h =? "hash:" ++ p)%string)
    (fun k => Some (fun s => JS.includes (JS.toLowerCase k) (JS.toLowerCase s)))
    1700000000000
    "p9"
    false.

Definition alice : User := mkUser "u1" "alice" "alice@example.com" (Some "hash:secret") "" "".
Definition bob : User := mkUser "u2" "bob" "bob@example.com" (Some "hash:hunter2") "" "".

Definition post1 : Post :=
  mkPost "p1" "T" "C" "u1" ["news"] "" [] ["u2"; "u1"] 1000.

Definition demo_db : Db := mkDb [alice; bob] [post1].

Definition blank_req : Req :=
  mkReq None "" None None None None None None None None None None None.

(* ================================================================== *)
(** * Vocabulary of the properties *)
(* ================================================================== *)

Definition no_token_res : Res :=
  mkRes 401 (Some (JObj [("message", JStr "Not authorized, no token")])).

Definition token_failed_res (msg : string) : Res :=
  mkRes 401 (Some (JObj [("message", JStr "Not authorized, token failed");
                         ("error", JStr msg)])).

(** The header shape the specification asks for: the string "Bearer", a
    space, and a (non-empty) token. *)
Definition bearer_shaped (h : string) : bool :=
  String.prefix "Bearer " h && (7 <? String.length h)%nat.

(** The guard as the specification words it: a request passes only with
    a header of that shape, and a request with an absent or differently
    shaped header is answered 401 "no token" whatever the handler is. *)
Definition spec_auth_guard : Prop :=
  forall (P : Platform) (d : Db) (req : Req),
    (forall u w w', AuthMiddleware.protect P req w = (Returned (Some u), w') ->
       exists h, authorization req = Some h /\ bearer_shaped h = true) /\
    (match authorization req with
     | Some h => bearer_shaped h = false
     | None => True
     end ->
     forall handler, serve d (Server.guarded P req handler) = (d, no_token_res)).

Definition with_authorization (h : string) (r : Req) : Req :=
  mkReq (Some h) (params_id r) (query_page r) (query_keyword r)
        (body_username r) (body_email r) (body_password r) (body_bio r)
        (body_title r) (body_content r) (body_tags r) (body_text r) (file_part r).

Definition with_id (id : Id) (r : Req) : Req :=
  mkReq (authorization r) id (query_page r) (query_keyword r)
        (body_username r) (body_email r) (body_password r) (body_bio r)
        (body_title r) (body_content r) (body_tags r) (body_text r) (file_part r).

(** The allow-list as the specification words it: the extension, in any
    letter case, is one of jpeg, jpg, png, and so is the image type the
    request declares. *)
Definition spec_allowed_extension (name : string) : bool :=
  existsb (String.eqb (JS.toLowerCase (JS.extname name))) [".jpeg"; ".jpg"; ".png"].

Definition spec_allowed_mimetype (m : string) : bool :=
  existsb (String.eqb m) ["image/jpeg"; "image/jpg"; "image/png"].

Definition images_only : Thrown + bool := inl (ErrorStr "Error: Images only!").

Definition find_post (d : Db) (id : Id) : option Post :=
  find (fun p => id_eqb (post_id p) id) (posts d).

Definition find_user (d : Db) (id : Id) : option User :=
  find (fun u => id_eqb (user_id u) id) (users d).

Definition message_res (code : Z) (m : string) : Res :=
  mkRes code (Some (JObj [("message", JStr m)])).

(** Bob (u2) asks to change and to delete post p1, which Alice (u1)
    wrote. *)
Definition bob_on_p1 : Req :=
  with_authorization "Bearer tok:u2" (with_id "p1" blank_req).

(** Bob asks for post p7, which does not exist. *)
Definition bob_on_p7 : Req :=
  with_authorization "Bearer tok:u2" (with_id "p7" blank_req).

Definition find_email (d : Db) (e : string) : option User :=
  find (fun u => (email u =? e)%string) (users d).

Definition invalid_credentials : Res := message_res 401 "Invalid email or password".

Definition login_req (e p : option string) : Req :=
  mkReq None "" None None None e p None None None None None None.

(** The post an accepted update stores. *)
Definition updated_post (req : Req) (file : option string) (post : Post) : Post :=
  mkPost (post_id post)
    (JS.or_else (body_title req) (title post))
    (JS.or_else (body_content req) (content post))
    (author post)
    (if JS.truthy (body_tags req)
     then PostRoutes.parse_tags (JS.or_else (body_tags req) "") else tags post)
    (match file with
     | Some fname => "/uploads/posts/" ++ fname
     | None => image post
     end)
    (comments post) (likes post) (createdAt post).

(** The user document an accepted profile update hands to [save], and
    the one [save] stores. *)
Definition edited_user (req : Req) (file : option string) (user : User) : User :=
  mkUser (user_id user)
    (JS.or_else (body_username req) (username user))
    (JS.or_else (body_email req) (email user))
    (if JS.truthy (body_password req) then body_password req else password user)
    (match file with
     | Some fname => "/uploads/profiles/" ++ fname
     | None => profilePicture user
     end)
    (JS.or_else (body_bio req) (bio user)).

Definition updated_user (P : Platform) (req : Req) (file : option string)
    (user : User) : User :=
  let e := edited_user req file user in
  if JS.truthy (body_password req)
  then mkUser (user_id e) (username e) (email e)
         (option_map (bcrypt_hash P) (password e)) (profilePicture e) (bio e)
  else e.

(** [overwritten field conv old new]: a field that the request carries
    with a value replaces the stored value (by that value, converted by
    [conv]); an absent field leaves it, and so does a field that is
    present but empty, which is not taken as clearing. *)
Definition overwritten {A} (field : option string) (conv : string -> A)
    (old new : A) : Prop :=
  match field with
  | Some (String c t) => new = conv (String c t)
  | _ => new = old
  end.

Definition alice_on_p1 (t : option string) : Req :=
  mkReq (Some "Bearer tok:u1") "p1" None None None None None None t None None None None.

(** Bob sends a new bio and an empty user name. *)
Definition bob_edits_bio : Req :=
  mkReq (Some "Bearer tok:u2") "" None None (Some "") None None (Some "Gardener")
        None None None None None.

(** The post a like request stores. *)
Definition with_likes (post : Post) (l : list Id) : Post :=
  mkPost (post_id post) (title post) (content post) (author post)
         (tags post) (image post) (comments post) l (createdAt post).

(** The database after the same caller has sent the like request twice. *)
Definition liked_twice (d : Db) (req : Req) (user : User) : Db :=
  fst (serve (fst (serve d (PostRoutes.like_post req user)))
             (PostRoutes.like_post req user)).

(** The claim as the specification words it: after two toggles by the
    same caller the like list of the post is the list it was. *)
Definition spec_toggle_round_trip : Prop :=
  forall (d : Db) (req : Req) (user : User) (post : Post),
    find_post d (params_id req) = Some post ->
    exists post2,
      find_post (liked_twice d req user) (params_id req) = Some post2 /\
      likes post2 = likes post.

Definition bob_likes_p1 : Req := with_id "p1" blank_req.

(** The filter the listing builds from the query string. *)
Definition keyword_of (req : Req) : PostModel.Filter :=
  if JS.truthy (query_keyword req) then query_keyword req else None.

(** The documents a filter selects, when the database accepts its
    pattern. *)
Definition matcher (P : Platform) (f : PostModel.Filter) : option (Post -> bool) :=
  match f with
  | None => Some (fun _ => true)
  | Some k => option_map (fun m p => m (title p) || m (content p)) (regex_i P k)
  end.

(** The order of the listing: [a] may come before [b]. *)
Definition newer_or_same (a b : Post) : Prop := createdAt b <= createdAt a.

(** A post as the listing shows it: the author populated. *)
Definition listed_post (d : Db) : Post -> json :=
  PostModel.toJSON (PostModel.populated d) PostModel.unpopulated.

(** Twelve posts by Alice, created at times 1 to 12. *)
Definition twelve_posts : Db :=
  mkDb [alice; bob]
       (map (fun n => mkPost ("p" ++ string_of_Z n) "T" "C" "u1" [] "" [] [] n)
            [1; 2; 3; 4; 5; 6; 7; 8; 9; 10; 11; 12]).

Definition page_two : Req :=
  mkReq None "" (Some 2) None None None None None None None None None None.

(** The payload sent so far, if any, has no member named "password". *)
Definition discreet (w : World) : Prop :=
  match sent (res w) with
  | Some j => has_field "password" j = false
  | None => True
  end.

(** A computation that never sends a payload with such a member. *)
Definition keeps {A} (m : M A) : Prop :=
  forall w, discreet w -> discreet (snd (m w)).

(* ================================================================== *)
(** * Vocabulary of the further properties *)
(* ================================================================== *)

(** The first stored user with the given e-mail or user name, as
    [User.findOne({ $or: [{ email }, { username }] })] finds it. *)
Definition find_email_or_username (d : Db) (e n : string) : option User :=
  find (fun u => (email u =? e)%string || (username u =? n)%string) (users d).

(** The three fields of a registration, as the handler reads them. *)
Definition reg_username (req : Req) : string := JS.or_else (body_username req) "".
Definition reg_email (req : Req) : string := JS.or_else (body_email req) "".
Definition reg_password (req : Req) : string := JS.or_else (body_password req) "".

(** The user a successful registration stores. *)
Definition registered_user (P : Platform) (req : Req) : User :=
  mkUser (new_ObjectId P) (reg_username req) (reg_email req)
         (Some (bcrypt_hash P (reg_password req))) "" "".

Definition register_req (n e p : option string) : Req :=
  mkReq None "" None None n e p None None None None None None.

Definition carol_registers : Req :=
  register_req (Some "carol") (Some "carol@example.com") (Some "s3cret").

(** The answer of a successful login. *)
Definition logged_in (P : Platform) (u : User) : Res :=
  mkRes 200 (Some (JObj [("_id", JStr (user_id u));
                         ("username", JStr (username u));
                         ("email", JStr (email u));
                         ("profilePicture", JStr (profilePicture u));
                         ("token", JStr (jwt_sign P (user_id u)))])).

(** A computation that keeps a property of the database. *)
Definition stable {A} (J : Db -> Prop) (m : M A) : Prop :=
  forall w, J (db w) -> J (db (snd (m w))).

(** The post a comment request stores. *)
Definition with_comment (P : Platform) (req : Req) (user : User) (post : Post) : Post :=
  mkPost (post_id post) (title post) (content post) (author post)
         (tags post) (image post)
         (comments post ++ [mkComment (body_text req) (user_id user) (Date_now P)])%list
         (likes post) (createdAt post).

(** The post a create request stores. *)
Definition created_post (P : Platform) (req : Req) (user : User)
    (file : option string) : Post :=
  mkPost (new_ObjectId P)
         (JS.or_else (body_title req) "")
         (JS.or_else (body_content req) "")
         (user_id user)
         (if JS.truthy (body_tags req)
          then PostRoutes.parse_tags (JS.or_else (body_tags req) "") else [])
         (match file with
          | Some fname => "/uploads/posts/" ++ fname
          | None => ""
          end)
         [] [] (Date_now P).

(** The answer of the error-handling middleware to an item thrown. *)
Definition error_res (P : Platform) (err : Thrown) : Res :=
  mkRes 500
    (Some (JObj (member "message" (option_map JStr (err_message err)) ++
                 (if development P
                  then member "stack" (option_map JStr (err_stack err))
                  else [("stack", JNull)]))%list)).

(** The endpoints that mutate one post, addressed by [req.params.id]. *)
Definition mutates_post (ep : Endpoint) : bool :=
  match ep with
  | PutPost | DeletePost | PostComment | PatchLike => true
  | _ => false
  end.

(** The endpoints that only read. *)
Definition reads_only (ep : Endpoint) : bool :=
  match ep with
  | PostLogin | GetProfile | GetPosts | GetPost => true
  | _ => false
  end.

(** The endpoints behind [upload.single]. *)
Definition takes_upload (ep : Endpoint) : bool :=
  match ep with
  | PutProfile | PostPosts | PutPost => true
  | _ => false
  end.

(** The file filter and file name of the upload of an endpoint. *)
Definition upload_of (P : Platform) (ep : Endpoint) : Req -> Thrown + option string :=
  match ep with
  | PutProfile => UserRoutes.upload_single P
  | _ => PostRoutes.upload_single P
  end.

(** A request to create a post with the given title and content. *)
Definition new_post_req (t c tags : option string) : Req :=
  mkReq None "" None None None None None None t c tags None None.

(** A comment request on post [id] with the given text. *)
Definition comment_req (id : Id) (text : option string) : Req :=
  mkReq None id None None None None None None None None None text None.

(** A request that uploads a file. *)
Definition upload_req (auth : string) (id : Id) (f : File) : Req :=
  mkReq (Some auth) id None None None None None None None None None None (Some f).

Definition gif_upload : Req :=
  upload_req "Bearer tok:u1" "p1" (mkFile "clip.gif" "image/gif" 2048).

(** The same listing request, for another page. *)
Definition with_page (p : Z) (r : Req) : Req :=
  mkReq (authorization r) (params_id r) (Some p) (query_keyword r)
        (body_username r) (body_email r) (body_password r) (body_bio r)
        (body_title r) (body_content r) (body_tags r) (body_text r) (file_part r).

(** The documents of page [p] of a list, ten to a page. *)
Definition page_docs (l : list Post) (p : Z) : list Post :=
  firstn 10 (skipn (Z.to_nat (10 * (p - 1))) l).

(** The answer of the listing for page [p] of the matching documents. *)
Definition listing_res (d : Db) (matching : list Post) (p : Z) : Res :=
  mkRes 200
    (Some (JObj [("posts", JArr (map (listed_post d) (page_docs matching p)));
                 ("page", JNum p);
                 ("pages", JNum (JS.Math_ceil_div (Z.of_nat (length matching)) 10));
                 ("total", JNum (Z.of_nat (length matching)))])).

(** How often a character occurs in a string. *)
Fixpoint count_char (c : ascii) (s : string) : nat :=
  match s with
  | EmptyString => 0
  | String x s' => (if Ascii.eqb x c then 1 else 0) + count_char c s'
  end.

(** A string made of white-space characters only. *)
Inductive Blank : string -> Prop :=
| Blank_nil : Blank ""
| Blank_cons (w r : string) : In w JS.white_space -> Blank r -> Blank (w ++ r).

(** [tag] neither begins nor ends with a white-space character. *)
Definition unpadded (tag : string) : Prop :=
  (forall w r, In w JS.white_space -> tag <> w ++ r) /\
  (forall r w, In w JS.white_space -> tag <> r ++ w).

(** [tag] is [piece] without the white space around it. *)
Definition trimmed_of (piece tag : string) : Prop :=
  (exists a b, piece = a ++ tag ++ b /\ Blank a /\ Blank b) /\ unpadded tag.

(** The tags of a request field, as a client writes them. *)
Definition plain_tag (x : string) : Prop := unpadded x /\ count_char "," x = 0%nat.




(* ================================================================== *)
(** * server.js: connecting to the database at start-up *)
(* ================================================================== *)

Module Startup.

(** What the start-up does that can be observed, in order. *)
Inductive Event : Type :=
| Connect (retryCount : nat)   (** the [try] block of [connectDB(retryCount)] starts *)
| Connected                    (** the [try] block has completed *)
| RetryIn (ms : Z) (retryCount : nat)
                               (** [setTimeout(() => connectDB(retryCount), ms)] *)
| Exit (code : Z)              (** [process.exit(code)] *)
| Listen.                      (** [app.listen(PORT)] *)

(** One call of [connectDB(retryCount)], up to the end of its body: its
    events and the retry it has scheduled, if any.  [ok retryCount]
    tells whether the [try] block of that call (the connection and the
    listing of the collections) completes. *)
Definition connectDB_call (ok : nat -> bool) (retryCount : nat)
    : list Event * option nat :=
  if ok retryCount then ([Connect retryCount; Connected], None)
  else if (retryCount <? 3)%nat
       then ([Connect retryCount; RetryIn 5000 (retryCount + 1)], Some (retryCount + 1)%nat)
       else ([Connect retryCount; Exit 1], None).

(** The call and the retries its timers start, one after the other. *)
Fixpoint connectDB_from (fuel : nat) (ok : nat -> bool) (retryCount : nat) : list Event :=
  let (events, next) := connectDB_call ok retryCount in
  match next, fuel with
  | Some n, S fuel' => (events ++ connectDB_from fuel' ok n)%list
  | _, _ => events
  end.

(** [connectDB(retryCount)] and all that follows from it: a call with
    [retryCount] schedules at most [3 - retryCount] further calls. *)
Definition connectDB (ok : nat -> bool) (retryCount : nat) : list Event :=
  connectDB_from (3 - retryCount) ok retryCount.

(** [connectDB().then(() => app.listen(PORT, ...))]: the promise of the
    first call resolves at the end of its body, whatever happened in it
    (its [catch] block swallows the error), so the server starts to
    listen then; the retries run from their timers afterwards. *)
Definition start (ok : nat -> bool) : list Event :=
  let (events, next) := connectDB_call ok 0 in
  (events ++ Listen ::
   match next with
   | Some n => connectDB ok n
   | None => []
   end)%list.

Definition is_connect (e : Event) : bool :=
  match e with Connect _ => true | _ => false end.

Definition is_exit (e : Event) : bool :=
  match e with Exit _ => true | _ => false end.

Definition is_connected (e : Event) : bool :=
  match e with Connected => true | _ => false end.

(** The number of connection attempts in a trace. *)
Definition attempts (t : list Event) : nat := length (filter is_connect t).

(** The first attempt that succeeds, among attempts [n], [n+1], ..., 3. *)
Fixpoint first_ok (fuel : nat) (ok : nat -> bool) (n : nat) : option nat :=
  if ok n then Some n
  else match fuel with
       | O => None
       | S fuel' => first_ok fuel' ok (S n)
       end.

End Startup.

(** The documents of each collection have distinct ids. *)
Definition distinct_ids (d : Db) : Prop :=
  NoDup (map post_id (posts d)) /\ NoDup (map user_id (users d)).

(** No stored user has this e-mail or this user name twice. *)
Definition distinct_credentials (d : Db) : Prop :=
  NoDup (map email (users d)) /\ NoDup (map username (users d)).

(** Attempts 0 and 1 fail, attempt 2 succeeds. *)
Definition third_time_lucky (n : nat) : bool := (2 <=? n)%nat.

(* ================================================================== *)
(** * Properties *)
(* ================================================================== *)

(** ** The monad: running a handler step by step *)

Lemma bind_returned {A B} (m : M A) (k : A -> M B) w a w' :
  m w = (Returned a, w') -> bind m k w = k a w'.
Proof. intros H. unfold bind. now rewrite H. Qed.

(** ** Strings *)

Lemma includes_space_cons (c : ascii) (t : string) :
  JS.includes " " (String c t) = Ascii.eqb c " " || JS.includes " " t.
Proof.
  cbn [JS.includes String.prefix].
  destruct (ascii_dec " " c) as [<-|Hc]; [destruct t; reflexivity|].
  destruct (Ascii.eqb_spec c " ") as [->|_]; [now elim Hc | reflexivity].
Qed.

Lemma split_no_space (t : string) :
  JS.includes " " t = false -> JS.split " " t = [t].
Proof.
  induction t as [|c t IH]; intros H; [reflexivity|].
  rewrite includes_space_cons in H.
  apply orb_false_iff in H as [Hc Ht].
  cbn [JS.split]. rewrite Hc, (IH Ht). reflexivity.
Qed.

Lemma split_not_nil (sep : ascii) (s : string) : JS.split sep s <> [].
Proof.
  destruct s as [|c s]; [discriminate|]. cbn [JS.split].
  destruct (Ascii.eqb c sep); [discriminate|].
  destruct (JS.split sep s); discriminate.
Qed.

(** The examples of the Node documentation of [path.extname]. *)
Example extname_examples :
  JS.extname "index.html" = ".html" /\
  JS.extname "index.coffee.md" = ".md" /\
  JS.extname "index." = "." /\
  JS.extname "index" = "" /\
  JS.extname ".index" = "" /\
  JS.extname ".index.md" = ".md".
Proof. repeat split; reflexivity. Qed.

(** The token of a header that is exactly "Bearer", a space and a token
    without spaces is that token. *)
Lemma bearer_token_extracted (t : string) :
  JS.includes " " t = false ->
  JS.startsWith ("Bearer " ++ t) "Bearer" = true /\
  nth_error (JS.split " " ("Bearer " ++ t)) 1 = Some t.
Proof.
  intros H. split; [reflexivity|].
  cbn. rewrite (split_no_space t H). reflexivity.
Qed.

(* ------------------------------------------------------------------ *)
(** ** The Auth Guard *)
(* ------------------------------------------------------------------ *)

Lemma startsWith_truthy (a : option string) :
  JS.truthy a && JS.startsWith (JS.or_else a "") "Bearer"
  = JS.startsWith (JS.or_else a "") "Bearer".
Proof.
  destruct a as [s|]; [|reflexivity].
  destruct s; reflexivity.
Qed.

(** What [protect] does on a world, case by case. *)
Lemma protect_run (P : Platform) (req : Req) (w : World) :
  let h := JS.or_else (authorization req) "" in
  AuthMiddleware.protect P req w =
  if JS.startsWith h "Bearer" then
    match jwt_verify P (nth_error (JS.split " " h) 1) with
    | inl msg => (Returned None, mkWorld (db w) (token_failed_res msg))
    | inr id =>
        match find (fun u => id_eqb (user_id u) id) (users (db w)) with
        | None => (Returned None, mkWorld (db w) (token_failed_res "User not found"))
        | Some u => (Returned (Some (UserModel.select_minus_password u)), w)
        end
    end
  else (Returned None, mkWorld (db w) no_token_res).
Proof.
  cbv zeta. unfold AuthMiddleware.protect.
  rewrite startsWith_truthy.
  destruct (JS.startsWith (JS.or_else (authorization req) "") "Bearer"); [|reflexivity].
  unfold try_catch, bind at 1.
  destruct (jwt_verify P _) as [msg|id]; [reflexivity|].
  cbn. destruct (find _ (users (db w))); [|reflexivity].
  now destruct w.
Qed.

(** C2 (as amended): the guard answers 401 "no token" exactly when the
    Authorization header is absent, empty or does not start with
    "Bearer".  A header that starts with "Bearer" goes down the token
    path, the token being the second of the pieces the header splits
    into at its spaces (undefined when there is none): the guard answers
    401 "token failed" when that token does not verify or its user is
    not found, and otherwise hands the request to the handler with the
    user loaded without the password.  Whenever the guard answers, the
    status is 401, the database is untouched and the answer is the same
    for every handler: the handler body does not run. *)
Theorem protect_contract (P : Platform) (req : Req) (d : Db) :
  let h := JS.or_else (authorization req) "" in
  if JS.startsWith h "Bearer" then
    match jwt_verify P (nth_error (JS.split " " h) 1) with
    | inl msg =>
        forall handler, serve d (Server.guarded P req handler) = (d, token_failed_res msg)
    | inr id =>
        match find (fun u => id_eqb (user_id u) id) (users d) with
        | None =>
            forall handler,
              serve d (Server.guarded P req handler) = (d, token_failed_res "User not found")
        | Some u =>
            forall handler,
              serve d (Server.guarded P req handler)
              = serve d (handler (UserModel.select_minus_password u))
        end
    end
  else
    forall handler, serve d (Server.guarded P req handler) = (d, no_token_res).
Proof.
  cbv zeta.
  pose proof (protect_run P req (mkWorld d (mkRes 200 None))) as Hrun.
  cbv zeta in Hrun. cbn [db] in Hrun.
  destruct (JS.startsWith (JS.or_else (authorization req) "") "Bearer").
  - destruct (jwt_verify P _) as [msg|id].
    + intros handler. unfold serve, Server.guarded.
      rewrite (bind_returned _ _ _ _ _ Hrun). reflexivity.
    + destruct (find _ (users d)) as [u|]; intros handler;
        unfold serve, Server.guarded;
        rewrite (bind_returned _ _ _ _ _ Hrun); reflexivity.
  - intros handler. unfold serve, Server.guarded.
    rewrite (bind_returned _ _ _ _ _ Hrun). reflexivity.
Qed.

(** C2 (as the specification words it) fails: the header "Bearer" alone
    is not of the required shape, yet the guard answers it with the
    "token failed" error, not the "no token" one. *)
Lemma spec_auth_guard_fails : ~ spec_auth_guard.
Proof.
  intros H.
  destruct (H demo_platform demo_db (with_authorization "Bearer" blank_req)) as [_ H2].
  specialize (H2 eq_refl (fun _ => ret tt)).
  vm_compute in H2. discriminate H2.
Qed.

(** The other half fails as well: a header that merely starts with
    "Bearer" passes the guard when its second piece is a valid token. *)
Example protect_accepts_unshaped_header :
  bearer_shaped "Bearerx tok:u2" = false /\
  fst (AuthMiddleware.protect demo_platform
         (with_authorization "Bearerx tok:u2" blank_req)
         (mkWorld demo_db (mkRes 200 None)))
  = Returned (Some (UserModel.select_minus_password bob)).
Proof. split; reflexivity. Qed.

(* ------------------------------------------------------------------ *)
(** ** The upload file filter *)
(* ------------------------------------------------------------------ *)

Lemma allowed_extension_passes (name : string) :
  spec_allowed_extension name = true ->
  JS.filetypes_test (JS.toLowerCase (JS.extname name)) = true.
Proof.
  unfold spec_allowed_extension. cbn [existsb].
  repeat rewrite orb_true_iff.
  intros [H|[H|[H|H]]]; try discriminate H;
    apply String.eqb_eq in H; rewrite H; reflexivity.
Qed.

Lemma allowed_mimetype_passes (m : string) :
  spec_allowed_mimetype m = true -> JS.filetypes_test m = true.
Proof.
  unfold spec_allowed_mimetype. cbn [existsb].
  repeat rewrite orb_true_iff.
  intros [H|[H|[H|H]]]; try discriminate H;
    apply String.eqb_eq in H; rewrite H; reflexivity.
Qed.

(** C3 (as amended): both file filters (post images and profile
    pictures) are the same test.  A file is accepted exactly when its
    lower-cased extension contains "jpeg", "jpg" or "png" as a substring
    and its declared content type contains one of them too; any other
    file is rejected with 'Error: Images only!'.  So a file whose
    extension is .jpeg, .jpg or .png in any letter case and whose
    content type is image/jpeg, image/jpg or image/png is accepted, and
    a file whose lower-cased extension contains none of the three, such
    as .gif, is rejected. *)
Theorem fileFilter_policy (f : File) :
  let ext := JS.toLowerCase (JS.extname (originalname f)) in
  UserRoutes.fileFilter f = PostRoutes.fileFilter f /\
  (PostRoutes.fileFilter f = inr true <->
     JS.filetypes_test ext = true /\ JS.filetypes_test (mimetype f) = true) /\
  (PostRoutes.fileFilter f <> inr true -> PostRoutes.fileFilter f = images_only) /\
  (spec_allowed_extension (originalname f) = true ->
   spec_allowed_mimetype (mimetype f) = true ->
   PostRoutes.fileFilter f = inr true) /\
  (JS.filetypes_test ext = false -> PostRoutes.fileFilter f = images_only) /\
  (ext = ".gif" -> PostRoutes.fileFilter f = images_only).
Proof.
  cbv zeta. unfold PostRoutes.fileFilter, UserRoutes.fileFilter, images_only.
  repeat split.
  - destruct (JS.filetypes_test (JS.toLowerCase _)); [reflexivity|discriminate].
  - destruct (JS.filetypes_test (JS.toLowerCase _)); [|discriminate].
    destruct (JS.filetypes_test (mimetype f)); [reflexivity|discriminate].
  - intros [-> ->]. reflexivity.
  - destruct (_ && _); [intros H; now elim H | reflexivity].
  - intros He Hm.
    rewrite (allowed_extension_passes _ He), (allowed_mimetype_passes _ Hm).
    reflexivity.
  - intros ->. reflexivity.
  - intros ->. reflexivity.
Qed.

Lemma fileFilter_policy_witness :
  PostRoutes.fileFilter (mkFile "holiday.PNG" "image/png" 2048) = inr true /\
  PostRoutes.fileFilter (mkFile "clip.gif" "image/gif" 2048) = images_only.
Proof.
  split.
  - apply (proj1 (proj2 (proj2 (proj2
            (fileFilter_policy (mkFile "holiday.PNG" "image/png" 2048)))))); reflexivity.
  - apply (proj2 (proj2 (proj2 (proj2 (proj2
            (fileFilter_policy (mkFile "clip.gif" "image/gif" 2048))))))); reflexivity.
Defined.

(** C3 (as the specification words it) fails: "photo.jpgx", declared as
    image/jpeg, passes both filters although its extension is not on the
    allow-list. *)
Lemma fileFilter_accepts_outside_allow_list :
  ~ (forall f : File,
       (PostRoutes.fileFilter f = inr true ->
        spec_allowed_extension (originalname f) = true) /\
       (UserRoutes.fileFilter f = inr true ->
        spec_allowed_extension (originalname f) = true)).
Proof.
  intros H.
  destruct (H (mkFile "photo.jpgx" "image/jpeg" 2048)) as [H1 _].
  specialize (H1 eq_refl). vm_compute in H1. discriminate H1.
Qed.

(* ------------------------------------------------------------------ *)
(** ** Ownership and missing posts *)
(* ------------------------------------------------------------------ *)

Ltac run_handler :=
  cbv beta iota zeta delta
    [serve try_catch bind throw ret get_db put_db res_status res_json
     PostModel.findById PostModel.findByIdAndDelete PostModel.save
     UserModel.findById UserModel.findOne_email
     UserModel.findOne_email_or_username find_post find_user
     db res statusCode sent fst snd] in *.

(** A caller who is not the author cannot delete: 401, nothing changes. *)
Lemma delete_post_non_owner (d : Db) (req : Req) (user : User) (post : Post) :
  find_post d (params_id req) = Some post ->
  (author post =? user_id user)%string = false ->
  serve d (PostRoutes.delete_post req user)
  = (d, message_res 401 "Not authorized to delete this post").
Proof.
  intros Hf Ha. unfold PostRoutes.delete_post. run_handler.
  rewrite Hf. cbn. rewrite Ha. reflexivity.
Qed.

(** A caller who is not the author cannot update: nothing changes, but
    the status set to 401 before the [throw] is replaced by the 400 of
    the [catch] block. *)
Lemma update_post_non_owner (d : Db) (req : Req) (user : User) (file : option string)
    (post : Post) :
  find_post d (params_id req) = Some post ->
  (author post =? user_id user)%string = false ->
  serve d (PostRoutes.update_post req user file)
  = (d, message_res 400 "Not authorized to update this post").
Proof.
  intros Hf Ha. unfold PostRoutes.update_post. run_handler.
  rewrite Hf. cbn. rewrite Ha. reflexivity.
Qed.

Lemma delete_post_missing (d : Db) (req : Req) (user : User) :
  find_post d (params_id req) = None ->
  serve d (PostRoutes.delete_post req user) = (d, message_res 404 "Post not found").
Proof.
  intros Hf. unfold PostRoutes.delete_post. run_handler. rewrite Hf. reflexivity.
Qed.

Lemma like_post_missing (d : Db) (req : Req) (user : User) :
  find_post d (params_id req) = None ->
  serve d (PostRoutes.like_post req user) = (d, message_res 404 "Post not found").
Proof.
  intros Hf. unfold PostRoutes.like_post. run_handler. rewrite Hf. reflexivity.
Qed.

(** On a missing post the update and the comment handlers set 404 and
    throw; their [catch] blocks then answer 400. *)
Lemma update_post_missing (d : Db) (req : Req) (user : User) (file : option string) :
  find_post d (params_id req) = None ->
  serve d (PostRoutes.update_post req user file) = (d, message_res 400 "Post not found").
Proof.
  intros Hf. unfold PostRoutes.update_post. run_handler. rewrite Hf. reflexivity.
Qed.

Lemma add_comment_missing (P : Platform) (d : Db) (req : Req) (user : User) :
  find_post d (params_id req) = None ->
  serve d (PostRoutes.add_comment P req user) = (d, message_res 400 "Post not found").
Proof.
  intros Hf. unfold PostRoutes.add_comment. run_handler. rewrite Hf. reflexivity.
Qed.

(** C1: a caller who is not the author must get 401 from both mutating
    endpoints with the post left as it is.  The post is left as it is by
    both, and DELETE answers 401, but PUT answers 400: its handler sets
    the status to 401 and throws, and its [catch] block overwrites the
    status with 400. *)
Theorem put_post_non_owner_status :
  serve demo_db (route demo_platform PutPost bob_on_p1)
  = (demo_db, message_res 400 "Not authorized to update this post") /\
  serve demo_db (route demo_platform DeletePost bob_on_p1)
  = (demo_db, message_res 401 "Not authorized to delete this post").
Proof. split; reflexivity. Qed.

(** C7: a mutation of a post that does not exist must be answered 404.
    DELETE answers 404, but PUT and POST comments answer 400: their
    handlers set the status to 404 and throw, and their [catch] blocks
    overwrite the status with 400. *)
Theorem missing_post_status :
  serve demo_db (route demo_platform PutPost bob_on_p7)
  = (demo_db, message_res 400 "Post not found") /\
  serve demo_db (route demo_platform PostComment bob_on_p7)
  = (demo_db, message_res 400 "Post not found") /\
  serve demo_db (route demo_platform DeletePost bob_on_p7)
  = (demo_db, message_res 404 "Post not found").
Proof. repeat split; reflexivity. Qed.

(* ------------------------------------------------------------------ *)
(** ** Login failures *)
(* ------------------------------------------------------------------ *)

Lemma login_unknown_email (P : Platform) (d : Db) (r : Req) :
  JS.truthy (body_email r) = true ->
  JS.truthy (body_password r) = true ->
  find_email d (JS.or_else (body_email r) "") = None ->
  serve d (UserRoutes.login P r) = (d, invalid_credentials).
Proof.
  intros He Hp Hf. unfold UserRoutes.login, find_email in *. run_handler.
  rewrite He, Hp. cbn. rewrite Hf. reflexivity.
Qed.

Lemma login_wrong_password (P : Platform) (d : Db) (r : Req) (u : User) :
  JS.truthy (body_email r) = true ->
  JS.truthy (body_password r) = true ->
  find_email d (JS.or_else (body_email r) "") = Some u ->
  UserModel.matchPassword P u (JS.or_else (body_password r) "") = false ->
  serve d (UserRoutes.login P r) = (d, invalid_credentials).
Proof.
  intros He Hp Hf Hm. unfold UserRoutes.login, find_email in *. run_handler.
  rewrite He, Hp. cbn. rewrite Hf, Hm. reflexivity.
Qed.

(** C4: of two login requests (each with the e-mail and the password
    that a login requires), one with an e-mail that matches no stored
    user and one with a stored e-mail and a password that does not
    match, both are answered with status 401 and the message 'Invalid
    email or password', and neither changes the database: the two
    answers are the same, so they do not tell which of the two was
    wrong. *)
Theorem login_failures_indistinguishable
    (P : Platform) (d : Db) (r1 r2 : Req) (u : User) :
  JS.truthy (body_email r1) = true ->
  JS.truthy (body_password r1) = true ->
  JS.truthy (body_email r2) = true ->
  JS.truthy (body_password r2) = true ->
  find_email d (JS.or_else (body_email r1) "") = None ->
  find_email d (JS.or_else (body_email r2) "") = Some u ->
  UserModel.matchPassword P u (JS.or_else (body_password r2) "") = false ->
  serve d (UserRoutes.login P r1) = (d, invalid_credentials) /\
  serve d (UserRoutes.login P r2) = (d, invalid_credentials) /\
  serve d (UserRoutes.login P r1) = serve d (UserRoutes.login P r2).
Proof.
  intros He1 Hp1 He2 Hp2 Hf1 Hf2 Hm.
  pose proof (login_unknown_email P d r1 He1 Hp1 Hf1) as H1.
  pose proof (login_wrong_password P d r2 u He2 Hp2 Hf2 Hm) as H2.
  repeat split; congruence.
Qed.

Lemma login_failures_indistinguishable_witness :
  serve demo_db (UserRoutes.login demo_platform
                   (login_req (Some "ghost@example.com") (Some "secret")))
  = serve demo_db (UserRoutes.login demo_platform
                     (login_req (Some "alice@example.com") (Some "guess"))).
Proof.
  apply (login_failures_indistinguishable demo_platform demo_db
           (login_req (Some "ghost@example.com") (Some "secret"))
           (login_req (Some "alice@example.com") (Some "guess")) alice);
    reflexivity.
Defined.

(* ------------------------------------------------------------------ *)
(** ** Partial updates *)
(* ------------------------------------------------------------------ *)

Lemma find_some_id {A} (key : A -> Id) (id : Id) (l : list A) (a : A) :
  find (fun x => id_eqb (key x) id) l = Some a -> key a = id.
Proof.
  intros H. apply find_some in H as [_ H]. now apply String.eqb_eq in H.
Qed.

Lemma post_stored_after_replace (ps : list Post) (id : Id) (old new : Post) :
  find (fun q => id_eqb (post_id q) id) ps = Some old ->
  post_id new = id ->
  existsb (fun q => id_eqb (post_id q) (post_id new)) ps = true /\
  find (fun q => id_eqb (post_id q) id) (PostModel.replace_post new ps) = Some new.
Proof.
  intros Hf <-. induction ps as [|q qs IH]; [discriminate|].
  cbn in *. destruct (id_eqb (post_id q) (post_id new)) eqn:E.
  - split; [reflexivity|]. cbn. unfold id_eqb. now rewrite String.eqb_refl.
  - destruct (IH Hf) as [H1 H2]. split; [exact H1|]. cbn. now rewrite E.
Qed.

Lemma user_stored_after_replace (us : list User) (id : Id) (old new : User) :
  find (fun v => id_eqb (user_id v) id) us = Some old ->
  user_id new = id ->
  existsb (fun v => id_eqb (user_id v) (user_id new)) us = true /\
  find (fun v => id_eqb (user_id v) id) (UserModel.replace_user new us) = Some new.
Proof.
  intros Hf <-. induction us as [|q qs IH]; [discriminate|].
  cbn in *. destruct (id_eqb (user_id q) (user_id new)) eqn:E.
  - split; [reflexivity|]. cbn. unfold id_eqb. now rewrite String.eqb_refl.
  - destruct (IH Hf) as [H1 H2]. split; [exact H1|]. cbn. now rewrite E.
Qed.

Lemma update_post_owner (d : Db) (req : Req) (user : User) (file : option string)
    (post : Post) :
  find_post d (params_id req) = Some post ->
  (author post =? user_id user)%string = true ->
  serve d (PostRoutes.update_post req user file)
  = (mkDb (users d) (PostModel.replace_post (updated_post req file post) (posts d)),
     mkRes 200 (Some (PostModel.toJSON PostModel.unpopulated PostModel.unpopulated
                        (updated_post req file post)))).
Proof.
  intros Hf Ha.
  destruct (post_stored_after_replace (posts d) (params_id req) post
              (updated_post req file post) Hf
              (find_some_id post_id _ _ _ Hf)) as [Hex _].
  unfold PostRoutes.update_post. run_handler.
  rewrite Hf. cbn. rewrite Ha. cbn.
  fold (updated_post req file post). cbn in Hex. rewrite Hex. reflexivity.
Qed.

Lemma update_profile_run (P : Platform) (d : Db) (req : Req) (caller : User)
    (file : option string) :
  serve d (UserRoutes.update_profile P req caller file) =
  match find_user d (user_id caller) with
  | None => (d, message_res 400 "User not found")
  | Some user =>
      if UserModel.collides (edited_user req file user) (users d)
      then (d, message_res 400 "E11000 duplicate key error collection: users")
      else (mkDb (UserModel.replace_user (updated_user P req file user) (users d))
                 (posts d),
            mkRes 200
              (Some (JObj [("_id", JStr (user_id user));
                           ("username", JStr (username (updated_user P req file user)));
                           ("email", JStr (email (updated_user P req file user)));
                           ("profilePicture",
                            JStr (profilePicture (updated_user P req file user)));
                           ("bio", JStr (bio (updated_user P req file user)));
                           ("token", JStr (jwt_sign P (user_id user)))])))
  end.
Proof.
  unfold UserRoutes.update_profile, UserModel.save, UserRoutes.generateToken.
  run_handler.
  destruct (find _ (users d)) as [user|] eqn:Hf; [|reflexivity].
  fold (edited_user req file user).
  destruct (UserModel.collides _ _); [reflexivity|].
  destruct (user_stored_after_replace (users d) (user_id caller) user
              (updated_user P req file user) Hf) as [Hex _].
  { unfold updated_user. destruct (JS.truthy (body_password req));
      cbn; exact (find_some_id user_id _ _ _ Hf). }
  assert (Hid : user_id (edited_user req file user)
                = user_id (updated_user P req file user)).
  { unfold updated_user. now destruct (JS.truthy (body_password req)). }
  rewrite Hid, Hex.
  unfold updated_user.
  destruct (JS.truthy (body_password req)); reflexivity.
Qed.

Lemma or_else_overwritten (field : option string) (old : string) :
  overwritten field (fun s => s) old (JS.or_else field old).
Proof. destruct field as [[|c t]|]; reflexivity. Qed.

Lemma or_else_keeps_nonempty (field : option string) (old : string) :
  JS.or_else field old = "" -> old = "".
Proof. destruct field as [[|c t]|]; cbn; congruence. Qed.

Lemma overwritten_tags (field : option string) (old : list string) :
  overwritten field PostRoutes.parse_tags old
    (if JS.truthy field then PostRoutes.parse_tags (JS.or_else field "") else old).
Proof. destruct field as [[|c t]|]; reflexivity. Qed.

Lemma tags_not_cleared (field : option string) (old : list string) :
  (if JS.truthy field then PostRoutes.parse_tags (JS.or_else field "") else old) = [] ->
  old = [].
Proof.
  destruct (JS.truthy field); [|trivial].
  unfold PostRoutes.parse_tags. intros H. apply map_eq_nil in H.
  now elim (split_not_nil "," _ H).
Qed.

(** C6: an update of a post by its author, and a profile update by a
    stored caller whose new user name and e-mail no other user holds,
    is answered 200, and in the document it stores each of title,
    content, tags, user name, e-mail, bio and password that the request
    carries with a value overwrites the stored field (the tags as the
    trimmed pieces between commas, the password as its hash), the image
    or profile picture is overwritten when a file is uploaded, and each
    absent field retains its stored value.  A field that is present is
    never taken as clearing the stored one: a field present but empty
    leaves the stored value, so no update empties a title, content, tag
    list, user name, e-mail, bio or password; every other field of the
    document is kept. *)
Theorem partial_update_semantics :
  (forall (d : Db) (req : Req) (user : User) (file : option string) (post : Post),
     find_post d (params_id req) = Some post ->
     author post = user_id user ->
     statusCode (snd (serve d (PostRoutes.update_post req user file))) = 200 /\
     exists post',
       find_post (fst (serve d (PostRoutes.update_post req user file))) (params_id req)
       = Some post' /\
       overwritten (body_title req) (fun s => s) (title post) (title post') /\
       overwritten (body_content req) (fun s => s) (content post) (content post') /\
       overwritten (body_tags req) PostRoutes.parse_tags (tags post) (tags post') /\
       image post' = match file with
                     | Some fname => "/uploads/posts/" ++ fname
                     | None => image post
                     end /\
       (title post' = "" -> title post = "") /\
       (content post' = "" -> content post = "") /\
       (tags post' = [] -> tags post = []) /\
       (post_id post', author post', comments post', likes post', createdAt post')
       = (post_id post, author post, comments post, likes post, createdAt post)) /\
  (forall (P : Platform) (d : Db) (req : Req) (caller : User) (file : option string)
          (user : User),
     find_user d (user_id caller) = Some user ->
     UserModel.collides (edited_user req file user) (users d) = false ->
     statusCode (snd (serve d (UserRoutes.update_profile P req caller file))) = 200 /\
     exists user',
       find_user (fst (serve d (UserRoutes.update_profile P req caller file)))
                 (user_id caller) = Some user' /\
       overwritten (body_username req) (fun s => s) (username user) (username user') /\
       overwritten (body_email req) (fun s => s) (email user) (email user') /\
       overwritten (body_bio req) (fun s => s) (bio user) (bio user') /\
       overwritten (body_password req) (fun s => Some (bcrypt_hash P s))
                   (password user) (password user') /\
       profilePicture user' = match file with
                              | Some fname => "/uploads/profiles/" ++ fname
                              | None => profilePicture user
                              end /\
       (username user' = "" -> username user = "") /\
       (email user' = "" -> email user = "") /\
       (bio user' = "" -> bio user = "") /\
       (password user' = None -> password user = None) /\
       user_id user' = user_id user).
Proof.
  split.
  - intros d req user file post Hf Ha.
    apply String.eqb_eq in Ha.
    rewrite (update_post_owner d req user file post Hf Ha). cbn [fst snd statusCode].
    split; [reflexivity|].
    exists (updated_post req file post).
    destruct (post_stored_after_replace (posts d) (params_id req) post
                (updated_post req file post) Hf
                (find_some_id post_id _ _ _ Hf)) as [_ Hst].
    split; [exact Hst|]. cbn.
    repeat split; try apply or_else_overwritten; try apply or_else_keeps_nonempty.
    + apply overwritten_tags.
    + apply tags_not_cleared.
  - intros P d req caller file user Hf Hc.
    rewrite update_profile_run, Hf, Hc. cbn [fst snd statusCode].
    split; [reflexivity|].
    exists (updated_user P req file user).
    assert (Hid : user_id (updated_user P req file user) = user_id caller).
    { unfold updated_user. destruct (JS.truthy (body_password req));
        cbn; exact (find_some_id user_id _ _ _ Hf). }
    destruct (user_stored_after_replace (users d) (user_id caller) user
                (updated_user P req file user) Hf Hid) as [_ Hst].
    split; [exact Hst|].
    unfold updated_user, edited_user.
    destruct (body_password req) as [[|c t]|]; cbn;
      repeat split; try apply or_else_overwritten; try apply or_else_keeps_nonempty;
      try discriminate; trivial.
Qed.

(** Alice retitles her post p1 and sends no content: the title is
    overwritten and the content kept.  Bob sends a new bio and an empty
    user name: the bio is overwritten and the user name kept. *)
Lemma partial_update_semantics_witness :
  (statusCode (snd (serve demo_db
                      (PostRoutes.update_post (alice_on_p1 (Some "T2")) alice None))) = 200 /\
   exists post',
     find_post (fst (serve demo_db
                       (PostRoutes.update_post (alice_on_p1 (Some "T2")) alice None))) "p1"
     = Some post' /\
     title post' = "T2" /\ content post' = content post1) /\
  (statusCode (snd (serve demo_db
                      (UserRoutes.update_profile demo_platform bob_edits_bio bob None)))
   = 200 /\
   exists user',
     find_user (fst (serve demo_db
                       (UserRoutes.update_profile demo_platform bob_edits_bio bob None)))
               "u2" = Some user' /\
     username user' = username bob /\ bio user' = "Gardener").
Proof.
  split.
  - destruct (proj1 partial_update_semantics demo_db (alice_on_p1 (Some "T2")) alice None
                post1 eq_refl eq_refl)
      as (H200 & post' & H1 & H2 & H3 & _).
    split; [exact H200|]. exists post'. repeat split; assumption.
  - destruct (proj2 partial_update_semantics demo_platform demo_db bob_edits_bio bob None
                bob eq_refl eq_refl)
      as (H200 & user' & H1 & H2 & _ & H3 & _).
    split; [exact H200|]. exists user'. repeat split; assumption.
Defined.

(* ------------------------------------------------------------------ *)
(** ** The like toggle *)
(* ------------------------------------------------------------------ *)

Section Toggle.

Variable uid : Id.

Local Abbreviation other := (fun id : Id => negb (id =? uid)%string).

Lemma not_liked_iff (l : list Id) :
  PostRoutes.not_liked l uid = true <-> ~ In uid l.
Proof.
  unfold PostRoutes.not_liked. rewrite negb_true_iff.
  split.
  - intros H Hin. assert (E : existsb (fun id => (id =? uid)%string) l = true).
    { apply existsb_exists. exists uid. split; [exact Hin | apply String.eqb_refl]. }
    congruence.
  - intros H. destruct (existsb (fun id => (id =? uid)%string) l) eqn:E; [|reflexivity].
    apply existsb_exists in E as (x & Hx & Ex).
    apply String.eqb_eq in Ex. subst x. contradiction.
Qed.

Lemma filter_other_absent (l : list Id) :
  ~ In uid l -> filter other l = l.
Proof.
  induction l as [|x l IH]; intros H; [reflexivity|].
  cbn.
  destruct (String.eqb_spec x uid) as [->|_].
  - elim H. now left.
  - cbn. f_equal. apply IH. intros Hin. apply H. now right.
Qed.

Lemma filter_other_removes (l : list Id) : ~ In uid (filter other l).
Proof.
  intros H. apply filter_In in H as [_ H].
  cbn in H. rewrite String.eqb_refl in H. discriminate H.
Qed.

Lemma toggle_absent (l : list Id) :
  ~ In uid l -> PostRoutes.toggle l uid = (l ++ [uid])%list.
Proof.
  intros H. unfold PostRoutes.toggle. now rewrite (proj2 (not_liked_iff l) H).
Qed.

Lemma toggle_present (l : list Id) :
  In uid l -> PostRoutes.toggle l uid = filter other l.
Proof.
  intros H. unfold PostRoutes.toggle.
  destruct (PostRoutes.not_liked l uid) eqn:E; [|reflexivity].
  apply not_liked_iff in E. contradiction.
Qed.

(** Twice from a list without the caller: push, then filter, gives the
    list back. *)
Lemma toggle_twice_absent (l : list Id) :
  ~ In uid l -> PostRoutes.toggle (PostRoutes.toggle l uid) uid = l.
Proof.
  intros H. rewrite (toggle_absent l H).
  rewrite toggle_present by (apply in_or_app; right; now left).
  rewrite filter_app. cbn. rewrite String.eqb_refl. cbn.
  rewrite app_nil_r. now apply filter_other_absent.
Qed.

(** Twice from a list with the caller: filter, then push, moves the
    caller to the end. *)
Lemma toggle_twice_present (l : list Id) :
  In uid l ->
  PostRoutes.toggle (PostRoutes.toggle l uid) uid = (filter other l ++ [uid])%list.
Proof.
  intros H. rewrite (toggle_present l H).
  apply toggle_absent, filter_other_removes.
Qed.

Lemma toggle_twice_members (l : list Id) (x : Id) :
  In x (PostRoutes.toggle (PostRoutes.toggle l uid) uid) <-> In x l.
Proof.
  destruct (in_dec string_dec uid l) as [H|H].
  - rewrite (toggle_twice_present l H). rewrite in_app_iff, filter_In. cbn.
    split.
    + intros [[Hx _]|[<-|[]]]; assumption.
    + intros Hx. destruct (String.eqb_spec x uid) as [->|_].
      * right. now left.
      * left. now split.
  - now rewrite (toggle_twice_absent l H).
Qed.

Lemma count_occ_toggle (l : list Id) :
  (count_occ string_dec (PostRoutes.toggle l uid) uid <= 1)%nat.
Proof.
  destruct (in_dec string_dec uid l) as [H|H].
  - rewrite (toggle_present l H).
    pose proof (proj1 (count_occ_not_In string_dec _ _) (filter_other_removes l)) as E.
    unfold Id in *. rewrite E. lia.
  - rewrite (toggle_absent l H), count_occ_app.
    pose proof (proj1 (count_occ_not_In string_dec _ _) H) as E.
    unfold Id in *. rewrite E. cbn.
    destruct (string_dec uid uid); lia.
Qed.

End Toggle.

Lemma like_post_found (d : Db) (req : Req) (user : User) (post : Post) :
  find_post d (params_id req) = Some post ->
  let post' := with_likes post (PostRoutes.toggle (likes post) (user_id user)) in
  serve d (PostRoutes.like_post req user)
  = (mkDb (users d) (PostModel.replace_post post' (posts d)),
     mkRes 200 (Some (JArr (map JStr (likes post'))))) /\
  find_post (mkDb (users d) (PostModel.replace_post post' (posts d))) (params_id req)
  = Some post'.
Proof.
  intros Hf post'.
  destruct (post_stored_after_replace (posts d) (params_id req) post post' Hf
              (find_some_id post_id _ _ _ Hf)) as [Hex Hst].
  split; [|exact Hst].
  unfold PostRoutes.like_post. run_handler.
  rewrite Hf. fold (with_likes post (PostRoutes.toggle (likes post) (user_id user))).
  fold post'. rewrite Hex. reflexivity.
Qed.

Lemma replace_post_twice (ps : list Post) (p1 p2 : Post) :
  post_id p1 = post_id p2 ->
  PostModel.replace_post p2 (PostModel.replace_post p1 ps) = PostModel.replace_post p2 ps.
Proof.
  intros E. induction ps as [|q qs IH]; [reflexivity|].
  cbn. rewrite E. destruct (id_eqb (post_id q) (post_id p2)) eqn:Eq.
  - cbn. rewrite E. unfold id_eqb. now rewrite String.eqb_refl.
  - cbn. rewrite Eq. now rewrite IH.
Qed.

Lemma replace_post_same (ps : list Post) (post : Post) :
  find (fun q => id_eqb (post_id q) (post_id post)) ps = Some post ->
  PostModel.replace_post post ps = ps.
Proof.
  induction ps as [|q qs IH]; [reflexivity|].
  cbn. destruct (id_eqb (post_id q) (post_id post)).
  - now intros [= ->].
  - intros H. now rewrite (IH H).
Qed.

Lemma db_eta (d : Db) : mkDb (users d) (posts d) = d.
Proof. now destruct d. Qed.

Lemma with_likes_same (post : Post) : with_likes post (likes post) = post.
Proof. now destruct post. Qed.

Lemma liked_twice_run (d : Db) (req : Req) (user : User) (post : Post) :
  find_post d (params_id req) = Some post ->
  let l2 := PostRoutes.toggle (PostRoutes.toggle (likes post) (user_id user))
                              (user_id user) in
  liked_twice d req user
  = mkDb (users d) (PostModel.replace_post (with_likes post l2) (posts d)) /\
  find_post (liked_twice d req user) (params_id req) = Some (with_likes post l2).
Proof.
  intros Hf l2. unfold liked_twice.
  destruct (like_post_found d req user post Hf) as [H1 Hf1].
  rewrite H1. cbn [fst].
  destruct (like_post_found _ req user _ Hf1) as [H2 Hf2].
  rewrite H2. cbn [fst users posts] in *.
  rewrite replace_post_twice in * by reflexivity.
  split; [reflexivity | exact Hf2].
Qed.

(** C8 (as amended): two like toggles in succession by the same caller
    on an existing post leave the post with the same members in its like
    list, and every other field as it was.  If the caller's id was
    absent, the list and the whole database are exactly as before.  If
    it was present, it is present again, but the list is the other
    entries in their order followed by the caller's id once: the caller
    moves to the end and duplicates of the caller are dropped. *)
Theorem like_toggle_twice (d : Db) (req : Req) (user : User) (post : Post) :
  find_post d (params_id req) = Some post ->
  exists post2,
    find_post (liked_twice d req user) (params_id req) = Some post2 /\
    with_likes post2 (likes post) = post /\
    (forall id, In id (likes post2) <-> In id (likes post)) /\
    (~ In (user_id user) (likes post) ->
     likes post2 = likes post /\ liked_twice d req user = d) /\
    (In (user_id user) (likes post) ->
     likes post2
     = (filter (fun id => negb (id =? user_id user)%string) (likes post)
        ++ [user_id user])%list).
Proof.
  intros Hf.
  destruct (liked_twice_run d req user post Hf) as [Hd Hf2]. cbv zeta in *.
  eexists. split; [exact Hf2|].
  split; [destruct post; reflexivity|].
  split; [intros id; apply toggle_twice_members|].
  split.
  - intros Habs. cbn [likes with_likes].
    rewrite Hd, (toggle_twice_absent _ _ Habs), with_likes_same.
    split; [reflexivity|].
    rewrite replace_post_same; [apply db_eta|].
    unfold find_post in Hf. now rewrite (find_some_id post_id _ _ _ Hf).
  - intros Hin. cbn [likes with_likes]. now apply toggle_twice_present.
Qed.

Lemma like_toggle_twice_witness :
  exists post2,
    find_post (liked_twice demo_db bob_likes_p1 bob) "p1" = Some post2 /\
    likes post2 = ["u1"; "u2"].
Proof.
  destruct (like_toggle_twice demo_db bob_likes_p1 bob post1 eq_refl)
    as (post2 & Hf & _ & _ & _ & Hin).
  exists post2. split; [exact Hf|].
  apply Hin. cbn. now left.
Defined.

(** C8 (as the specification words it) fails: post p1 is liked by u2 and
    u1, in that order; after Bob (u2) toggles twice the list is u1, u2. *)
Lemma spec_toggle_round_trip_fails : ~ spec_toggle_round_trip.
Proof.
  intros H.
  destruct (H demo_db bob_likes_p1 bob post1 eq_refl) as (post2 & Hf & Hl).
  vm_compute in Hf. injection Hf as <-. discriminate Hl.
Qed.

(** C10: after every like toggle that succeeds (answered 200) the
    caller's id occurs at most once in the stored like list of the post,
    however often it occurred before, and that list is the payload of
    the answer: the id is pushed only when the list has no occurrence of
    it, and otherwise every occurrence is filtered out. *)
Theorem like_toggle_at_most_once (d : Db) (req : Req) (user : User) :
  statusCode (snd (serve d (PostRoutes.like_post req user))) = 200 ->
  exists post post',
    find_post d (params_id req) = Some post /\
    find_post (fst (serve d (PostRoutes.like_post req user))) (params_id req)
    = Some post' /\
    sent (snd (serve d (PostRoutes.like_post req user)))
    = Some (JArr (map JStr (likes post'))) /\
    (count_occ string_dec (likes post') (user_id user) <= 1)%nat /\
    (~ In (user_id user) (likes post) ->
     likes post' = (likes post ++ [user_id user])%list) /\
    (In (user_id user) (likes post) ->
     count_occ string_dec (likes post') (user_id user) = 0%nat).
Proof.
  intros H200.
  destruct (find_post d (params_id req)) as [post|] eqn:Hf.
  2:{ rewrite (like_post_missing d req user Hf) in H200. discriminate H200. }
  destruct (like_post_found d req user post Hf) as [Hrun Hst]. cbv zeta in *.
  exists post. eexists. rewrite Hrun. cbn [fst snd sent].
  split; [reflexivity|]. split; [exact Hst|]. split; [reflexivity|].
  cbn [likes with_likes]. split; [apply count_occ_toggle|]. split.
  - apply toggle_absent.
  - intros Hin. rewrite (toggle_present _ _ Hin).
    apply count_occ_not_In, filter_other_removes.
Qed.

Lemma like_toggle_at_most_once_witness :
  exists post',
    find_post (fst (serve demo_db (PostRoutes.like_post bob_likes_p1 bob))) "p1"
    = Some post' /\
    (count_occ string_dec (likes post') "u2" <= 1)%nat.
Proof.
  destruct (like_toggle_at_most_once demo_db bob_likes_p1 bob eq_refl)
    as (post & post' & _ & Hf & _ & Hc & _).
  exists post'. split; [exact Hf | exact Hc].
Defined.

(* ------------------------------------------------------------------ *)
(** ** Pagination *)
(* ------------------------------------------------------------------ *)

Lemma compile_matcher (P : Platform) (f : PostModel.Filter) (m : Post -> bool) (w : World) :
  matcher P f = Some m -> PostModel.compile P f w = (Returned m, w).
Proof.
  destruct f as [k|]; cbn.
  - destruct (regex_i P k); cbn; [intros [= <-]; reflexivity | discriminate].
  - intros [= <-]. reflexivity.
Qed.

Lemma insert_desc_length (p : Post) (ps : list Post) :
  length (PostModel.insert_desc p ps) = S (length ps).
Proof.
  induction ps as [|q qs IH]; [reflexivity|].
  cbn. destruct (createdAt q <? createdAt p); cbn; [reflexivity | now rewrite IH].
Qed.

Lemma sort_desc_length (ps : list Post) :
  length (PostModel.sort_desc ps) = length ps.
Proof.
  induction ps as [|p ps IH]; [reflexivity|].
  cbn. now rewrite insert_desc_length, IH.
Qed.

Lemma Math_ceil_div_10_eq (count : Z) :
  JS.Math_ceil_div count 10 = - (- count / 10).
Proof.
  unfold JS.Math_ceil_div, Qceiling, Qfloor, Qopp, Qdiv, Qmult, Qinv, inject_Z.
  cbn [Qnum Qden Pos.mul]. now rewrite Z.mul_1_r.
Qed.

(** The sort is a sort: the same documents, newest first. *)
Lemma insert_desc_permutation (p : Post) (ps : list Post) :
  Permutation (p :: ps) (PostModel.insert_desc p ps).
Proof.
  induction ps as [|q qs IH]; [apply Permutation_refl|].
  cbn. destruct (createdAt q <? createdAt p); [apply Permutation_refl|].
  apply perm_trans with (q :: p :: qs); [apply perm_swap | now apply perm_skip].
Qed.

Lemma sort_desc_permutation (ps : list Post) :
  Permutation ps (PostModel.sort_desc ps).
Proof.
  induction ps as [|p ps IH]; [apply perm_nil|].
  cbn. apply perm_trans with (p :: PostModel.sort_desc ps);
    [now apply perm_skip | apply insert_desc_permutation].
Qed.

Lemma insert_desc_sorted (p : Post) (ps : list Post) :
  Sorted newer_or_same ps -> Sorted newer_or_same (PostModel.insert_desc p ps).
Proof.
  induction ps as [|q qs IH]; intros Hs; cbn.
  - repeat constructor.
  - destruct (Z.ltb_spec (createdAt q) (createdAt p)) as [Hlt|Hge].
    + constructor; [exact Hs|]. constructor. unfold newer_or_same. lia.
    + inversion Hs as [|? ? Hqs Hhd]; subst. constructor; [now apply IH|].
      destruct qs as [|r rs]; cbn.
      * constructor. exact Hge.
      * destruct (createdAt r <? createdAt p); constructor;
          [exact Hge | now inversion Hhd].
Qed.

Lemma sort_desc_sorted (ps : list Post) : Sorted newer_or_same (PostModel.sort_desc ps).
Proof.
  induction ps as [|p ps IH]; [constructor | now apply insert_desc_sorted].
Qed.

(** [Math.ceil(count / 10)] is the least number of tens that covers
    [count]. *)
Lemma Math_ceil_div_10 (count : Z) :
  10 * (JS.Math_ceil_div count 10 - 1) < count <= 10 * JS.Math_ceil_div count 10.
Proof.
  rewrite Math_ceil_div_10_eq.
  pose proof (Z.div_mod (- count) 10 ltac:(lia)) as Hdm.
  pose proof (Z.mod_pos_bound (- count) 10 ltac:(lia)) as Hb.
  lia.
Qed.

(** A page of a list: what lies before it, the page, what lies after. *)
Lemma page_split {A} (l : list A) (s n : nat) :
  let page := firstn n (skipn s l) in
  l = (firstn s l ++ page ++ skipn n (skipn s l))%list /\
  length (firstn s l) = Nat.min s (length l) /\
  (length page <= n)%nat /\
  (skipn n (skipn s l) = [] \/ length page = n).
Proof.
  cbv zeta. repeat split.
  - now rewrite !firstn_skipn.
  - apply length_firstn.
  - rewrite length_firstn. lia.
  - destruct (Nat.le_gt_cases (length (skipn s l)) n) as [H|H].
    + left. now apply skipn_all2.
    + right. rewrite length_firstn. lia.
Qed.

Lemma list_posts_run (P : Platform) (d : Db) (req : Req) (m : Post -> bool) :
  matcher P (keyword_of req) = Some m ->
  1 <= PostRoutes.page_of req ->
  serve d (PostRoutes.list_posts P req)
  = (d, mkRes 200
          (Some (JObj
             [("posts",
               JArr (map (listed_post d)
                       (firstn 10
                          (skipn (Z.to_nat (10 * (PostRoutes.page_of req - 1)))
                             (PostModel.sort_desc (filter m (posts d)))))));
              ("page", JNum (PostRoutes.page_of req));
              ("pages",
               JNum (JS.Math_ceil_div (Z.of_nat (length (filter m (posts d)))) 10));
              ("total", JNum (Z.of_nat (length (filter m (posts d)))))]))).
Proof.
  intros Hm Hp.
  unfold PostRoutes.list_posts, PostModel.countDocuments, PostModel.find_sorted.
  fold (keyword_of req).
  cbv beta iota zeta delta
    [serve try_catch bind get_db ret throw res_json res_status
     db res fst snd statusCode sent].
  rewrite (compile_matcher P _ m _ Hm).
  cbv beta iota zeta delta [db res fst snd statusCode sent].
  rewrite (compile_matcher P _ m _ Hm).
  destruct (10 * (PostRoutes.page_of req - 1) <? 0) eqn:E; [lia | reflexivity].
Qed.

(** The database refuses the query: a pattern it does not accept, or
    the negative skip of a negative page.  The handler answers 400. *)
Lemma list_posts_refused (P : Platform) (d : Db) (req : Req) :
  matcher P (keyword_of req) = None \/ PostRoutes.page_of req < 1 ->
  statusCode (snd (serve d (PostRoutes.list_posts P req))) = 400.
Proof.
  intros H.
  unfold PostRoutes.list_posts, PostModel.countDocuments, PostModel.find_sorted.
  fold (keyword_of req).
  destruct (matcher P (keyword_of req)) as [m|] eqn:Hm.
  - destruct H as [H|H]; [discriminate H|].
    cbv beta iota zeta delta
      [serve try_catch bind get_db ret throw res_json res_status
       db res fst snd statusCode sent].
    rewrite (compile_matcher P _ m _ Hm).
    cbv beta iota zeta delta [db res fst snd statusCode sent].
    rewrite (compile_matcher P _ m _ Hm).
    destruct (10 * (PostRoutes.page_of req - 1) <? 0) eqn:E; [reflexivity | lia].
  - clear H. unfold matcher in Hm. unfold PostModel.compile.
    destruct (keyword_of req) as [k|]; [|discriminate Hm].
    destruct (regex_i P k); [discriminate Hm | reflexivity].
Qed.

(** C9: for every listing request that is answered with a posts list
    (status 200), with [p] the page ([Number(page) || 1]: the page asked
    for, page 1 when it is absent, not a number or zero) and [matching]
    the documents the keyword selects (all documents without a keyword),
    newest first: the posts of the answer are at most ten, they come
    right after the first [10 * (p - 1)] matching documents (or after
    all of them when there are fewer), which are skipped, and unless the
    matching documents run out the page holds exactly ten; [page] is
    [p], [total] is the number of matching documents and [pages] is the
    ceiling of [total / 10].  (The only other answer is the 400 of a
    query the database refuses.) *)
Theorem list_posts_pagination (P : Platform) (d : Db) (req : Req) :
  statusCode (snd (serve d (PostRoutes.GET_posts P req))) = 200 ->
  let p := PostRoutes.page_of req in
  exists m skipped found rest pages,
    let matching := PostModel.sort_desc (filter m (posts d)) in
    let total := Z.of_nat (length (filter m (posts d))) in
    matcher P (keyword_of req) = Some m /\
    serve d (PostRoutes.GET_posts P req)
    = (d, mkRes 200 (Some (JObj [("posts", JArr (map (listed_post d) found));
                                 ("page", JNum p);
                                 ("pages", JNum pages);
                                 ("total", JNum total)]))) /\
    1 <= p /\
    (forall q, query_page req = Some q -> q <> 0 -> p = q) /\
    Permutation (filter m (posts d)) matching /\
    Sorted newer_or_same matching /\
    matching = (skipped ++ found ++ rest)%list /\
    length skipped = Nat.min (Z.to_nat (10 * (p - 1))) (length matching) /\
    length matching = length (filter m (posts d)) /\
    (length found <= 10)%nat /\
    (rest = [] \/ length found = 10%nat) /\
    pages = JS.Math_ceil_div total 10 /\
    10 * (pages - 1) < total <= 10 * pages.
Proof.
  intros H200 p. unfold PostRoutes.GET_posts in *.
  destruct (matcher P (keyword_of req)) as [m|] eqn:Hm.
  2:{ rewrite (list_posts_refused P d req (or_introl Hm)) in H200. discriminate H200. }
  destruct (Z.lt_ge_cases p 1) as [Hlt|Hp].
  { rewrite (list_posts_refused P d req (or_intror Hlt)) in H200. discriminate H200. }
  exists m.
  set (matching := PostModel.sort_desc (filter m (posts d))).
  destruct (page_split matching (Z.to_nat (10 * (p - 1))) 10)
    as (Hsplit & Hskip & Hlen & Hrest).
  exists (firstn (Z.to_nat (10 * (p - 1))) matching),
         (firstn 10 (skipn (Z.to_nat (10 * (p - 1))) matching)),
         (skipn 10 (skipn (Z.to_nat (10 * (p - 1))) matching)),
         (JS.Math_ceil_div (Z.of_nat (length (filter m (posts d)))) 10).
  cbv zeta. fold matching.
  split; [reflexivity|].
  split; [exact (list_posts_run P d req m Hm Hp)|].
  split; [exact Hp|].
  split.
  { intros q Hq Hq0. subst p. unfold PostRoutes.page_of. rewrite Hq.
    destruct (Z.eqb_spec q 0); [contradiction | reflexivity]. }
  split; [apply sort_desc_permutation|]. split; [apply sort_desc_sorted|].
  split; [exact Hsplit|]. split; [exact Hskip|].
  split; [apply sort_desc_length|].
  split; [exact Hlen|]. split; [exact Hrest|].
  split; [reflexivity | apply Math_ceil_div_10].
Qed.

Lemma list_posts_pagination_witness :
  exists skipped found rest pages,
    posts twelve_posts = rev (skipped ++ found ++ rest)%list /\
    map createdAt found = [2; 1] /\
    length skipped = 10%nat /\
    pages = 2 /\
    sent (snd (serve twelve_posts (PostRoutes.GET_posts demo_platform page_two)))
    = Some (JObj [("posts", JArr (map (listed_post twelve_posts) found));
                  ("page", JNum 2); ("pages", JNum pages); ("total", JNum 12)]).
Proof.
  destruct (list_posts_pagination demo_platform twelve_posts page_two eq_refl)
    as (m & skipped & found & rest & pages & Hm & Hrun & _ & _ & _ & _ & Hsplit & Hskip
        & _ & Hlen & Hrest & Hpages & _).
  injection Hm as <-. cbn [filter] in *.
  exists skipped, found, rest, pages.
  rewrite Hrun.
  change (filter (fun _ : Post => true) (posts twelve_posts))
    with (posts twelve_posts) in *.
  rewrite <- Hsplit.
  assert (Hs : skipped = firstn 10 (PostModel.sort_desc (posts twelve_posts))).
  { apply (f_equal (firstn (length skipped))) in Hsplit.
    rewrite firstn_app, Nat.sub_diag, firstn_all, firstn_O, app_nil_r in Hsplit.
    rewrite <- Hsplit, Hskip. reflexivity. }
  assert (Hf : found = skipn 10 (PostModel.sort_desc (posts twelve_posts))).
  { apply (f_equal (skipn (length skipped))) in Hsplit.
    rewrite skipn_app, Nat.sub_diag, skipn_all, skipn_O in Hsplit. cbn [app] in Hsplit.
    destruct Hrest as [->|Hten].
    - rewrite app_nil_r in Hsplit. rewrite <- Hsplit, Hskip. reflexivity.
    - apply (f_equal (@length Post)) in Hsplit.
      rewrite length_app, Hten, Hskip in Hsplit. vm_compute in Hsplit. lia. }
  repeat split.
  - rewrite Hf. reflexivity.
  - rewrite Hs. reflexivity.
  - rewrite Hpages. reflexivity.
Defined.

(* ------------------------------------------------------------------ *)
(** ** No password in a response *)
(* ------------------------------------------------------------------ *)

Lemma keeps_ret {A} (a : A) : keeps (ret a).
Proof. intros w H. exact H. Qed.

Lemma keeps_throw {A} (e : Thrown) : keeps (@throw A e).
Proof. intros w H. exact H. Qed.

Lemma keeps_get_db : keeps get_db.
Proof. intros w H. exact H. Qed.

Lemma keeps_put_db (d : Db) : keeps (put_db d).
Proof. intros w H. exact H. Qed.

Lemma keeps_res_status (c : Z) : keeps (res_status c).
Proof. intros w H. exact H. Qed.

Lemma keeps_res_json (j : json) : has_field "password" j = false -> keeps (res_json j).
Proof. intros Hj w _. exact Hj. Qed.

Lemma keeps_bind {A B} (m : M A) (k : A -> M B) :
  keeps m -> (forall a, keeps (k a)) -> keeps (bind m k).
Proof.
  intros Hm Hk w H. unfold bind. specialize (Hm w H).
  destruct (m w) as [[a|e] w']; cbn in *; [now apply Hk | exact Hm].
Qed.

Lemma keeps_try_catch {A} (m : M A) (h : Thrown -> M A) :
  keeps m -> (forall e, keeps (h e)) -> keeps (try_catch m h).
Proof.
  intros Hm Hh w H. unfold try_catch. specialize (Hm w H).
  destruct (m w) as [[a|e] w']; cbn in *; [exact Hm | now apply Hh].
Qed.

Ltac keeps_step :=
  match goal with
  | |- keeps (bind _ _) => apply keeps_bind; [|intro]
  | |- keeps (try_catch _ _) => apply keeps_try_catch; [|intro]
  | |- keeps (ret _) => apply keeps_ret
  | |- keeps (throw _) => apply keeps_throw
  | |- keeps get_db => apply keeps_get_db
  | |- keeps (put_db _) => apply keeps_put_db
  | |- keeps (res_status _) => apply keeps_res_status
  | |- keeps (res_json _) => apply keeps_res_json
  | |- keeps (if ?b then _ else _) => destruct b
  | |- keeps (match ?x with _ => _ end) => destruct x
  end.

(** *** The payloads *)

Lemma ids_discreet (l : list Id) : has_field "password" (JArr (map JStr l)) = false.
Proof. induction l as [|x l IH]; [reflexivity | exact IH]. Qed.

Lemma populated_discreet (d : Db) (id : Id) :
  has_field "password" (PostModel.populated d id) = false.
Proof. unfold PostModel.populated. now destruct (find _ _). Qed.

Lemma unpopulated_discreet (id : Id) :
  has_field "password" (PostModel.unpopulated id) = false.
Proof. reflexivity. Qed.

Lemma comments_discreet (user_repr : Id -> json) (cs : list Comment) :
  (forall id, has_field "password" (user_repr id) = false) ->
  has_field "password" (JArr (map (PostModel.comment_toJSON user_repr) cs)) = false.
Proof.
  intros Hr. induction cs as [|c cs IH]; [reflexivity|].
  cbn in *. rewrite IH, orb_false_r.
  destruct (comment_text c); cbn; now rewrite Hr.
Qed.

Lemma post_discreet (author_repr user_repr : Id -> json) (p : Post) :
  (forall id, has_field "password" (author_repr id) = false) ->
  (forall id, has_field "password" (user_repr id) = false) ->
  has_field "password" (PostModel.toJSON author_repr user_repr p) = false.
Proof.
  intros Ha Hu.
  pose proof (comments_discreet user_repr (comments p) Hu) as Hc.
  pose proof (ids_discreet (tags p)) as Ht.
  pose proof (ids_discreet (likes p)) as Hl.
  cbn in *. now rewrite Ha, Ht, Hc, Hl.
Qed.

Lemma posts_discreet (author_repr user_repr : Id -> json) (ps : list Post) :
  (forall id, has_field "password" (author_repr id) = false) ->
  (forall id, has_field "password" (user_repr id) = false) ->
  has_field "password" (JArr (map (PostModel.toJSON author_repr user_repr) ps)) = false.
Proof.
  intros Ha Hu. induction ps as [|p ps IH]; [reflexivity|].
  pose proof (post_discreet author_repr user_repr p Ha Hu) as Hp.
  cbn [map has_field existsb] in *. now rewrite Hp, IH.
Qed.

(** The user loaded with [.select('-password')] serialises without a
    password. *)
Lemma selected_user_discreet (u : User) :
  has_field "password" (UserModel.toJSON (UserModel.select_minus_password u)) = false.
Proof. reflexivity. Qed.

Lemma message_discreet (m : option string) :
  has_field "password" (PostRoutes.message m) = false.
Proof. now destruct m. Qed.

(** *** The handlers *)

Ltac open_models :=
  unfold PostModel.findById, PostModel.save, PostModel.findByIdAndDelete,
    PostModel.countDocuments, PostModel.find_sorted, PostModel.compile,
    UserModel.findById, UserModel.findOne_email, UserModel.findOne_email_or_username,
    UserModel.create, UserModel.save, AuthMiddleware.no_token.

Ltac payload :=
  first
    [ reflexivity
    | apply message_discreet
    | apply ids_discreet
    | apply selected_user_discreet
    | apply comments_discreet; intros; apply populated_discreet
    | apply post_discreet; intros;
      first [apply populated_discreet | apply unpopulated_discreet]
    | match goal with
      | |- context [err_message ?e] => destruct e; reflexivity
      end ].

Ltac keeps_all := open_models; repeat keeps_step; try payload.

Lemma protect_keeps (P : Platform) (req : Req) : keeps (AuthMiddleware.protect P req).
Proof. unfold AuthMiddleware.protect. keeps_all. Qed.

Lemma error_middleware_keeps (P : Platform) (err : Thrown) :
  keeps (Server.error_middleware P err).
Proof.
  unfold Server.error_middleware. keeps_all.
  destruct err, (development P); reflexivity.
Qed.

Lemma guarded_keeps (P : Platform) (req : Req) (handler : User -> M unit) :
  (forall u, keeps (handler u)) -> keeps (Server.guarded P req handler).
Proof.
  intros H. unfold Server.guarded. apply keeps_bind; [apply protect_keeps|].
  intros [u|]; [apply H | apply keeps_ret].
Qed.

Lemma guarded_upload_keeps (P : Platform) (req : Req) upload
    (handler : User -> option string -> M unit) :
  (forall u f, keeps (handler u f)) -> keeps (Server.guarded_upload P req upload handler).
Proof.
  intros H. unfold Server.guarded_upload. apply guarded_keeps. intros u.
  destruct (upload req); [apply error_middleware_keeps | apply H].
Qed.

Lemma create_post_keeps P req u f : keeps (PostRoutes.create_post P req u f).
Proof.
  unfold PostRoutes.create_post. keeps_all.
  match goal with |- context [match ?x with Some _ => _ | None => _ end] => destruct x end;
    payload.
Qed.

Lemma list_posts_keeps P req : keeps (PostRoutes.list_posts P req).
Proof.
  unfold PostRoutes.list_posts. keeps_all.
  match goal with
  | |- context [JArr (map (PostModel.toJSON ?a ?u) ?l)] =>
      pose proof (posts_discreet a u l (populated_discreet _) unpopulated_discreet) as H
  end.
  cbn [has_field existsb fst snd] in *. rewrite H. reflexivity.
Qed.

Lemma get_post_keeps req : keeps (PostRoutes.get_post req).
Proof. unfold PostRoutes.get_post. keeps_all. Qed.

Lemma update_post_keeps req u f : keeps (PostRoutes.update_post req u f).
Proof. unfold PostRoutes.update_post. keeps_all. Qed.

Lemma delete_post_keeps req u : keeps (PostRoutes.delete_post req u).
Proof. unfold PostRoutes.delete_post. keeps_all. Qed.

Lemma add_comment_keeps P req u : keeps (PostRoutes.add_comment P req u).
Proof. unfold PostRoutes.add_comment. keeps_all. Qed.

Lemma like_post_keeps req u : keeps (PostRoutes.like_post req u).
Proof. unfold PostRoutes.like_post. keeps_all. Qed.

Lemma register_keeps P req : keeps (UserRoutes.register P req).
Proof. unfold UserRoutes.register. keeps_all. Qed.

Lemma login_keeps P req : keeps (UserRoutes.login P req).
Proof. unfold UserRoutes.login. keeps_all. Qed.

Lemma update_profile_keeps P req u f : keeps (UserRoutes.update_profile P req u f).
Proof. unfold UserRoutes.update_profile. keeps_all. Qed.

Lemma get_profile_keeps req : keeps (UserRoutes.get_profile req).
Proof.
  unfold UserRoutes.get_profile. open_models.
  apply keeps_try_catch; [apply keeps_bind; [keeps_all|] | intro; keeps_all].
  intros [u|]; cbn [option_map]; keeps_all.
Qed.

Lemma route_keeps (P : Platform) (ep : Endpoint) (req : Req) : keeps (route P ep req).
Proof.
  destruct ep; cbn [route];
    unfold UserRoutes.POST_register, UserRoutes.POST_login, UserRoutes.PUT_profile,
      UserRoutes.GET_profile, PostRoutes.POST_posts, PostRoutes.GET_posts,
      PostRoutes.GET_post, PostRoutes.PUT_post, PostRoutes.DELETE_post,
      PostRoutes.POST_comment, PostRoutes.PATCH_like.
  - apply register_keeps.
  - apply login_keeps.
  - apply guarded_upload_keeps. intros. apply update_profile_keeps.
  - apply get_profile_keeps.
  - apply guarded_upload_keeps. intros. apply create_post_keeps.
  - apply list_posts_keeps.
  - apply get_post_keeps.
  - apply guarded_upload_keeps. intros. apply update_post_keeps.
  - apply guarded_keeps. intros. apply delete_post_keeps.
  - apply guarded_keeps. intros. apply add_comment_keeps.
  - apply guarded_keeps. intros. apply like_post_keeps.
Qed.

(** C5: whatever the endpoint, the request and the database, the
    payload of the answer has no member named "password" at any depth;
    and the user the Auth Guard attaches to a request it lets through
    carries no password.  (The profile endpoint serialises a user loaded
    with the password deselected; the register, login and profile-update
    answers list their members one by one, none of them the password;
    posts show their authors by user name and profile picture only.) *)
Theorem no_password_in_response (P : Platform) (ep : Endpoint) (req : Req) (d : Db) :
  match sent (snd (serve d (route P ep req))) with
  | Some payload => has_field "password" payload = false
  | None => True
  end /\
  match fst (AuthMiddleware.protect P req (mkWorld d (mkRes 200 None))) with
  | Returned (Some user) => password user = None
  | _ => True
  end.
Proof.
  split.
  - exact (route_keeps P ep req (mkWorld d (mkRes 200 None)) I).
  - rewrite protect_run. cbv zeta.
    destruct (JS.startsWith _ _); [|exact I].
    destruct (jwt_verify P _); [exact I|].
    cbn [db]. destruct (find _ _); [reflexivity | exact I].
Qed.

(* ================================================================== *)
(** * Further properties of the handlers *)
(* ================================================================== *)

(* ------------------------------------------------------------------ *)
(** ** Registration and login *)
(* ------------------------------------------------------------------ *)

Lemma find_none_all {A} (f : A -> bool) (l : list A) :
  find f l = None -> forall x, In x l -> f x = false.
Proof. intros H x Hx. exact (find_none f l H x Hx). Qed.

Lemma not_taken_no_collision (u : User) (us : list User) :
  find (fun v => (email v =? email u)%string || (username v =? username u)%string) us = None ->
  UserModel.collides u us = false.
Proof.
  intros H. unfold UserModel.collides.
  destruct (existsb _ us) eqn:E; [|reflexivity].
  apply existsb_exists in E as (v & Hv & Hc).
  pose proof (find_none_all _ _ H v Hv) as Hn. cbn in Hn.
  apply andb_true_iff in Hc as [_ Hc].
  rewrite orb_comm in Hc. congruence.
Qed.

Lemma find_app_new {A} (f : A -> bool) (l : list A) (a : A) :
  find f l = None -> f a = true -> find f (l ++ [a])%list = Some a.
Proof.
  induction l as [|x l IH]; cbn; intros Hn Ha.
  - now rewrite Ha.
  - destruct (f x); [discriminate Hn | now apply IH].
Qed.

Lemma find_replace_user_new (f : User -> bool) (u : User) (us : list User) :
  find f us = None -> f u = true ->
  existsb (fun v => id_eqb (user_id v) (user_id u)) us = true ->
  find f (UserModel.replace_user u us) = Some u.
Proof.
  induction us as [|x us IH]; cbn; intros Hn Hu Hex; [discriminate Hex|].
  destruct (f x) eqn:Fx; [discriminate Hn|].
  destruct (id_eqb (user_id x) (user_id u)); cbn.
  - now rewrite Hu.
  - rewrite Fx. now apply IH.
Qed.

(** What a registration with all three fields does, case by case. *)
Lemma register_run (P : Platform) (d : Db) (req : Req) :
  JS.truthy (body_username req) = true ->
  JS.truthy (body_email req) = true ->
  JS.truthy (body_password req) = true ->
  serve d (UserRoutes.register P req) =
  match find_email_or_username d (reg_email req) (reg_username req) with
  | Some existing =>
      (d, message_res 400 (if (email existing =? reg_email req)%string
                           then "Email already registered"
                           else "Username already taken"))
  | None =>
      (mkDb (if existsb (fun v => id_eqb (user_id v) (new_ObjectId P)) (users d)
             then UserModel.replace_user (registered_user P req) (users d)
             else (users d ++ [registered_user P req])%list)
            (posts d),
       mkRes 201 (Some (JObj [("_id", JStr (new_ObjectId P));
                              ("username", JStr (reg_username req));
                              ("email", JStr (reg_email req));
                              ("token", JStr (jwt_sign P (new_ObjectId P)))])))
  end.
Proof.
  intros Hn He Hp.
  unfold UserRoutes.register, UserModel.create, UserModel.save,
    UserRoutes.generateToken, find_email_or_username.
  rewrite Hn, He, Hp. cbn [negb orb].
  fold (reg_username req) (reg_email req) (reg_password req).
  run_handler.
  destruct (find _ (users d)) as [existing|] eqn:Hf; [reflexivity|].
  rewrite (not_taken_no_collision
             (mkUser (new_ObjectId P) (reg_username req) (reg_email req)
                     (Some (reg_password req)) "" "") (users d) Hf).
  cbn [user_id username email password profilePicture bio option_map negb orb].
  fold (registered_user P req).
  destruct (existsb _ (users d)); reflexivity.
Qed.

Lemma register_requires_all_fields_run (P : Platform) (d : Db) (req : Req) :
  JS.truthy (body_username req) && JS.truthy (body_email req)
    && JS.truthy (body_password req) = false ->
  serve d (UserRoutes.register P req)
  = (d, message_res 400 "Please provide all required fields").
Proof.
  intros H. unfold UserRoutes.register. run_handler.
  destruct (JS.truthy (body_username req)), (JS.truthy (body_email req)),
    (JS.truthy (body_password req)); try discriminate H; reflexivity.
Qed.

(** X1: a registration that lacks the user name, the e-mail or the
    password (absent or empty) is answered 400 'Please provide all
    required fields' and stores nothing. *)
Theorem register_requires_all_fields (P : Platform) (d : Db) (req : Req) :
  JS.truthy (body_username req) && JS.truthy (body_email req)
    && JS.truthy (body_password req) = false ->
  serve d (UserRoutes.POST_register P req)
  = (d, message_res 400 "Please provide all required fields").
Proof.
  intros H. unfold UserRoutes.POST_register.
  now apply register_requires_all_fields_run.
Qed.

Lemma register_requires_all_fields_witness :
  serve demo_db (UserRoutes.POST_register demo_platform
                   (register_req (Some "carol") (Some "carol@example.com") (Some "")))
  = (demo_db, message_res 400 "Please provide all required fields").
Proof.
  apply (register_requires_all_fields demo_platform demo_db
           (register_req (Some "carol") (Some "carol@example.com") (Some ""))).
  reflexivity.
Defined.

(** X2: a registration whose e-mail or user name a stored user already
    has is answered 400 and stores nothing; the message is 'Email
    already registered' when the first such user has the e-mail, and
    'Username already taken' otherwise. *)
Theorem register_rejects_taken (P : Platform) (d : Db) (req : Req) (existing : User) :
  JS.truthy (body_username req) = true ->
  JS.truthy (body_email req) = true ->
  JS.truthy (body_password req) = true ->
  find_email_or_username d (reg_email req) (reg_username req) = Some existing ->
  serve d (UserRoutes.POST_register P req)
  = (d, message_res 400 (if (email existing =? reg_email req)%string
                         then "Email already registered"
                         else "Username already taken")).
Proof.
  intros Hn He Hp Hf. unfold UserRoutes.POST_register.
  rewrite (register_run P d req Hn He Hp), Hf. reflexivity.
Qed.

Lemma register_rejects_taken_witness :
  serve demo_db (UserRoutes.POST_register demo_platform
                   (register_req (Some "alice") (Some "other@example.com") (Some "pw")))
  = (demo_db, message_res 400 "Username already taken").
Proof.
  apply (register_rejects_taken demo_platform demo_db
           (register_req (Some "alice") (Some "other@example.com") (Some "pw")) alice);
    reflexivity.
Defined.

Lemma register_creates_user_facts (P : Platform) (d : Db) (req : Req) :
  JS.truthy (body_username req) = true ->
  JS.truthy (body_email req) = true ->
  JS.truthy (body_password req) = true ->
  find_email_or_username d (reg_email req) (reg_username req) = None ->
  let d' := fst (serve d (UserRoutes.POST_register P req)) in
  find_email d' (reg_email req) = Some (registered_user P req) /\
  (find_user d (new_ObjectId P) = None ->
   users d' = (users d ++ [registered_user P req])%list).
Proof.
  intros Hn He Hp Hf. cbv zeta. unfold UserRoutes.POST_register.
  rewrite (register_run P d req Hn He Hp), Hf. cbn [fst snd posts users].
  assert (Hfe : find (fun u => (email u =? reg_email req)%string) (users d) = None).
  { unfold find_email_or_username in Hf.
    destruct (find (fun u => (email u =? reg_email req)%string) (users d)) as [v|] eqn:E;
      [|reflexivity].
    apply find_some in E as [Hv Hm].
    pose proof (find_none_all _ _ Hf v Hv) as Hx. cbn in Hx.
    rewrite Hm in Hx. discriminate Hx. }
  split.
  - unfold find_email. cbn [users].
    destruct (existsb _ (users d)) eqn:Hex.
    + apply find_replace_user_new; [exact Hfe | cbn; apply String.eqb_refl | exact Hex].
    + apply find_app_new; [exact Hfe | cbn; apply String.eqb_refl].
  - intros Hfresh. unfold find_user in Hfresh.
    destruct (existsb _ (users d)) eqn:Hex; [|reflexivity].
    apply existsb_exists in Hex as (v & Hv & Hid).
    pose proof (find_none_all _ _ Hfresh v Hv) as Hx. cbn in Hx. congruence.
Qed.

(** X3: a registration with all three fields whose e-mail and user name
    no stored user has is answered 201 with the new id, the user name,
    the e-mail and a token signed for the new id; the user it stores has
    the hash of the password, not the password, and is the one a lookup
    by that e-mail finds; the posts are untouched; and when the new id
    is not in use the user is appended to the collection. *)
Theorem register_creates_user (P : Platform) (d : Db) (req : Req) :
  JS.truthy (body_username req) = true ->
  JS.truthy (body_email req) = true ->
  JS.truthy (body_password req) = true ->
  find_email_or_username d (reg_email req) (reg_username req) = None ->
  let d' := fst (serve d (UserRoutes.POST_register P req)) in
  snd (serve d (UserRoutes.POST_register P req))
  = mkRes 201 (Some (JObj [("_id", JStr (new_ObjectId P));
                           ("username", JStr (reg_username req));
                           ("email", JStr (reg_email req));
                           ("token", JStr (jwt_sign P (new_ObjectId P)))])) /\
  find_email d' (reg_email req) = Some (registered_user P req) /\
  password (registered_user P req) = Some (bcrypt_hash P (reg_password req)) /\
  posts d' = posts d /\
  (find_user d (new_ObjectId P) = None ->
   users d' = (users d ++ [registered_user P req])%list).
Proof.
  intros Hn He Hp Hf. cbv zeta.
  destruct (register_creates_user_facts P d req Hn He Hp Hf) as [Hfe Hfresh].
  unfold UserRoutes.POST_register in *.
  rewrite (register_run P d req Hn He Hp), Hf in *. cbn [fst snd posts users] in *.
  repeat split; assumption || reflexivity.
Qed.

Lemma register_creates_user_witness :
  find_email (fst (serve demo_db (UserRoutes.POST_register demo_platform carol_registers)))
             "carol@example.com"
  = Some (mkUser "p9" "carol" "carol@example.com" (Some "hash:s3cret") "" "").
Proof.
  apply (register_creates_user demo_platform demo_db carol_registers); reflexivity.
Defined.

Lemma login_success (P : Platform) (d : Db) (r : Req) (u : User) :
  JS.truthy (body_email r) = true ->
  JS.truthy (body_password r) = true ->
  find_email d (JS.or_else (body_email r) "") = Some u ->
  UserModel.matchPassword P u (JS.or_else (body_password r) "") = true ->
  serve d (UserRoutes.login P r) = (d, logged_in P u).
Proof.
  intros He Hp Hf Hm. unfold UserRoutes.login, UserRoutes.generateToken, find_email in *.
  run_handler. rewrite He, Hp. cbn [negb orb]. rewrite Hf, Hm. reflexivity.
Qed.

(** X4: registration and login compose.  When the hash comparison
    accepts a password against its own hash, the credentials of a
    successful registration log in: the login is answered 200 with the
    new id, the user name, the e-mail, an empty profile picture and a
    token for the new id.  A login with the same e-mail and another
    non-empty password that the comparison refuses is answered 401
    'Invalid email or password'.  Neither login changes the database. *)
Theorem register_then_login (P : Platform) (d : Db) (req : Req) :
  JS.truthy (body_username req) = true ->
  JS.truthy (body_email req) = true ->
  JS.truthy (body_password req) = true ->
  find_email_or_username d (reg_email req) (reg_username req) = None ->
  bcrypt_compare P (reg_password req) (bcrypt_hash P (reg_password req)) = true ->
  let d' := fst (serve d (UserRoutes.POST_register P req)) in
  serve d' (UserRoutes.POST_login P req) = (d', logged_in P (registered_user P req)) /\
  (forall other : Req,
     body_email other = body_email req ->
     JS.truthy (body_password other) = true ->
     bcrypt_compare P (JS.or_else (body_password other) "")
                    (bcrypt_hash P (reg_password req)) = false ->
     serve d' (UserRoutes.POST_login P other) = (d', invalid_credentials)).
Proof.
  intros Hn He Hp Hf Hc d'.
  destruct (register_creates_user_facts P d req Hn He Hp Hf) as [Hfe _].
  fold d' in Hfe. unfold UserRoutes.POST_login. split.
  - apply login_success; assumption.
  - intros other Hoe Hop Hoc.
    apply (login_wrong_password P d' other (registered_user P req));
      try assumption; rewrite Hoe; assumption.
Qed.

Lemma register_then_login_witness :
  serve (fst (serve demo_db (UserRoutes.POST_register demo_platform carol_registers)))
        (UserRoutes.POST_login demo_platform carol_registers)
  = (fst (serve demo_db (UserRoutes.POST_register demo_platform carol_registers)),
     logged_in demo_platform (registered_user demo_platform carol_registers)).
Proof.
  apply (register_then_login demo_platform demo_db carol_registers); reflexivity.
Defined.

(** X5: a token the service issues passes the guard.  When verifying a
    token signed for an id gives that id back, the token holds no space
    and the id is that of a stored user, a request whose Authorization
    header is "Bearer", a space and that token reaches the handler, with
    that user loaded without the password. *)
Theorem issued_token_passes_guard (P : Platform) (d : Db) (u : User) (req : Req)
    (handler : User -> M unit) :
  find_user d (user_id u) = Some u ->
  JS.includes " " (jwt_sign P (user_id u)) = false ->
  jwt_verify P (Some (jwt_sign P (user_id u))) = inr (user_id u) ->
  authorization req = Some ("Bearer " ++ jwt_sign P (user_id u)) ->
  serve d (Server.guarded P req handler)
  = serve d (handler (UserModel.select_minus_password u)).
Proof.
  intros Hu Hsp Hv Ha.
  pose proof (protect_run P req (mkWorld d (mkRes 200 None))) as Hrun.
  cbv zeta in Hrun. rewrite Ha in Hrun.
  destruct (bearer_token_extracted _ Hsp) as [Hst Htok].
  change (JS.or_else (Some ("Bearer " ++ jwt_sign P (user_id u))) "")
    with ("Bearer " ++ jwt_sign P (user_id u)) in Hrun.
  rewrite Hst, Htok, Hv in Hrun. cbn [db] in Hrun.
  unfold find_user in Hu. rewrite Hu in Hrun.
  unfold serve, Server.guarded. rewrite (bind_returned _ _ _ _ _ Hrun). reflexivity.
Qed.

Lemma issued_token_passes_guard_witness :
  serve demo_db (PostRoutes.PATCH_like demo_platform
                   (with_authorization "Bearer tok:u2" (with_id "p1" blank_req)))
  = serve demo_db (PostRoutes.like_post
                     (with_authorization "Bearer tok:u2" (with_id "p1" blank_req))
                     (UserModel.select_minus_password bob)).
Proof.
  apply (issued_token_passes_guard demo_platform demo_db bob); reflexivity.
Defined.

(* ------------------------------------------------------------------ *)
(** ** What a request can change *)
(* ------------------------------------------------------------------ *)

Lemma stable_ret {A} J (a : A) : stable J (ret a).
Proof. intros w H. exact H. Qed.

Lemma stable_throw {A} J (e : Thrown) : stable J (@throw A e).
Proof. intros w H. exact H. Qed.

Lemma stable_get_db J : stable J get_db.
Proof. intros w H. exact H. Qed.

Lemma stable_res_status J (c : Z) : stable J (res_status c).
Proof. intros w H. exact H. Qed.

Lemma stable_res_json J (j : json) : stable J (res_json j).
Proof. intros w H. exact H. Qed.

Lemma stable_bind {A B} J (m : M A) (k : A -> M B) :
  stable J m -> (forall a, stable J (k a)) -> stable J (bind m k).
Proof.
  intros Hm Hk w H. unfold bind. specialize (Hm w H).
  destruct (m w) as [[a|e] w']; cbn in *; [now apply Hk | exact Hm].
Qed.

Lemma stable_try_catch {A} J (m : M A) (h : Thrown -> M A) :
  stable J m -> (forall e, stable J (h e)) -> stable J (try_catch m h).
Proof.
  intros Hm Hh w H. unfold try_catch. specialize (Hm w H).
  destruct (m w) as [[a|e] w']; cbn in *; [exact Hm | now apply Hh].
Qed.

Ltac stable_step :=
  match goal with
  | |- stable _ (bind _ _) => apply stable_bind; [|intro]
  | |- stable _ (try_catch _ _) => apply stable_try_catch; [|intro]
  | |- stable _ (ret _) => apply stable_ret
  | |- stable _ (throw _) => apply stable_throw
  | |- stable _ get_db => apply stable_get_db
  | |- stable _ (res_status _) => apply stable_res_status
  | |- stable _ (res_json _) => apply stable_res_json
  | |- stable _ (if ?b then _ else _) => destruct b
  | |- stable _ (match ?x with _ => _ end) => destruct x
  end.

Ltac stable_all := open_models; repeat stable_step.

Lemma protect_stable J (P : Platform) (req : Req) : stable J (AuthMiddleware.protect P req).
Proof. unfold AuthMiddleware.protect. stable_all. Qed.

Lemma login_stable J P req : stable J (UserRoutes.login P req).
Proof. unfold UserRoutes.login. stable_all. Qed.

Lemma get_profile_stable J req : stable J (UserRoutes.get_profile req).
Proof. unfold UserRoutes.get_profile. stable_all. Qed.

Lemma get_post_stable J req : stable J (PostRoutes.get_post req).
Proof. unfold PostRoutes.get_post. stable_all. Qed.

Lemma list_posts_stable J P req : stable J (PostRoutes.list_posts P req).
Proof. unfold PostRoutes.list_posts. stable_all. Qed.

(** X6: the login, the two profile and post look-ups and the listing
    only read: whatever the request, the database after it is the
    database before it.  The guard does not write either. *)
Theorem reading_endpoints_do_not_write (P : Platform) (ep : Endpoint) (req : Req) (d : Db) :
  (if reads_only ep then fst (serve d (route P ep req)) = d else True) /\
  (forall w, db (snd (AuthMiddleware.protect P req w)) = db w).
Proof.
  split.
  - destruct ep; cbn [reads_only route]; try exact I;
      unfold UserRoutes.POST_login, UserRoutes.GET_profile, PostRoutes.GET_posts,
        PostRoutes.GET_post, serve; cbn [fst].
    + exact (eq_sym (login_stable (eq d) P req (mkWorld d (mkRes 200 None)) eq_refl)).
    + exact (eq_sym (get_profile_stable (eq d) req (mkWorld d (mkRes 200 None)) eq_refl)).
    + exact (eq_sym (list_posts_stable (eq d) P req (mkWorld d (mkRes 200 None)) eq_refl)).
    + exact (eq_sym (get_post_stable (eq d) req (mkWorld d (mkRes 200 None)) eq_refl)).
  - intros w. exact (eq_sym (protect_stable (eq (db w)) P req w eq_refl)).
Qed.

(** The guard either answers 401 itself, leaving the database as it is,
    or hands over to the handler with a stored user. *)
Lemma guarded_cases (P : Platform) (req : Req) (d : Db) (handler : User -> M unit) :
  (exists r, serve d (Server.guarded P req handler) = (d, r) /\ statusCode r = 401) \/
  (exists u, find_user d (user_id u) = Some u /\
             serve d (Server.guarded P req handler)
             = serve d (handler (UserModel.select_minus_password u))).
Proof.
  pose proof (protect_run P req (mkWorld d (mkRes 200 None))) as Hrun.
  cbv zeta in Hrun. cbn [db] in Hrun.
  unfold serve, Server.guarded.
  destruct (JS.startsWith _ _).
  - destruct (jwt_verify P _) as [msg|id].
    + left. eexists. rewrite (bind_returned _ _ _ _ _ Hrun). split; reflexivity.
    + destruct (find _ (users d)) as [u|] eqn:Hf.
      * right. exists u. rewrite (bind_returned _ _ _ _ _ Hrun).
        split; [|reflexivity].
        unfold find_user. now rewrite (find_some_id user_id _ _ _ Hf).
      * left. eexists. rewrite (bind_returned _ _ _ _ _ Hrun). split; reflexivity.
  - left. eexists. rewrite (bind_returned _ _ _ _ _ Hrun). split; reflexivity.
Qed.

Lemma error_middleware_run (P : Platform) (err : Thrown) (d : Db) :
  serve d (Server.error_middleware P err) = (d, error_res P err).
Proof. reflexivity. Qed.

(** Behind the guard and the upload, a request is answered 401 by the
    guard, 500 by the error middleware, or by the handler. *)
Lemma guarded_upload_cases (P : Platform) (req : Req) (d : Db) upload
    (handler : User -> option string -> M unit) :
  (exists r, serve d (Server.guarded_upload P req upload handler) = (d, r) /\
             statusCode r = 401) \/
  (exists err, upload req = inl err /\
               serve d (Server.guarded_upload P req upload handler) = (d, error_res P err)) \/
  (exists u file, find_user d (user_id u) = Some u /\ upload req = inr file /\
                  serve d (Server.guarded_upload P req upload handler)
                  = serve d (handler (UserModel.select_minus_password u) file)).
Proof.
  unfold Server.guarded_upload.
  destruct (guarded_cases P req d
              (fun user => match upload req with
                           | inl err => Server.error_middleware P err
                           | inr file => handler user file
                           end)) as [H|(u & Hu & Hrun)].
  - left. exact H.
  - right. destruct (upload req) as [err|file] eqn:Hup.
    + left. exists err. split; [reflexivity|]. now rewrite Hrun.
    + right. exists u, file. now rewrite Hrun.
Qed.

Lemma find_replace_post_other (p : Post) (id' : Id) (ps : list Post) :
  post_id p <> id' ->
  find (fun q => id_eqb (post_id q) id') (PostModel.replace_post p ps)
  = find (fun q => id_eqb (post_id q) id') ps.
Proof.
  intros Hne. induction ps as [|q qs IH]; [reflexivity|].
  cbn. destruct (id_eqb (post_id q) (post_id p)) eqn:E; cbn.
  - apply String.eqb_eq in E.
    destruct (String.eqb_spec (post_id p) id') as [|_]; [contradiction|].
    unfold id_eqb. rewrite E.
    destruct (String.eqb_spec (post_id p) id') as [|_]; [contradiction | reflexivity].
  - now rewrite IH.
Qed.

Lemma find_remove_post_other (id id' : Id) (ps : list Post) :
  id <> id' ->
  find (fun q => id_eqb (post_id q) id') (PostModel.remove_post id ps)
  = find (fun q => id_eqb (post_id q) id') ps.
Proof.
  intros Hne. induction ps as [|q qs IH]; [reflexivity|].
  cbn. destruct (id_eqb (post_id q) id) eqn:E.
  - apply String.eqb_eq in E. unfold id_eqb. rewrite E.
    destruct (String.eqb_spec id id') as [|_]; [contradiction | reflexivity].
  - cbn. now rewrite IH.
Qed.

Lemma find_app_other {A} (f : A -> bool) (l : list A) (a : A) :
  f a = false -> find f (l ++ [a])%list = find f l.
Proof.
  intros Ha. induction l as [|x l IH]; cbn; [now rewrite Ha|].
  now destruct (f x).
Qed.

Lemma delete_post_owner (d : Db) (req : Req) (user : User) (post : Post) :
  find_post d (params_id req) = Some post ->
  (author post =? user_id user)%string = true ->
  serve d (PostRoutes.delete_post req user)
  = (mkDb (users d) (PostModel.remove_post (params_id req) (posts d)),
     mkRes 200 (Some (JObj [("message", JStr "Post deleted successfully");
                            ("postId", JStr (post_id post))]))).
Proof.
  intros Hf Ha. unfold PostRoutes.delete_post. run_handler.
  rewrite Hf. cbn. rewrite Ha. cbn. rewrite Hf. reflexivity.
Qed.

Lemma add_comment_found (P : Platform) (d : Db) (req : Req) (user : User) (post : Post) :
  find_post d (params_id req) = Some post ->
  let d' := mkDb (users d)
                 (PostModel.replace_post (with_comment P req user post) (posts d)) in
  serve d (PostRoutes.add_comment P req user)
  = (d', mkRes 201
           (Some (JArr (map (PostModel.comment_toJSON (PostModel.populated d'))
                            (comments (with_comment P req user post)))))) /\
  find_post d' (params_id req) = Some (with_comment P req user post).
Proof.
  intros Hf d'.
  destruct (post_stored_after_replace (posts d) (params_id req) post
              (with_comment P req user post) Hf
              (find_some_id post_id _ _ _ Hf)) as [Hex Hst].
  split; [|exact Hst].
  unfold PostRoutes.add_comment. run_handler.
  rewrite Hf. fold (with_comment P req user post). rewrite Hex.
  subst d'. cbv beta iota zeta delta [db res fst snd statusCode sent users posts] in *.
  rewrite Hst. reflexivity.
Qed.

Lemma create_post_rejected (P : Platform) (d : Db) (req : Req) (user : User)
    (file : option string) :
  JS.truthy (body_title req) && JS.truthy (body_content req) = false ->
  serve d (PostRoutes.create_post P req user file)
  = (d, message_res 400 "Title and content are required").
Proof.
  intros H. unfold PostRoutes.create_post. run_handler.
  destruct (JS.truthy (body_title req)), (JS.truthy (body_content req));
    try discriminate H; reflexivity.
Qed.

Lemma create_post_fresh (P : Platform) (d : Db) (req : Req) (user : User)
    (file : option string) :
  JS.truthy (body_title req) = true ->
  JS.truthy (body_content req) = true ->
  find_post d (new_ObjectId P) = None ->
  let d' := mkDb (users d) (posts d ++ [created_post P req user file])%list in
  serve d (PostRoutes.create_post P req user file)
  = (d', mkRes 201
           (Some (PostModel.toJSON (PostModel.populated d') PostModel.unpopulated
                    (created_post P req user file)))) /\
  find_post d' (new_ObjectId P) = Some (created_post P req user file).
Proof.
  intros Ht Hc Hfresh d'.
  assert (Hst : find_post d' (new_ObjectId P) = Some (created_post P req user file)).
  { unfold find_post, d'. cbn [posts].
    apply find_app_new; [exact Hfresh | cbn; apply String.eqb_refl]. }
  split; [|exact Hst].
  assert (Hex : existsb (fun q => id_eqb (post_id q) (new_ObjectId P)) (posts d) = false).
  { destruct (existsb _ (posts d)) eqn:E; [|reflexivity].
    apply existsb_exists in E as (q & Hq & Hid).
    pose proof (find_none_all _ _ Hfresh q Hq) as Hx. cbn in Hx. congruence. }
  unfold PostRoutes.create_post. rewrite Ht, Hc. cbn [negb orb].
  fold (created_post P req user file). run_handler.
  change (post_id (created_post P req user file)) with (new_ObjectId P).
  rewrite Hex. subst d'.
  cbv beta iota zeta delta [db res fst snd statusCode sent users posts find_post] in *.
  rewrite Hst. reflexivity.
Qed.

Lemma update_post_frame (d : Db) (req : Req) (user : User) (file : option string) (id' : Id) :
  id' <> params_id req ->
  find_post (fst (serve d (PostRoutes.update_post req user file))) id' = find_post d id' /\
  users (fst (serve d (PostRoutes.update_post req user file))) = users d.
Proof.
  intros Hne.
  destruct (find_post d (params_id req)) as [post|] eqn:Hf.
  2:{ now rewrite (update_post_missing d req user file Hf). }
  destruct (author post =? user_id user)%string eqn:Ha.
  2:{ now rewrite (update_post_non_owner d req user file post Hf Ha). }
  rewrite (update_post_owner d req user file post Hf Ha). cbn [fst users].
  split; [|reflexivity]. unfold find_post. cbn [posts].
  apply find_replace_post_other. cbn.
  rewrite (find_some_id post_id _ _ _ Hf). congruence.
Qed.

Lemma delete_post_frame (d : Db) (req : Req) (user : User) (id' : Id) :
  id' <> params_id req ->
  find_post (fst (serve d (PostRoutes.delete_post req user))) id' = find_post d id' /\
  users (fst (serve d (PostRoutes.delete_post req user))) = users d.
Proof.
  intros Hne.
  destruct (find_post d (params_id req)) as [post|] eqn:Hf.
  2:{ now rewrite (delete_post_missing d req user Hf). }
  destruct (author post =? user_id user)%string eqn:Ha.
  2:{ now rewrite (delete_post_non_owner d req user post Hf Ha). }
  rewrite (delete_post_owner d req user post Hf Ha). cbn [fst users].
  split; [|reflexivity]. unfold find_post. cbn [posts].
  apply find_remove_post_other. congruence.
Qed.

Lemma add_comment_frame (P : Platform) (d : Db) (req : Req) (user : User) (id' : Id) :
  id' <> params_id req ->
  find_post (fst (serve d (PostRoutes.add_comment P req user))) id' = find_post d id' /\
  users (fst (serve d (PostRoutes.add_comment P req user))) = users d.
Proof.
  intros Hne.
  destruct (find_post d (params_id req)) as [post|] eqn:Hf.
  2:{ now rewrite (add_comment_missing P d req user Hf). }
  destruct (add_comment_found P d req user post Hf) as [Hrun _]. cbv zeta in Hrun.
  rewrite Hrun. cbn [fst users].
  split; [|reflexivity]. unfold find_post. cbn [posts].
  apply find_replace_post_other. cbn.
  rewrite (find_some_id post_id _ _ _ Hf). congruence.
Qed.

Lemma like_post_frame (d : Db) (req : Req) (user : User) (id' : Id) :
  id' <> params_id req ->
  find_post (fst (serve d (PostRoutes.like_post req user))) id' = find_post d id' /\
  users (fst (serve d (PostRoutes.like_post req user))) = users d.
Proof.
  intros Hne.
  destruct (find_post d (params_id req)) as [post|] eqn:Hf.
  2:{ now rewrite (like_post_missing d req user Hf). }
  destruct (like_post_found d req user post Hf) as [Hrun _]. cbv zeta in Hrun.
  rewrite Hrun. cbn [fst users].
  split; [|reflexivity]. unfold find_post. cbn [posts].
  apply find_replace_post_other. cbn.
  rewrite (find_some_id post_id _ _ _ Hf). congruence.
Qed.

(** X7: a request to update, delete, comment on or like a post can
    change only the post it addresses: every post with another id is
    found exactly as before, and the users are untouched, whoever the
    caller is and whether or not the request is accepted. *)
Theorem post_mutation_touches_one_post (P : Platform) (ep : Endpoint) (req : Req)
    (d : Db) (id' : Id) :
  mutates_post ep = true ->
  id' <> params_id req ->
  find_post (fst (serve d (route P ep req))) id' = find_post d id' /\
  users (fst (serve d (route P ep req))) = users d.
Proof.
  intros Hep Hne.
  destruct ep; try discriminate Hep; cbn [route];
    unfold PostRoutes.PUT_post, PostRoutes.DELETE_post, PostRoutes.POST_comment,
      PostRoutes.PATCH_like.
  - destruct (guarded_upload_cases P req d (PostRoutes.upload_single P)
                (PostRoutes.update_post req))
      as [(r & -> & _)|[(err & _ & ->)|(u & file & _ & _ & ->)]];
      [split; reflexivity | split; reflexivity | now apply update_post_frame].
  - destruct (guarded_cases P req d (PostRoutes.delete_post req))
      as [(r & -> & _)|(u & _ & ->)];
      [split; reflexivity | now apply delete_post_frame].
  - destruct (guarded_cases P req d (PostRoutes.add_comment P req))
      as [(r & -> & _)|(u & _ & ->)];
      [split; reflexivity | now apply add_comment_frame].
  - destruct (guarded_cases P req d (PostRoutes.like_post req))
      as [(r & -> & _)|(u & _ & ->)];
      [split; reflexivity | now apply like_post_frame].
Qed.

Lemma post_mutation_touches_one_post_witness :
  find_post (fst (serve twelve_posts
                    (route demo_platform DeletePost
                       (with_authorization "Bearer tok:u1" (with_id "p3" blank_req)))))
            "p4"
  = find_post twelve_posts "p4".
Proof.
  apply (post_mutation_touches_one_post demo_platform DeletePost
           (with_authorization "Bearer tok:u1" (with_id "p3" blank_req))
           twelve_posts "p4"); [reflexivity | discriminate].
Defined.

Lemma find_remove_post_nodup (id : Id) (ps : list Post) :
  NoDup (map post_id ps) ->
  find (fun q => id_eqb (post_id q) id) (PostModel.remove_post id ps) = None.
Proof.
  induction ps as [|q qs IH]; intros Hnd; [reflexivity|].
  cbn in *. inversion Hnd as [|? ? Hnot Hnd']; subst.
  destruct (id_eqb (post_id q) id) eqn:E.
  - apply String.eqb_eq in E. subst id.
    destruct (find _ qs) as [r|] eqn:Hf; [|reflexivity].
    apply find_some in Hf as [Hr Hid]. apply String.eqb_eq in Hid.
    elim Hnot. rewrite <- Hid. now apply in_map.
  - cbn. rewrite E. now apply IH.
Qed.

Lemma remove_post_length (id : Id) (ps : list Post) (post : Post) :
  find (fun q => id_eqb (post_id q) id) ps = Some post ->
  S (length (PostModel.remove_post id ps)) = length ps.
Proof.
  induction ps as [|q qs IH]; [discriminate|].
  cbn. destruct (id_eqb (post_id q) id); [reflexivity|].
  intros H. cbn. now rewrite (IH H).
Qed.

(** X8: when the author deletes an existing post, the answer is 200
    'Post deleted successfully' with the id of the post, exactly one
    document leaves the collection, and, the ids of the collection
    being distinct, the post is no longer found: the same request sent
    again is answered 404 'Post not found'. *)
Theorem delete_by_author (d : Db) (req : Req) (user : User) (post : Post) :
  find_post d (params_id req) = Some post ->
  author post = user_id user ->
  NoDup (map post_id (posts d)) ->
  let d' := fst (serve d (PostRoutes.delete_post req user)) in
  snd (serve d (PostRoutes.delete_post req user))
  = mkRes 200 (Some (JObj [("message", JStr "Post deleted successfully");
                           ("postId", JStr (params_id req))])) /\
  S (length (posts d')) = length (posts d) /\
  find_post d' (params_id req) = None /\
  serve d' (PostRoutes.delete_post req user) = (d', message_res 404 "Post not found").
Proof.
  intros Hf Ha Hnd d'. subst d'.
  assert (Ha' : (author post =? user_id user)%string = true) by now apply String.eqb_eq.
  rewrite (delete_post_owner d req user post Hf Ha'). cbn [fst snd posts].
  assert (Hnone : find_post (mkDb (users d) (PostModel.remove_post (params_id req) (posts d)))
                            (params_id req) = None).
  { unfold find_post. cbn [posts]. now apply find_remove_post_nodup. }
  split; [now rewrite (find_some_id post_id _ _ _ Hf)|].
  split; [exact (remove_post_length _ _ _ Hf)|].
  split; [exact Hnone|].
  now apply delete_post_missing.
Qed.

Lemma delete_by_author_witness :
  find_post (fst (serve demo_db (PostRoutes.delete_post (with_id "p1" blank_req) alice))) "p1"
  = None.
Proof.
  apply (delete_by_author demo_db (with_id "p1" blank_req) alice post1);
    [reflexivity | reflexivity | ].
  repeat constructor. intros [].
Defined.

(* ------------------------------------------------------------------ *)
(** ** Comments and new posts *)
(* ------------------------------------------------------------------ *)

Lemma or_else_truthy_some (a : option string) :
  JS.truthy a = true -> a = Some (JS.or_else a "").
Proof.
  destruct a as [s|]; [|discriminate].
  destruct s; [discriminate | reflexivity].
Qed.

(** X9: any authenticated user may comment on an existing post, its
    author or not: the answer is 201, the comment (the text sent, the
    caller's id, the time of the request) is appended after the comments
    the post had, every other field of the post stays, and the payload
    lists one comment more than before. *)
Theorem comment_is_appended (P : Platform) (d : Db) (req : Req) (user : User) (post : Post) :
  find_post d (params_id req) = Some post ->
  exists post' items,
    find_post (fst (serve d (PostRoutes.add_comment P req user))) (params_id req)
    = Some post' /\
    comments post'
    = (comments post ++ [mkComment (body_text req) (user_id user) (Date_now P)])%list /\
    (post_id post', title post', content post', author post', tags post', image post',
     likes post', createdAt post')
    = (post_id post, title post, content post, author post, tags post, image post,
       likes post, createdAt post) /\
    snd (serve d (PostRoutes.add_comment P req user)) = mkRes 201 (Some (JArr items)) /\
    length items = S (length (comments post)).
Proof.
  intros Hf.
  destruct (add_comment_found P d req user post Hf) as [Hrun Hst]. cbv zeta in *.
  exists (with_comment P req user post). eexists.
  rewrite Hrun. cbn [fst snd].
  split; [exact Hst|]. split; [reflexivity|]. split; [reflexivity|].
  split; [reflexivity|].
  rewrite length_map. cbn [comments with_comment]. rewrite length_app. cbn. lia.
Qed.

Lemma comment_is_appended_witness :
  exists post',
    find_post (fst (serve demo_db
                      (PostRoutes.add_comment demo_platform
                         (comment_req "p1" (Some "nice")) bob))) "p1" = Some post' /\
    comments post' = [mkComment (Some "nice") "u2" 1700000000000].
Proof.
  destruct (comment_is_appended demo_platform demo_db (comment_req "p1" (Some "nice"))
              bob post1 eq_refl) as (post' & items & Hf & Hc & _).
  exists post'. split; [exact Hf | exact Hc].
Defined.

Lemma get_post_run (d : Db) (req : Req) :
  serve d (PostRoutes.get_post req) =
  match find_post d (params_id req) with
  | Some p => (d, mkRes 200 (Some (PostModel.toJSON (PostModel.populated d)
                                     (PostModel.populated d) p)))
  | None => (d, message_res 404 "Post not found")
  end.
Proof.
  unfold PostRoutes.get_post. run_handler.
  destruct (find _ (posts d)); reflexivity.
Qed.

(** What a guarded route with an upload answers, case by case. *)
Lemma guarded_upload_run (P : Platform) (req : Req) (d : Db) upload
    (handler : User -> option string -> M unit) :
  let h := JS.or_else (authorization req) "" in
  serve d (Server.guarded_upload P req upload handler) =
  if JS.startsWith h "Bearer" then
    match jwt_verify P (nth_error (JS.split " " h) 1) with
    | inl msg => (d, token_failed_res msg)
    | inr id =>
        match find_user d id with
        | None => (d, token_failed_res "User not found")
        | Some u =>
            match upload req with
            | inl err => (d, error_res P err)
            | inr file => serve d (handler (UserModel.select_minus_password u) file)
            end
        end
    end
  else (d, no_token_res).
Proof.
  cbv zeta.
  pose proof (protect_run P req (mkWorld d (mkRes 200 None))) as Hrun.
  cbv zeta in Hrun. cbn [db] in Hrun.
  unfold serve, Server.guarded_upload, Server.guarded, find_user.
  destruct (JS.startsWith _ _).
  - destruct (jwt_verify P _) as [msg|id].
    + now rewrite (bind_returned _ _ _ _ _ Hrun).
    + destruct (find _ (users d)) as [u|];
        rewrite (bind_returned _ _ _ _ _ Hrun); [|reflexivity].
      destruct (upload req) as [err|file]; reflexivity.
  - now rewrite (bind_returned _ _ _ _ _ Hrun).
Qed.

(** X10: a request to create a post that lacks the title or the
    content (absent or empty) never changes the database, and its answer
    is decided in this order: the guard answers 401 when the header does
    not start with "Bearer", when the token does not verify or when its
    user is not stored; then a refused upload is answered 500 by the
    error middleware; otherwise the handler answers 400 'Title and
    content are required' (the upload middleware has by then written an
    accepted file to the upload directory, which is not part of the
    database). *)
Theorem create_requires_title_and_content (P : Platform) (d : Db) (req : Req) :
  JS.truthy (body_title req) && JS.truthy (body_content req) = false ->
  let h := JS.or_else (authorization req) "" in
  serve d (route P PostPosts req) =
  (d, if JS.startsWith h "Bearer" then
        match jwt_verify P (nth_error (JS.split " " h) 1) with
        | inl msg => token_failed_res msg
        | inr id =>
            match find_user d id with
            | None => token_failed_res "User not found"
            | Some _ =>
                match PostRoutes.upload_single P req with
                | inl err => error_res P err
                | inr _ => message_res 400 "Title and content are required"
                end
            end
        end
      else no_token_res).
Proof.
  intros H. cbv zeta. cbn [route]. unfold PostRoutes.POST_posts.
  rewrite guarded_upload_run. cbv zeta.
  destruct (JS.startsWith _ _); [|reflexivity].
  destruct (jwt_verify P _) as [msg|id]; [reflexivity|].
  destruct (find_user d id) as [u|]; [|reflexivity].
  destruct (PostRoutes.upload_single P req) as [err|file]; [reflexivity|].
  apply (create_post_rejected P d req _ file H).
Qed.

Lemma create_requires_title_and_content_witness :
  serve demo_db (route demo_platform PostPosts
                   (with_authorization "Bearer tok:u1"
                      (new_post_req (Some "Hello") (Some "") None)))
  = (demo_db, message_res 400 "Title and content are required").
Proof.
  exact (create_requires_title_and_content demo_platform demo_db
           (with_authorization "Bearer tok:u1"
              (new_post_req (Some "Hello") (Some "") None)) eq_refl).
Defined.

(** X11: creating a post and reading it back.  A create request with a
    title and a content, for a new id that no stored post has, is
    answered 201; the post is appended to the collection with the
    caller as author, the title and content sent, the tags cut at the
    commas and trimmed (none without a tags field), the URL of the
    uploaded image (empty without a file) and no comments or likes; the
    users are untouched; and a look-up of the new id then answers 200
    with that post. *)
Theorem create_then_get (P : Platform) (d : Db) (req : Req) (user : User)
    (file : option string) (lookup : Req) :
  JS.truthy (body_title req) = true ->
  JS.truthy (body_content req) = true ->
  find_post d (new_ObjectId P) = None ->
  params_id lookup = new_ObjectId P ->
  let d' := fst (serve d (PostRoutes.create_post P req user file)) in
  let post := created_post P req user file in
  statusCode (snd (serve d (PostRoutes.create_post P req user file))) = 201 /\
  posts d' = (posts d ++ [post])%list /\
  users d' = users d /\
  body_title req = Some (title post) /\
  body_content req = Some (content post) /\
  author post = user_id user /\
  overwritten (body_tags req) PostRoutes.parse_tags [] (tags post) /\
  image post = match file with
               | Some fname => "/uploads/posts/" ++ fname
               | None => ""
               end /\
  comments post = [] /\ likes post = [] /\
  serve d' (PostRoutes.get_post lookup)
  = (d', mkRes 200 (Some (PostModel.toJSON (PostModel.populated d')
                            (PostModel.populated d') post))).
Proof.
  intros Ht Hc Hfresh Hid d' post. subst d' post.
  destruct (create_post_fresh P d req user file Ht Hc Hfresh) as [Hrun Hst].
  cbv zeta in *. rewrite Hrun. cbn [fst snd statusCode posts users].
  repeat split.
  - cbn. now apply or_else_truthy_some.
  - cbn. now apply or_else_truthy_some.
  - cbn. destruct (body_tags req) as [[|c t]|]; reflexivity.
  - rewrite get_post_run, Hid, Hst. reflexivity.
Qed.

Lemma create_then_get_witness :
  statusCode (snd (serve demo_db
                     (PostRoutes.create_post demo_platform
                        (new_post_req (Some "Hello") (Some "World") (Some "a, b"))
                        bob None))) = 201 /\
  tags (created_post demo_platform
          (new_post_req (Some "Hello") (Some "World") (Some "a, b")) bob None)
  = ["a"; "b"].
Proof.
  split; [|reflexivity].
  apply (create_then_get demo_platform demo_db
           (new_post_req (Some "Hello") (Some "World") (Some "a, b")) bob None
           (with_id "p9" blank_req)); reflexivity.
Defined.

(* ------------------------------------------------------------------ *)
(** ** Likes *)
(* ------------------------------------------------------------------ *)

Lemma toggle_flips (uid : Id) (l : list Id) :
  In uid (PostRoutes.toggle l uid) <-> ~ In uid l.
Proof.
  destruct (in_dec string_dec uid l) as [H|H].
  - rewrite (toggle_present uid l H). split.
    + intros Hin. elim (filter_other_removes uid l Hin).
    + intros Hn. contradiction.
  - rewrite (toggle_absent uid l H). split; [now intros _|].
    intros _. apply in_or_app. right. now left.
Qed.

Lemma filter_twice {A} (f : A -> bool) (l : list A) :
  filter f (filter f l) = filter f l.
Proof.
  induction l as [|x l IH]; [reflexivity|].
  cbn. destruct (f x) eqn:E; cbn; rewrite ?E, IH; reflexivity.
Qed.

Lemma toggle_keeps_others (uid : Id) (l : list Id) :
  filter (fun id => negb (id =? uid)%string) (PostRoutes.toggle l uid)
  = filter (fun id => negb (id =? uid)%string) l.
Proof.
  destruct (in_dec string_dec uid l) as [H|H].
  - rewrite (toggle_present uid l H). apply filter_twice.
  - rewrite (toggle_absent uid l H), filter_app. cbn.
    rewrite String.eqb_refl. cbn. apply app_nil_r.
Qed.

(** X12: a like request on an existing post flips the caller's like and
    no one else's: afterwards the caller's id is in the like list
    exactly when it was not before, and the other ids are the same, in
    the same order and number. *)
Theorem like_flips_membership (d : Db) (req : Req) (user : User) (post : Post) :
  find_post d (params_id req) = Some post ->
  exists post',
    find_post (fst (serve d (PostRoutes.like_post req user))) (params_id req)
    = Some post' /\
    (In (user_id user) (likes post') <-> ~ In (user_id user) (likes post)) /\
    filter (fun id => negb (id =? user_id user)%string) (likes post')
    = filter (fun id => negb (id =? user_id user)%string) (likes post).
Proof.
  intros Hf.
  destruct (like_post_found d req user post Hf) as [Hrun Hst]. cbv zeta in *.
  eexists. rewrite Hrun. cbn [fst]. split; [exact Hst|].
  cbn [likes with_likes]. split; [apply toggle_flips | apply toggle_keeps_others].
Qed.

Lemma like_flips_membership_witness :
  exists post',
    find_post (fst (serve demo_db (PostRoutes.like_post bob_likes_p1 alice))) "p1"
    = Some post' /\
    ~ In "u1" (likes post').
Proof.
  destruct (like_flips_membership demo_db bob_likes_p1 alice post1 eq_refl)
    as (post' & Hf & Hflip & _).
  exists post'. split; [exact Hf|].
  intros Hin. apply Hflip in Hin. apply Hin. cbn. right. now left.
Defined.

(* ------------------------------------------------------------------ *)
(** ** Uploads that are refused *)
(* ------------------------------------------------------------------ *)

Lemma fileFilter_decides (f : File) :
  PostRoutes.fileFilter f = inr true \/ PostRoutes.fileFilter f = images_only.
Proof.
  unfold PostRoutes.fileFilter, images_only.
  destruct (_ && _); [now left | now right].
Qed.

Lemma upload_refused (P : Platform) (ep : Endpoint) (req : Req) (f : File) :
  file_part req = Some f ->
  (PostRoutes.fileFilter f = images_only ->
   upload_of P ep req = inl (ErrorStr "Error: Images only!")) /\
  (PostRoutes.fileFilter f = inr true -> Multer.fileSize_limit < size f ->
   upload_of P ep req
   = inl (ErrorObj "MulterError" "File too large" "MulterError: File too large")).
Proof.
  intros Hf.
  assert (Hsame : upload_of P ep req
                  = Multer.single PostRoutes.fileFilter
                      (match ep with
                       | PutProfile => UserRoutes.filename P
                       | _ => PostRoutes.filename P
                       end) req) by now destruct ep.
  rewrite Hsame. unfold Multer.single. rewrite Hf. split.
  - intros ->. reflexivity.
  - intros -> Hsz. apply Z.ltb_lt in Hsz. now rewrite Hsz.
Qed.

Lemma upload_route (P : Platform) (ep : Endpoint) (req : Req) :
  takes_upload ep = true ->
  exists handler, route P ep req = Server.guarded_upload P req (upload_of P ep) handler.
Proof.
  intros H. destruct ep; try discriminate H; cbn [route upload_of];
    unfold UserRoutes.PUT_profile, PostRoutes.POST_posts, PostRoutes.PUT_post;
    eexists; reflexivity.
Qed.

(** X13: on the three endpoints that take an upload (create post,
    update post, update profile), a request whose file the filter
    refuses, or whose accepted file is larger than 5 MiB, never reaches
    the handler and stores nothing.  Unless the guard has already
    answered 401, the error-handling middleware answers 500: for a
    refused file type the payload carries no message at all (the filter
    passes a bare string, which has no [message]), only [stack], which
    is [null] outside development; for a file too large the message is
    'File too large'. *)
Theorem refused_upload_answered_500 (P : Platform) (ep : Endpoint) (req : Req)
    (d : Db) (f : File) :
  takes_upload ep = true ->
  file_part req = Some f ->
  PostRoutes.fileFilter f = images_only \/ Multer.fileSize_limit < size f ->
  fst (serve d (route P ep req)) = d /\
  (statusCode (snd (serve d (route P ep req))) = 401 \/
   statusCode (snd (serve d (route P ep req))) = 500) /\
  (statusCode (snd (serve d (route P ep req))) = 500 ->
   PostRoutes.fileFilter f = images_only ->
   sent (snd (serve d (route P ep req)))
   = Some (JObj (if development P then [] else [("stack", JNull)]))) /\
  (statusCode (snd (serve d (route P ep req))) = 500 ->
   PostRoutes.fileFilter f = inr true ->
   exists rest,
     sent (snd (serve d (route P ep req)))
     = Some (JObj (("message", JStr "File too large") :: rest))).
Proof.
  intros Hep Hf Hbad.
  destruct (upload_route P ep req Hep) as [handler ->].
  destruct (upload_refused P ep req f Hf) as [Htype Hsize].
  assert (Hup : exists err, upload_of P ep req = inl err).
  { destruct Hbad as [Hb|Hb].
    - eexists. exact (Htype Hb).
    - destruct (fileFilter_decides f) as [Hacc|Hrej]; eexists;
        [exact (Hsize Hacc Hb) | exact (Htype Hrej)]. }
  destruct Hup as [err Herr].
  destruct (guarded_upload_cases P req d (upload_of P ep) handler)
    as [(r & Hrun & H401)|[(err' & Herr' & Hrun)|(u & file & _ & Hok & _)]].
  - rewrite Hrun. cbn [fst snd]. split; [reflexivity|]. split; [now left|].
    split; intros H500; rewrite H401 in H500; discriminate H500.
  - rewrite Hrun. cbn [fst snd]. split; [reflexivity|]. split; [now right|].
    split.
    + intros _ Hrej. rewrite (Htype Hrej) in Herr'. injection Herr' as <-.
      cbn. now destruct (development P).
    + intros _ Hacc.
      assert (Hsz : Multer.fileSize_limit < size f).
      { destruct Hbad as [Hb|Hb]; [|exact Hb]. rewrite Hacc in Hb. discriminate Hb. }
      rewrite (Hsize Hacc Hsz) in Herr'. injection Herr' as <-.
      eexists. reflexivity.
  - rewrite Herr in Hok. discriminate Hok.
Qed.

Lemma refused_upload_answered_500_witness :
  fst (serve demo_db (route demo_platform PutPost gif_upload)) = demo_db /\
  sent (snd (serve demo_db (route demo_platform PutPost gif_upload)))
  = Some (JObj [("stack", JNull)]).
Proof.
  destruct (refused_upload_answered_500 demo_platform PutPost gif_upload demo_db
              (mkFile "clip.gif" "image/gif" 2048) eq_refl eq_refl
              (or_introl eq_refl)) as (Hdb & _ & Htype & _).
  split; [exact Hdb|]. exact (Htype eq_refl eq_refl).
Defined.

(* ------------------------------------------------------------------ *)
(** ** Profiles *)
(* ------------------------------------------------------------------ *)

Lemma find_replace_user_other (u : User) (id' : Id) (us : list User) :
  user_id u <> id' ->
  find (fun v => id_eqb (user_id v) id') (UserModel.replace_user u us)
  = find (fun v => id_eqb (user_id v) id') us.
Proof.
  intros Hne. induction us as [|q qs IH]; [reflexivity|].
  cbn. destruct (id_eqb (user_id q) (user_id u)) eqn:E; cbn.
  - apply String.eqb_eq in E.
    destruct (String.eqb_spec (user_id u) id') as [|_]; [contradiction|].
    unfold id_eqb. rewrite E.
    destruct (String.eqb_spec (user_id u) id') as [|_]; [contradiction | reflexivity].
  - now rewrite IH.
Qed.

Lemma updated_user_id (P : Platform) (req : Req) (file : option string) (user : User) :
  user_id (updated_user P req file user) = user_id user.
Proof. unfold updated_user. now destruct (JS.truthy (body_password req)). Qed.

Lemma update_profile_keeps_posts (P : Platform) (d : Db) (req : Req) (caller : User)
    (file : option string) :
  posts (fst (serve d (UserRoutes.update_profile P req caller file))) = posts d.
Proof.
  rewrite update_profile_run.
  destruct (find_user d (user_id caller)); [|reflexivity].
  destruct (UserModel.collides _ _); reflexivity.
Qed.

Lemma update_profile_frame (P : Platform) (d : Db) (req : Req) (caller : User)
    (file : option string) (id' : Id) :
  id' <> user_id caller ->
  find_user (fst (serve d (UserRoutes.update_profile P req caller file))) id'
  = find_user d id'.
Proof.
  intros Hne. rewrite update_profile_run.
  destruct (find_user d (user_id caller)) as [user|] eqn:Hf; [|reflexivity].
  destruct (UserModel.collides _ _); [reflexivity|].
  cbn [fst]. unfold find_user. cbn [users]. apply find_replace_user_other.
  rewrite updated_user_id. unfold find_user in Hf.
  rewrite (find_some_id user_id _ _ _ Hf). congruence.
Qed.

(** X14: a profile update can change only the caller's own document:
    through the route, the posts are untouched; the 'User not found'
    branch of the handler is never taken, since the guard has just
    loaded the caller; and in the handler every user with another id
    than the caller's is found exactly as before. *)
Theorem profile_update_touches_caller_only (P : Platform) (d : Db) (req : Req) :
  posts (fst (serve d (UserRoutes.PUT_profile P req))) = posts d /\
  snd (serve d (UserRoutes.PUT_profile P req)) <> message_res 400 "User not found" /\
  (forall (caller : User) (file : option string) (id' : Id),
     id' <> user_id caller ->
     find_user (fst (serve d (UserRoutes.update_profile P req caller file))) id'
     = find_user d id').
Proof.
  split; [|split].
  - unfold UserRoutes.PUT_profile.
    destruct (guarded_upload_cases P req d (UserRoutes.upload_single P)
                (UserRoutes.update_profile P req))
      as [(r & -> & _)|[(err & _ & ->)|(u & file & _ & _ & ->)]];
      try reflexivity.
    apply update_profile_keeps_posts.
  - unfold UserRoutes.PUT_profile.
    destruct (guarded_upload_cases P req d (UserRoutes.upload_single P)
                (UserRoutes.update_profile P req))
      as [(r & -> & H401)|[(err & _ & ->)|(u & file & Hu & _ & ->)]].
    + cbn [snd]. intros ->. discriminate H401.
    + cbn [snd]. discriminate.
    + rewrite update_profile_run.
      change (user_id (UserModel.select_minus_password u)) with (user_id u).
      rewrite Hu. destruct (UserModel.collides _ _); cbn [snd]; discriminate.
  - intros caller file id' Hne. now apply update_profile_frame.
Qed.

Lemma profile_update_touches_caller_only_witness :
  find_user (fst (serve demo_db
                    (UserRoutes.update_profile demo_platform
                       (register_req (Some "bobby") None None) bob None))) "u1"
  = Some alice.
Proof.
  apply (proj2 (proj2 (profile_update_touches_caller_only demo_platform demo_db
                         (register_req (Some "bobby") None None)))).
  discriminate.
Defined.




(* ------------------------------------------------------------------ *)
(** ** Walking through the pages *)
(* ------------------------------------------------------------------ *)

Lemma chunks_cover {A} (n : nat) (l : list A) :
  (length l <= 10 * n)%nat ->
  concat (map (fun k => firstn 10 (skipn (10 * (k - 1)) l)) (seq 1 n)) = l.
Proof.
  revert l. induction n as [|n IH]; intros l Hlen.
  - destruct l; [reflexivity | cbn in Hlen; lia].
  - cbn [seq map concat]. change (10 * (1 - 1))%nat with 0%nat. rewrite skipn_O.
    rewrite (map_ext_in _ (fun k => firstn 10 (skipn (10 * (k - 1 - 1)) (skipn 10 l)))).
    + rewrite <- seq_shift, map_map.
      rewrite (map_ext _ (fun k => firstn 10 (skipn (10 * (k - 1)) (skipn 10 l)))).
      * rewrite IH; [apply firstn_skipn|]. rewrite length_skipn. lia.
      * intros k. do 3 f_equal. lia.
    + intros k Hk. apply in_seq in Hk. rewrite skipn_skipn. do 2 f_equal. lia.
Qed.

Lemma page_docs_nat (l : list Post) (k : nat) :
  page_docs l (Z.of_nat k) = firstn 10 (skipn (10 * (k - 1)) l).
Proof.
  unfold page_docs. f_equal. f_equal. lia.
Qed.

(** X16: walking through the pages of a listing.  For a keyword the
    database accepts (or none), every page [p >= 1] is answered 200 with
    the documents of that page (the next ten, or what is left) of the
    matching documents, newest first, and the same [pages] and [total];
    the pages 1 to [pages] put end to end are the matching documents,
    each once and in order; and a page after the last is answered 200
    with an empty list. *)
Theorem listing_pages_cover (P : Platform) (d : Db) (req : Req) (m : Post -> bool) :
  matcher P (keyword_of req) = Some m ->
  let matching := PostModel.sort_desc (filter m (posts d)) in
  let pages := JS.Math_ceil_div (Z.of_nat (length matching)) 10 in
  (forall p, 1 <= p ->
     serve d (PostRoutes.GET_posts P (with_page p req)) = (d, listing_res d matching p)) /\
  concat (map (fun k => page_docs matching (Z.of_nat k)) (seq 1 (Z.to_nat pages)))
  = matching /\
  (forall p, pages < p -> page_docs matching p = []).
Proof.
  intros Hm matching pages.
  pose proof (Math_ceil_div_10 (Z.of_nat (length matching))) as Hceil. fold pages in Hceil.
  split; [|split].
  - intros p Hp. unfold PostRoutes.GET_posts.
    assert (Hpage : PostRoutes.page_of (with_page p req) = p).
    { unfold PostRoutes.page_of, with_page. cbn.
      destruct (Z.eqb_spec p 0); [lia | reflexivity]. }
    rewrite (list_posts_run P d (with_page p req) m); [|exact Hm | lia].
    rewrite Hpage. unfold listing_res, page_docs.
    fold matching. unfold matching at 3 4. rewrite sort_desc_length. reflexivity.
  - rewrite (map_ext _ (fun k => firstn 10 (skipn (10 * (k - 1)) matching)))
      by (intros k; apply page_docs_nat).
    apply chunks_cover. lia.
  - intros p Hp. unfold page_docs.
    rewrite skipn_all2; [reflexivity | lia].
Qed.

Lemma listing_pages_cover_witness :
  serve twelve_posts (PostRoutes.GET_posts demo_platform (with_page 3 blank_req))
  = (twelve_posts,
     listing_res twelve_posts
       (PostModel.sort_desc (filter (fun _ => true) (posts twelve_posts))) 3).
Proof.
  apply (proj1 (listing_pages_cover demo_platform twelve_posts blank_req (fun _ => true)
                  eq_refl)).
  lia.
Defined.

(* ------------------------------------------------------------------ *)
(** ** White space and tags *)
(* ------------------------------------------------------------------ *)

Lemma count_char_app (c : ascii) (a b : string) :
  count_char c (a ++ b) = (count_char c a + count_char c b)%nat.
Proof.
  induction a as [|x a IH]; [reflexivity|]. cbn. rewrite IH. lia.
Qed.

Lemma append_nil_right (s : string) : s ++ "" = s.
Proof. induction s as [|x s IH]; [reflexivity | cbn; now rewrite IH]. Qed.

Lemma append_associative (a b c : string) : (a ++ b) ++ c = a ++ (b ++ c).
Proof. induction a as [|x a IH]; [reflexivity | cbn; now rewrite IH]. Qed.

Lemma split_length (sep : ascii) (s : string) :
  length (JS.split sep s) = S (count_char sep s).
Proof.
  induction s as [|c s IH]; [reflexivity|].
  cbn [JS.split count_char]. destruct (Ascii.eqb c sep).
  - cbn. now rewrite IH.
  - destruct (JS.split sep s) as [|w ws]; [discriminate IH | exact IH].
Qed.

Lemma split_pieces_no_sep (sep : ascii) (s : string) :
  Forall (fun w => count_char sep w = 0%nat) (JS.split sep s).
Proof.
  induction s as [|c s IH]; [repeat constructor|].
  cbn [JS.split]. destruct (Ascii.eqb c sep) eqn:E.
  - constructor; [reflexivity | exact IH].
  - destruct (JS.split sep s) as [|w ws].
    + repeat constructor. cbn. now rewrite E.
    + inversion IH as [|? ? Hw Hws]; subst. constructor; [|exact Hws].
      cbn. now rewrite E.
Qed.

Lemma split_without_sep (sep : ascii) (s : string) :
  count_char sep s = 0%nat -> JS.split sep s = [s].
Proof.
  induction s as [|x s IH]; [reflexivity|].
  cbn [count_char JS.split]. destruct (Ascii.eqb x sep); [discriminate|].
  intros H. now rewrite (IH H).
Qed.

(** *** Removing one white-space character *)

Lemma strip_prefix_sound (p s r : string) :
  JS.strip_prefix p s = Some r -> s = p ++ r.
Proof.
  revert s. induction p as [|a p IH]; intros s H; cbn in *.
  - congruence.
  - destruct s as [|b s]; [discriminate|].
    destruct (Ascii.eqb_spec a b) as [->|_]; [|discriminate].
    now rewrite (IH s H).
Qed.

Lemma strip_any_sound (ps : list string) (s r : string) :
  JS.strip_any ps s = Some r -> exists w, In w ps /\ s = w ++ r.
Proof.
  induction ps as [|p ps IH]; [discriminate|]. cbn.
  destruct (JS.strip_prefix p s) as [r'|] eqn:E.
  - intros [= ->]. exists p. split; [now left | now apply strip_prefix_sound].
  - intros H. destruct (IH H) as (w & Hw & ->). exists w. split; [now right | reflexivity].
Qed.

Lemma strip_space_sound (s r : string) :
  JS.strip_space s = Some r -> exists w, In w JS.white_space /\ s = w ++ r.
Proof. apply strip_any_sound. Qed.

(** No white-space character is the beginning of another, so the one a
    string begins with is the one that is removed. *)
Lemma strip_space_complete (w r : string) :
  In w JS.white_space -> JS.strip_space (w ++ r) = Some r.
Proof.
  intros H. cbv [JS.white_space JS.bytes map fold_right] in H.
  repeat (destruct H as [<-|H]; [reflexivity|]). destruct H.
Qed.

Lemma white_space_nonempty (w : string) : In w JS.white_space -> w <> "".
Proof.
  intros H. cbv [JS.white_space JS.bytes map fold_right] in H.
  repeat (destruct H as [<-|H]; [discriminate|]). destruct H.
Qed.

Lemma length_append (a b : string) :
  String.length (a ++ b) = (String.length a + String.length b)%nat.
Proof. induction a as [|x a IH]; [reflexivity | cbn; now rewrite IH]. Qed.

Lemma strip_space_shorter (s r : string) :
  JS.strip_space s = Some r -> (String.length r < String.length s)%nat.
Proof.
  intros H. destruct (strip_space_sound s r H) as (w & Hw & ->).
  rewrite length_append. pose proof (white_space_nonempty w Hw).
  destruct w; [congruence | cbn; lia].
Qed.

(** *** [trimStart] *)

Lemma trimStart_from_enough (n m : nat) (s : string) :
  (String.length s <= n)%nat -> (String.length s <= m)%nat ->
  JS.trimStart_from n s = JS.trimStart_from m s.
Proof.
  revert m s. induction n as [|n IH]; intros m s Hn Hm.
  - destruct s; [|cbn in Hn; lia]. now destruct m.
  - destruct m as [|m].
    + destruct s; [reflexivity | cbn in Hm; lia].
    + cbn [JS.trimStart_from]. destruct (JS.strip_space s) as [r|] eqn:E; [|reflexivity].
      pose proof (strip_space_shorter s r E). apply IH; lia.
Qed.

Lemma trimStart_eq (s : string) :
  JS.trimStart s = match JS.strip_space s with
                   | Some r => JS.trimStart r
                   | None => s
                   end.
Proof.
  unfold JS.trimStart. destruct (JS.strip_space s) as [r|] eqn:E.
  - pose proof (strip_space_shorter s r E).
    destruct (String.length s) as [|n] eqn:L; [lia|].
    cbn [JS.trimStart_from]. rewrite E. apply trimStart_from_enough; lia.
  - destruct (String.length s); [reflexivity|]. cbn [JS.trimStart_from]. now rewrite E.
Qed.

Lemma trimStart_cons (w r : string) :
  In w JS.white_space -> JS.trimStart (w ++ r) = JS.trimStart r.
Proof. intros H. now rewrite trimStart_eq, (strip_space_complete w r H). Qed.

Lemma by_length (Q : string -> Prop) :
  (forall s, (forall r, (String.length r < String.length s)%nat -> Q r) -> Q s) ->
  forall s, Q s.
Proof.
  intros step s.
  assert (H : forall n r, (String.length r < n)%nat -> Q r).
  { induction n as [|n IH]; intros r Hr; [lia|].
    apply step. intros r' Hr'. apply IH. lia. }
  exact (H (S (String.length s)) s (Nat.lt_succ_diag_r _)).
Qed.

Lemma trimStart_split (s : string) :
  exists a, s = a ++ JS.trimStart s /\ Blank a.
Proof.
  induction s as [s IH] using by_length.
  rewrite trimStart_eq. destruct (JS.strip_space s) as [r|] eqn:E.
  - destruct (strip_space_sound s r E) as (w & Hw & ->).
    destruct (IH r (strip_space_shorter _ _ E)) as (a & Ha & Hb).
    exists (w ++ a). split.
    + rewrite append_associative. now rewrite <- Ha.
    + now constructor.
  - exists "". split; [reflexivity | constructor].
Qed.

Lemma trimStart_head (s : string) : JS.strip_space (JS.trimStart s) = None.
Proof.
  induction s as [s IH] using by_length.
  rewrite trimStart_eq. destruct (JS.strip_space s) as [r|] eqn:E; [|exact E].
  apply IH. now apply strip_space_shorter.
Qed.

Lemma trimStart_fixed (s : string) : JS.strip_space s = None -> JS.trimStart s = s.
Proof. intros H. now rewrite trimStart_eq, H. Qed.

(** *** Blank strings *)

Lemma blank_Blank (s : string) : JS.blank s = true <-> Blank s.
Proof.
  unfold JS.blank. rewrite String.eqb_eq. split.
  - intros H. destruct (trimStart_split s) as (a & Ha & Hb).
    rewrite H, append_nil_right in Ha. now subst a.
  - induction 1 as [|w r Hw _ IH]; [reflexivity|]. now rewrite trimStart_cons.
Qed.

Lemma Blank_app (a b : string) : Blank a -> Blank b -> Blank (a ++ b).
Proof.
  induction 1 as [|w r Hw _ IH]; intros Hb; [exact Hb|].
  rewrite append_associative. constructor; auto.
Qed.

Lemma Blank_white (w : string) : In w JS.white_space -> Blank w.
Proof.
  intros H. rewrite <- (append_nil_right w). constructor; [exact H | constructor].
Qed.

(** *** [trimEnd] *)

Lemma trimEnd_split (s : string) :
  exists b, s = JS.trimEnd s ++ b /\ Blank b.
Proof.
  induction s as [|c s IH].
  - exists "". split; [reflexivity | constructor].
  - cbn [JS.trimEnd]. destruct (JS.blank (String c s)) eqn:E.
    + exists (String c s). split; [reflexivity | now apply blank_Blank].
    + destruct IH as (b & Hb & HB). exists b. split; [|exact HB].
      cbn. now rewrite <- Hb.
Qed.

(** What [trimEnd] keeps does not end with white space. *)
Lemma trimEnd_tail (s r b : string) :
  JS.trimEnd s = r ++ b -> Blank b -> b = "".
Proof.
  revert r. induction s as [|c s IH]; intros r H HB.
  - cbn in H. destruct r; [now cbn in H | discriminate H].
  - cbn [JS.trimEnd] in H. destruct (JS.blank (String c s)) eqn:E.
    + destruct r; [now cbn in H | discriminate H].
    + destruct r as [|x r]; cbn in H.
      * destruct (trimEnd_split s) as (b' & Hb' & HB').
        assert (HBs : Blank (String c s)).
        { rewrite Hb'. change (String c (JS.trimEnd s ++ b'))
            with (String c (JS.trimEnd s) ++ b'). rewrite H. now apply Blank_app. }
        apply blank_Blank in HBs. congruence.
      * injection H as _ H. exact (IH r H HB).
Qed.

Lemma trimEnd_head (s : string) :
  JS.strip_space s = None -> JS.strip_space (JS.trimEnd s) = None.
Proof.
  intros H. destruct (JS.strip_space (JS.trimEnd s)) as [q|] eqn:E; [|reflexivity].
  destruct (strip_space_sound _ _ E) as (w & Hw & Hq).
  destruct (trimEnd_split s) as (b & Hb & _).
  rewrite Hq, append_associative in Hb.
  rewrite Hb, (strip_space_complete w _ Hw) in H. discriminate H.
Qed.

Lemma Blank_last (s : string) :
  Blank s -> s = "" \/ exists r w, In w JS.white_space /\ s = r ++ w.
Proof.
  induction 1 as [|w r Hw _ [->|(r' & w' & Hw' & ->)]]; [now left | |]; right.
  - exists "", w. now rewrite append_nil_right.
  - exists (w ++ r'), w'. now rewrite append_associative.
Qed.

Lemma trimEnd_fixed (s : string) :
  (forall r w, In w JS.white_space -> s <> r ++ w) -> JS.trimEnd s = s.
Proof.
  induction s as [|c s IH]; intros H; [reflexivity|].
  cbn [JS.trimEnd]. destruct (JS.blank (String c s)) eqn:E.
  - apply blank_Blank, Blank_last in E as [E|(r & w & Hw & E)]; [discriminate E|].
    now elim (H r w Hw).
  - f_equal. apply IH. intros r w Hw ->. exact (H (String c r) w Hw eq_refl).
Qed.

(** *** [trim] *)

Lemma trim_unpadded (s : string) : unpadded (JS.trim s).
Proof.
  unfold JS.trim. split.
  - intros w r Hw H.
    pose proof (trimEnd_head _ (trimStart_head s)) as Hh.
    rewrite H, (strip_space_complete w r Hw) in Hh. discriminate Hh.
  - intros r w Hw H.
    pose proof (trimEnd_tail _ _ _ H (Blank_white w Hw)) as ->.
    now apply (white_space_nonempty "" Hw).
Qed.

Lemma trim_split (s : string) :
  exists a b, s = a ++ JS.trim s ++ b /\ Blank a /\ Blank b.
Proof.
  destruct (trimStart_split s) as (a & Ha & HA).
  destruct (trimEnd_split (JS.trimStart s)) as (b & Hb & HB).
  exists a, b. unfold JS.trim. now rewrite <- Hb, <- Ha.
Qed.

Lemma trim_fixed (s : string) : unpadded s -> JS.trim s = s.
Proof.
  intros [Hs He]. unfold JS.trim. rewrite trimStart_fixed.
  - now apply trimEnd_fixed.
  - destruct (JS.strip_space s) as [r|] eqn:E; [|reflexivity].
    destruct (strip_space_sound s r E) as (w & Hw & Hq). now elim (Hs w r Hw).
Qed.

Lemma trim_twice (s : string) : JS.trim (JS.trim s) = JS.trim s.
Proof. apply trim_fixed, trim_unpadded. Qed.

Lemma trim_after_blank (a s : string) : Blank a -> JS.trim (a ++ s) = JS.trim s.
Proof.
  intros H. unfold JS.trim. f_equal.
  induction H as [|w r Hw _ IH]; [reflexivity|].
  now rewrite append_associative, trimStart_cons.
Qed.

Lemma count_trim (c : ascii) (s : string) :
  (count_char c (JS.trim s) <= count_char c s)%nat.
Proof.
  destruct (trim_split s) as (a & b & H & _).
  rewrite H at 2. rewrite !count_char_app. lia.
Qed.

(** *** Tags *)

Lemma concat_cons (sep x y : string) (l : list string) :
  String.concat sep (x :: y :: l) = x ++ sep ++ String.concat sep (y :: l).
Proof. reflexivity. Qed.

Lemma concat_split (sep : ascii) (s : string) :
  String.concat (String sep "") (JS.split sep s) = s.
Proof.
  induction s as [|c s IH]; [reflexivity|].
  cbn [JS.split]. destruct (JS.split sep s) as [|w ws] eqn:E;
    [now elim (split_not_nil sep s)|].
  destruct (Ascii.eqb_spec c sep) as [->|_].
  - rewrite concat_cons, IH. reflexivity.
  - destruct ws as [|y ws].
    + cbn in *. now rewrite IH.
    + rewrite concat_cons in *. now rewrite <- IH.
Qed.

Lemma split_app_sep (sep : ascii) (a b : string) :
  count_char sep a = 0%nat ->
  JS.split sep (a ++ String sep b) = a :: JS.split sep b.
Proof.
  induction a as [|x a IH]; cbn [append count_char JS.split].
  - intros _. now rewrite Ascii.eqb_refl.
  - destruct (Ascii.eqb x sep); [discriminate|]. intros H. now rewrite (IH H).
Qed.

Lemma parse_tags_after_space (s : string) :
  PostRoutes.parse_tags (String " " s) = PostRoutes.parse_tags s.
Proof.
  unfold PostRoutes.parse_tags. cbn [JS.split]. cbn [Ascii.eqb Bool.eqb].
  destruct (JS.split "," s) as [|w ws] eqn:E; [now elim (split_not_nil "," s)|].
  cbn [map]. f_equal; apply (trim_after_blank " " w), Blank_white; cbn; tauto.
Qed.

Lemma parse_tags_joined (l : list string) :
  l <> [] ->
  Forall plain_tag l ->
  PostRoutes.parse_tags (String.concat ", " l) = l.
Proof.
  intros Hne H. induction H as [|x l [Hx Hc] Hl IH]; [now elim Hne|].
  destruct l as [|y l].
  - cbn [String.concat]. unfold PostRoutes.parse_tags.
    rewrite (split_without_sep _ _ Hc). cbn. now rewrite trim_fixed.
  - rewrite concat_cons.
    change (", " ++ String.concat ", " (y :: l))
      with (String "," (String " " (String.concat ", " (y :: l)))).
    unfold PostRoutes.parse_tags. rewrite (split_app_sep _ _ _ Hc).
    cbn [map]. rewrite (trim_fixed x Hx). f_equal.
    fold (PostRoutes.parse_tags (String " " (String.concat ", " (y :: l)))).
    rewrite parse_tags_after_space. apply IH. discriminate.
Qed.

(** X17: the tags of a post are the pieces of the tags field between
    its commas, each without the white space around it.  The pieces,
    joined by commas, are the field; a field with [k] commas gives
    [k + 1] tags, empty ones included (nothing is dropped); each tag is
    its piece less a run of white-space characters before it and one
    after it, neither begins nor ends with a white-space character, and
    contains no comma.  So a list of tags that have no comma and no
    white space around them, written with ", " between them, is read
    back as it is. *)
Theorem parse_tags_shape (t : string) :
  String.concat "," (JS.split "," t) = t /\
  length (PostRoutes.parse_tags t) = S (count_char "," t) /\
  Forall2 (fun piece tag => trimmed_of piece tag /\ count_char "," tag = 0%nat)
          (JS.split "," t) (PostRoutes.parse_tags t) /\
  (forall l, l <> [] -> Forall plain_tag l -> t = String.concat ", " l ->
     PostRoutes.parse_tags t = l).
Proof.
  split; [apply concat_split|]. split.
  { unfold PostRoutes.parse_tags. now rewrite length_map, split_length. }
  split; [|intros l Hne Hl ->; now apply parse_tags_joined].
  unfold PostRoutes.parse_tags.
  pose proof (split_pieces_no_sep "," t) as H.
  induction H as [|w ws Hw _ IH]; cbn [map]; constructor; [|exact IH].
  split; [split; [apply trim_split | apply trim_unpadded]|].
  pose proof (count_trim "," w). lia.
Qed.

Lemma plain_tag_decide (x : string) :
  JS.trim x = x -> count_char "," x = 0%nat -> plain_tag x.
Proof. intros H Hc. split; [rewrite <- H; apply trim_unpadded | exact Hc]. Qed.

Lemma parse_tags_shape_witness :
  PostRoutes.parse_tags "news, open source, rocq" = ["news"; "open source"; "rocq"].
Proof.
  apply (proj2 (proj2 (proj2 (parse_tags_shape "news, open source, rocq")))
           ["news"; "open source"; "rocq"]).
  - discriminate.
  - repeat constructor; apply plain_tag_decide; reflexivity.
  - reflexivity.
Defined.

Example trim_examples :
  JS.trim "  a b  " = "a b" /\
  JS.trim (JS.bytes [194; 160; 10; 97; 226; 128; 137; 239; 187; 191]%nat) = "a" /\
  JS.trim (JS.bytes [97; 195; 160]%nat) = JS.bytes [97; 195; 160]%nat /\
  JS.trim (JS.bytes [32; 9; 227; 128; 128]%nat) = "".
Proof. repeat split; reflexivity. Qed.

Example parse_tags_examples :
  PostRoutes.parse_tags " news ,  tech,rocq " = ["news"; "tech"; "rocq"] /\
  PostRoutes.parse_tags "a,,b" = ["a"; ""; "b"] /\
  PostRoutes.parse_tags "," = [""; ""].
Proof. repeat split; reflexivity. Qed.

(* ------------------------------------------------------------------ *)
(** ** Stored file names *)
(* ------------------------------------------------------------------ *)

Lemma last_nonempty_in (l : list string) :
  JS.last_nonempty l = "" \/ In (JS.last_nonempty l) l.
Proof.
  induction l as [|w ws IH]; [now left|].
  cbn [JS.last_nonempty]. destruct (JS.last_nonempty ws) as [|c t] eqn:E.
  - destruct w; [now left | right; now left].
  - right. right. destruct IH as [IH|IH]; [discriminate IH | exact IH].
Qed.

Lemma basename_no_slash (p : string) : count_char "/" (JS.basename p) = 0%nat.
Proof.
  unfold JS.basename.
  destruct (last_nonempty_in (JS.split "/" p)) as [->|Hin]; [reflexivity|].
  exact (proj1 (Forall_forall _ _) (split_pieces_no_sep "/" p) _ Hin).
Qed.

Lemma last_dot_suffix_none (s : string) :
  count_char "." s = 0%nat -> JS.last_dot_suffix s = None.
Proof.
  induction s as [|x s IH]; [reflexivity|].
  cbn [count_char JS.last_dot_suffix]. destruct (Ascii.eqb x "."); [discriminate|].
  intros H. now rewrite (IH H).
Qed.

Lemma last_dot_suffix_app (a r : string) :
  count_char "." r = 0%nat ->
  JS.last_dot_suffix (a ++ String "." r) = Some (String "." r).
Proof.
  intros Hr. induction a as [|x a IH].
  - cbn. now rewrite (last_dot_suffix_none r Hr).
  - cbn [append JS.last_dot_suffix]. now rewrite IH.
Qed.

Lemma last_dot_suffix_shape (c : ascii) (s e : string) :
  JS.last_dot_suffix s = Some e ->
  exists r, e = String "." r /\ count_char "." r = 0%nat /\
            (count_char c e <= count_char c s)%nat.
Proof.
  revert e. induction s as [|x s IH]; intros e; [discriminate|].
  cbn [JS.last_dot_suffix]. destruct (JS.last_dot_suffix s) as [e'|] eqn:E.
  - intros [= <-]. destruct (IH e' eq_refl) as (r & -> & Hr & Hc).
    exists r. repeat split; [exact Hr|]. cbn in *. lia.
  - destruct (Ascii.eqb_spec x ".") as [->|_]; [|discriminate].
    intros [= <-]. exists s. repeat split; [|apply Nat.le_refl].
    clear IH. induction s as [|y s IHs]; [reflexivity|].
    cbn [JS.last_dot_suffix] in E. cbn [count_char].
    destruct (JS.last_dot_suffix s); [discriminate E|].
    destruct (Ascii.eqb y "."); [discriminate E | now apply IHs].
Qed.

(** The extension is empty, or a dot followed by characters among which
    there is no dot and no slash. *)
Lemma extname_shape (p : string) :
  JS.extname p = "" \/
  exists r, JS.extname p = String "." r /\
            count_char "." r = 0%nat /\ count_char "/" r = 0%nat.
Proof.
  unfold JS.extname. pose proof (basename_no_slash p) as Hb.
  destruct (JS.basename p) as [|c rest]; [now left|].
  destruct (String c rest =? "..")%string; [now left|].
  destruct (JS.last_dot_suffix rest) as [e|] eqn:E; [|now left].
  right. destruct (last_dot_suffix_shape "/" rest e E) as (r & -> & Hr & Hc).
  exists r. repeat split; [exact Hr|]. cbn in *.
  destruct (Ascii.eqb c "/"); lia.
Qed.

Lemma extname_after_plain (pre e : string) :
  pre <> "" ->
  count_char "." pre = 0%nat -> count_char "/" pre = 0%nat ->
  (e = "" \/ exists r, e = String "." r /\
                       count_char "." r = 0%nat /\ count_char "/" r = 0%nat) ->
  JS.extname (pre ++ e) = e /\ count_char "/" (pre ++ e) = 0%nat.
Proof.
  intros Hne Hd Hs He.
  assert (Hslash : count_char "/" (pre ++ e) = 0%nat).
  { rewrite count_char_app, Hs.
    destruct He as [->|(r & -> & _ & Hr)]; [reflexivity|]. cbn. exact Hr. }
  split; [|exact Hslash].
  unfold JS.extname, JS.basename. rewrite (split_without_sep "/" _ Hslash).
  destruct pre as [|c rest]; [contradiction|].
  cbn [append JS.last_nonempty].
  cbn [count_char] in Hd. destruct (Ascii.eqb_spec c ".") as [->|Hc]; [discriminate Hd|].
  cbn in Hd.
  assert (Hnot : (String c (rest ++ e) =? "..")%string = false).
  { cbn. destruct (Ascii.eqb_spec c ".") as [|_]; [contradiction | reflexivity]. }
  rewrite Hnot.
  destruct He as [->|(r & -> & Hr & _)].
  - rewrite append_nil_right, (last_dot_suffix_none rest Hd). reflexivity.
  - now rewrite (last_dot_suffix_app rest r Hr).
Qed.

Lemma uint_string_plain (c : ascii) (d : Decimal.uint) :
  c = "."%char \/ c = "/"%char ->
  count_char c (NilEmpty.string_of_uint d) = 0%nat.
Proof.
  intros [-> | ->]; induction d; cbn; auto.
Qed.

Lemma string_of_Z_plain (c : ascii) (z : Z) :
  c = "."%char \/ c = "/"%char -> count_char c (string_of_Z z) = 0%nat.
Proof.
  intros Hc. unfold string_of_Z, NilZero.string_of_int, NilZero.string_of_uint.
  destruct (Z.to_int z) as [d|d]; destruct d eqn:Ed;
    try (destruct Hc as [-> | ->]; reflexivity);
    rewrite <- Ed; cbn [count_char];
    rewrite (uint_string_plain c d Hc); destruct Hc as [-> | ->]; reflexivity.
Qed.

(** X18: the name a file is stored under is "post-" (or "user-"), the
    time of the request and the extension of the uploaded file name,
    and nothing else of that name: whatever the uploaded name is, the
    stored name contains no "/" (it cannot point outside the upload
    directory), and its extension is exactly the extension of the
    uploaded name. *)
Theorem stored_name_is_safe (P : Platform) (f : File) :
  count_char "/" (PostRoutes.filename P f) = 0%nat /\
  JS.extname (PostRoutes.filename P f) = JS.extname (originalname f) /\
  count_char "/" (UserRoutes.filename P f) = 0%nat /\
  JS.extname (UserRoutes.filename P f) = JS.extname (originalname f).
Proof.
  assert (H : forall prefix,
             prefix = "post-" \/ prefix = "user-" ->
             JS.extname ((prefix ++ string_of_Z (Date_now P)) ++ JS.extname (originalname f))
             = JS.extname (originalname f) /\
             count_char "/" ((prefix ++ string_of_Z (Date_now P))
                             ++ JS.extname (originalname f)) = 0%nat).
  { intros prefix Hp. apply extname_after_plain.
    - destruct Hp as [-> | ->]; discriminate.
    - rewrite count_char_app, (string_of_Z_plain "." _ (or_introl eq_refl)).
      destruct Hp as [-> | ->]; reflexivity.
    - rewrite count_char_app, (string_of_Z_plain "/" _ (or_intror eq_refl)).
      destruct Hp as [-> | ->]; reflexivity.
    - apply extname_shape. }
  unfold PostRoutes.filename, UserRoutes.filename.
  destruct (H "post-" (or_introl eq_refl)) as [H1 H2].
  destruct (H "user-" (or_intror eq_refl)) as [H3 H4].
  rewrite !append_associative in *. now repeat split.
Qed.

Example stored_name_examples :
  PostRoutes.filename demo_platform (mkFile "../../etc/evil.PNG" "image/png" 1)
  = "post-1700000000000.PNG" /\
  UserRoutes.filename demo_platform (mkFile "me.tar.jpg" "image/jpeg" 1)
  = "user-1700000000000.jpg".
Proof. split; reflexivity. Qed.

(* ------------------------------------------------------------------ *)
(** ** Start-up *)
(* ------------------------------------------------------------------ *)

Lemma first_ok_spec (fuel : nat) (ok : nat -> bool) (n : nat) :
  match Startup.first_ok fuel ok n with
  | Some k => (n <= k <= n + fuel)%nat /\ ok k = true /\
              forall j, (n <= j < k)%nat -> ok j = false
  | None => forall j, (n <= j <= n + fuel)%nat -> ok j = false
  end.
Proof.
  revert n. induction fuel as [|fuel IH]; intros n; cbn [Startup.first_ok].
  - destruct (ok n) eqn:E.
    + repeat split; try lia. exact E.
    + intros j Hj. assert (j = n) as -> by lia. exact E.
  - destruct (ok n) eqn:E.
    + repeat split; try lia. exact E.
    + specialize (IH (S n)). destruct (Startup.first_ok fuel ok (S n)) as [k|].
      * destruct IH as (Hk & Hok & Hbefore). repeat split; try lia; [exact Hok|].
        intros j Hj. destruct (Nat.eq_dec j n) as [->|Hne]; [exact E|].
        apply Hbefore. lia.
      * intros j Hj. destruct (Nat.eq_dec j n) as [->|Hne]; [exact E|].
        apply IH. lia.
Qed.

Lemma connectDB_from_nonempty (fuel : nat) (ok : nat -> bool) (n : nat) :
  Startup.connectDB_from fuel ok n <> [].
Proof.
  destruct fuel; cbn; unfold Startup.connectDB_call;
    destruct (ok n); try destruct (n <? 3)%nat; discriminate.
Qed.

Lemma last_after_two {A} (a b : A) (t : list A) (d : A) :
  t <> [] -> last (a :: b :: t) d = last t d.
Proof. intros H. cbn. destruct t; [contradiction | reflexivity]. Qed.

Lemma connectDB_from_trace (fuel : nat) (ok : nat -> bool) (n : nat) :
  (n + fuel = 3)%nat ->
  let t := Startup.connectDB_from fuel ok n in
  match Startup.first_ok fuel ok n with
  | Some k =>
      Startup.attempts t = S (k - n) /\ existsb Startup.is_exit t = false /\
      last t Startup.Listen = Startup.Connected /\
      Forall (fun e => match e with
                       | Startup.RetryIn ms _ => ms = 5000
                       | _ => True
                       end) t
  | None =>
      Startup.attempts t = S fuel /\ last t Startup.Listen = Startup.Exit 1 /\
      existsb Startup.is_connected t = false
  end.
Proof.
  revert n. induction fuel as [|fuel IH]; intros n Hn; cbv zeta.
  - assert (n = 3)%nat as -> by lia.
    cbn [Startup.connectDB_from Startup.first_ok]. unfold Startup.connectDB_call.
    destruct (ok 3%nat); cbn; repeat split; repeat constructor.
  - cbn [Startup.connectDB_from Startup.first_ok]. unfold Startup.connectDB_call.
    destruct (ok n) eqn:Hok.
    + cbn. rewrite Nat.sub_diag. repeat split; repeat constructor.
    + assert (Hlt : (n <? 3)%nat = true) by (apply Nat.ltb_lt; lia).
      rewrite Hlt. replace (n + 1)%nat with (S n) by lia.
      specialize (IH (S n) ltac:(lia)). cbv zeta in IH.
      pose proof (first_ok_spec fuel ok (S n)) as Hspec.
      pose proof (connectDB_from_nonempty fuel ok (S n)) as Hne.
      set (t := Startup.connectDB_from fuel ok (S n)) in *.
      cbn [app]. rewrite (last_after_two _ _ t _ Hne).
      unfold Startup.attempts in *. cbn [filter Startup.is_connect existsb
        Startup.is_exit Startup.is_connected orb length].
      destruct (Startup.first_ok fuel ok (S n)) as [k|].
      * destruct IH as (Ha & He & Hl & Hf). destruct Hspec as (Hk & _ & _).
        repeat split; try assumption; [lia|].
        repeat constructor. exact Hf.
      * destruct IH as (Ha & Hl & Hc).
        repeat split; try assumption. lia.
Qed.

Lemma last_in {A} (t : list A) (d : A) : t <> [] -> In (last t d) t.
Proof.
  induction t as [|a t IH]; [contradiction|]. intros _.
  destruct t as [|b t]; [now left|].
  right. apply IH. discriminate.
Qed.

(** X19: connecting at start-up.  The server starts to listen as soon as
    the first connection attempt is over, whether it succeeded or not.
    An attempt that fails is retried after 5000 ms, up to three times:
    there are at most four attempts ([retryCount] 0 to 3).  When the
    first attempt to succeed is attempt [k], exactly [k + 1] attempts
    are made and the process does not exit; when all four fail, the last
    thing the process does is exit with code 1, and nothing was ever
    connected. *)
Theorem startup_connects (ok : nat -> bool) :
  let t := Startup.start ok in
  (exists rest,
     t = Startup.Connect 0
           :: (if ok 0%nat then Startup.Connected else Startup.RetryIn 5000 1)
           :: Startup.Listen :: rest) /\
  (Startup.attempts t <= 4)%nat /\
  match Startup.first_ok 3 ok 0 with
  | Some k =>
      ok k = true /\ (forall j, (j < k)%nat -> ok j = false) /\
      Startup.attempts t = S k /\
      existsb Startup.is_exit t = false /\
      In Startup.Connected t
  | None =>
      (forall j, (j <= 3)%nat -> ok j = false) /\
      Startup.attempts t = 4%nat /\
      last t Startup.Listen = Startup.Exit 1 /\
      existsb Startup.is_connected t = false
  end.
Proof.
  cbv zeta. unfold Startup.start, Startup.connectDB_call.
  pose proof (first_ok_spec 3 ok 0) as Hspec.
  change (Startup.first_ok 3 ok 0)
    with (if ok 0%nat then Some 0%nat else Startup.first_ok 2 ok 1) in *.
  destruct (ok 0%nat) eqn:H0.
  - split; [eexists; reflexivity|]. split; [cbn; lia|].
    cbn. repeat split; auto. intros j Hj. lia.
  - change (0 <? 3)%nat with true. cbv iota.
    split; [eexists; reflexivity|].
    pose proof (connectDB_from_trace 2 ok 1 eq_refl) as Htr. cbv zeta in Htr.
    pose proof (connectDB_from_nonempty 2 ok 1) as Hne.
    change (0 + 1)%nat with 1%nat.
    unfold Startup.connectDB. change (3 - 1)%nat with 2%nat.
    set (rest := Startup.connectDB_from 2 ok 1) in *. clearbody rest.
    cbn [app]. unfold Startup.attempts in *.
    cbn [filter Startup.is_connect existsb Startup.is_exit Startup.is_connected
         orb length].
    assert (Hlast : forall d, last (Startup.Connect 0 :: Startup.RetryIn 5000 1
                                      :: Startup.Listen :: rest) d = last rest d).
    { intros d. cbn. destruct rest; [contradiction | reflexivity]. }
    destruct (Startup.first_ok 2 ok 1) as [k|].
    + destruct Htr as (Ha & He & Hl & _). destruct Hspec as (Hk & Hok & Hbefore).
      assert (Hk0 : k <> 0%nat) by (intros ->; congruence).
      split; [lia|]. split; [exact Hok|].
      split; [intros j Hj; apply Hbefore; lia|].
      split; [lia|]. split; [exact He|].
      right. right. right. rewrite <- Hl. now apply last_in.
    + destruct Htr as (Ha & Hl & Hc).
      split; [lia|]. split; [intros j Hj; apply Hspec; lia|].
      split; [lia|]. split; [rewrite Hlast; exact Hl | exact Hc].
Qed.

Lemma startup_connects_witness :
  Startup.attempts (Startup.start third_time_lucky) = 3%nat /\
  existsb Startup.is_exit (Startup.start third_time_lucky) = false.
Proof.
  pose proof (startup_connects third_time_lucky) as (_ & _ & H).
  cbn in H. destruct H as (_ & _ & Ha & He & _). split; [exact Ha | exact He].
Defined.

(* ------------------------------------------------------------------ *)
(** ** Invariants of the collections *)
(* ------------------------------------------------------------------ *)

Lemma replace_post_ids (p : Post) (ps : list Post) :
  map post_id (PostModel.replace_post p ps) = map post_id ps.
Proof.
  induction ps as [|q qs IH]; [reflexivity|].
  cbn. destruct (id_eqb (post_id q) (post_id p)) eqn:E; cbn.
  - apply String.eqb_eq in E. now rewrite E.
  - now rewrite IH.
Qed.

Lemma replace_user_ids (u : User) (us : list User) :
  map user_id (UserModel.replace_user u us) = map user_id us.
Proof.
  induction us as [|q qs IH]; [reflexivity|].
  cbn. destruct (id_eqb (user_id q) (user_id u)) eqn:E; cbn.
  - apply String.eqb_eq in E. now rewrite E.
  - now rewrite IH.
Qed.

Lemma remove_post_ids_incl (id : Id) (ps : list Post) (x : Id) :
  In x (map post_id (PostModel.remove_post id ps)) -> In x (map post_id ps).
Proof.
  induction ps as [|q qs IH]; [tauto|].
  cbn. destruct (id_eqb (post_id q) id); cbn; [tauto|].
  intros [H|H]; [now left | right; now apply IH].
Qed.

Lemma remove_post_nodup (id : Id) (ps : list Post) :
  NoDup (map post_id ps) -> NoDup (map post_id (PostModel.remove_post id ps)).
Proof.
  induction ps as [|q qs IH]; [trivial|].
  cbn. intros Hnd. inversion Hnd as [|? ? Hnot Hnd']; subst.
  destruct (id_eqb (post_id q) id); [exact Hnd'|].
  cbn. constructor; [|now apply IH].
  intros Hin. apply Hnot. eapply remove_post_ids_incl. exact Hin.
Qed.

Lemma find_none_not_in {A} (key : A -> Id) (id : Id) (l : list A) :
  find (fun x => id_eqb (key x) id) l = None -> ~ In id (map key l).
Proof.
  intros Hf Hin. apply in_map_iff in Hin as (x & Hk & Hx).
  pose proof (find_none_all _ _ Hf x Hx) as H. cbn in H.
  rewrite Hk in H. unfold id_eqb in H. rewrite String.eqb_refl in H. discriminate H.
Qed.

Lemma nodup_snoc {A} (l : list A) (a : A) : NoDup l -> ~ In a l -> NoDup (l ++ [a]).
Proof.
  intros Hnd Hnot. apply NoDup_app; [exact Hnd | repeat constructor; intros [] |].
  intros x Hx [<-|[]]. contradiction.
Qed.

Lemma update_post_distinct (d : Db) (req : Req) (user : User) (file : option string) :
  distinct_ids d -> distinct_ids (fst (serve d (PostRoutes.update_post req user file))).
Proof.
  intros [Hp Hu].
  destruct (find_post d (params_id req)) as [post|] eqn:Hf.
  2:{ rewrite (update_post_missing d req user file Hf). now split. }
  destruct (author post =? user_id user)%string eqn:Ha.
  2:{ rewrite (update_post_non_owner d req user file post Hf Ha). now split. }
  rewrite (update_post_owner d req user file post Hf Ha).
  split; cbn [fst posts users]; [now rewrite replace_post_ids | exact Hu].
Qed.

Lemma delete_post_distinct (d : Db) (req : Req) (user : User) :
  distinct_ids d -> distinct_ids (fst (serve d (PostRoutes.delete_post req user))).
Proof.
  intros [Hp Hu].
  destruct (find_post d (params_id req)) as [post|] eqn:Hf.
  2:{ rewrite (delete_post_missing d req user Hf). now split. }
  destruct (author post =? user_id user)%string eqn:Ha.
  2:{ rewrite (delete_post_non_owner d req user post Hf Ha). now split. }
  rewrite (delete_post_owner d req user post Hf Ha).
  split; cbn [fst posts users]; [now apply remove_post_nodup | exact Hu].
Qed.

Lemma add_comment_distinct (P : Platform) (d : Db) (req : Req) (user : User) :
  distinct_ids d -> distinct_ids (fst (serve d (PostRoutes.add_comment P req user))).
Proof.
  intros [Hp Hu].
  destruct (find_post d (params_id req)) as [post|] eqn:Hf.
  2:{ rewrite (add_comment_missing P d req user Hf). now split. }
  destruct (add_comment_found P d req user post Hf) as [Hrun _]. cbv zeta in Hrun.
  rewrite Hrun.
  split; cbn [fst posts users]; [now rewrite replace_post_ids | exact Hu].
Qed.

Lemma like_post_distinct (d : Db) (req : Req) (user : User) :
  distinct_ids d -> distinct_ids (fst (serve d (PostRoutes.like_post req user))).
Proof.
  intros [Hp Hu].
  destruct (find_post d (params_id req)) as [post|] eqn:Hf.
  2:{ rewrite (like_post_missing d req user Hf). now split. }
  destruct (like_post_found d req user post Hf) as [Hrun _]. cbv zeta in Hrun.
  rewrite Hrun.
  split; cbn [fst posts users]; [now rewrite replace_post_ids | exact Hu].
Qed.

Lemma create_post_distinct (P : Platform) (d : Db) (req : Req) (user : User)
    (file : option string) :
  find_post d (new_ObjectId P) = None ->
  distinct_ids d -> distinct_ids (fst (serve d (PostRoutes.create_post P req user file))).
Proof.
  intros Hfresh [Hp Hu].
  destruct (JS.truthy (body_title req)) eqn:Ht.
  2:{ rewrite create_post_rejected by (now rewrite Ht). now split. }
  destruct (JS.truthy (body_content req)) eqn:Hc.
  2:{ rewrite create_post_rejected by (now rewrite Ht, Hc). now split. }
  destruct (create_post_fresh P d req user file Ht Hc Hfresh) as [Hrun _].
  cbv zeta in Hrun. rewrite Hrun.
  split; cbn [fst posts users]; [|exact Hu].
  rewrite map_app. apply nodup_snoc; [exact Hp|].
  cbn. now apply find_none_not_in.
Qed.

Lemma update_profile_distinct (P : Platform) (d : Db) (req : Req) (caller : User)
    (file : option string) :
  distinct_ids d ->
  distinct_ids (fst (serve d (UserRoutes.update_profile P req caller file))).
Proof.
  intros [Hp Hu]. rewrite update_profile_run.
  destruct (find_user d (user_id caller)); [|now split].
  destruct (UserModel.collides _ _); [now split|].
  split; cbn [fst posts users]; [exact Hp | now rewrite replace_user_ids].
Qed.

(** What a registration leaves in the database: nothing new, or one
    user more at the end of the collection. *)
Lemma register_outcome (P : Platform) (d : Db) (req : Req) :
  find_user d (new_ObjectId P) = None ->
  fst (serve d (UserRoutes.register P req)) = d \/
  (find_email_or_username d (reg_email req) (reg_username req) = None /\
   fst (serve d (UserRoutes.register P req))
   = mkDb (users d ++ [registered_user P req])%list (posts d)).
Proof.
  intros Hfresh.
  destruct (JS.truthy (body_username req) && JS.truthy (body_email req)
            && JS.truthy (body_password req)) eqn:Hall.
  2:{ left. pose proof (register_requires_all_fields_run P d req Hall) as H.
      now rewrite H. }
  apply andb_true_iff in Hall as [Hall Hp]. apply andb_true_iff in Hall as [Hn He].
  rewrite (register_run P d req Hn He Hp).
  destruct (find_email_or_username d _ _) eqn:Hf; [now left|].
  right. split; [reflexivity|]. cbn [fst].
  assert (Hex : existsb (fun v => id_eqb (user_id v) (new_ObjectId P)) (users d) = false).
  { destruct (existsb _ (users d)) eqn:E; [|reflexivity].
    apply existsb_exists in E as (v & Hv & Hid).
    pose proof (find_none_all _ _ Hfresh v Hv) as Hx. cbn in Hx. congruence. }
  now rewrite Hex.
Qed.

Lemma register_distinct (P : Platform) (d : Db) (req : Req) :
  find_user d (new_ObjectId P) = None ->
  distinct_ids d -> distinct_ids (fst (serve d (UserRoutes.register P req))).
Proof.
  intros Hfresh [Hp Hu].
  destruct (register_outcome P d req Hfresh) as [->|[_ ->]]; [now split|].
  split; cbn [posts users]; [exact Hp|].
  rewrite map_app. apply nodup_snoc; [exact Hu|].
  cbn. now apply find_none_not_in.
Qed.

(** X20: the ids stay distinct.  If the posts have distinct ids and the
    users have distinct ids, and the id the platform gives to the next
    document is not in use, then after any request to any endpoint the
    posts still have distinct ids and so have the users. *)
Theorem ids_stay_distinct (P : Platform) (ep : Endpoint) (req : Req) (d : Db) :
  distinct_ids d ->
  find_post d (new_ObjectId P) = None ->
  find_user d (new_ObjectId P) = None ->
  distinct_ids (fst (serve d (route P ep req))).
Proof.
  intros Hd Hfp Hfu.
  destruct ep; cbn [route];
    unfold UserRoutes.POST_register, UserRoutes.POST_login, UserRoutes.PUT_profile,
      UserRoutes.GET_profile, PostRoutes.POST_posts, PostRoutes.GET_posts,
      PostRoutes.GET_post, PostRoutes.PUT_post, PostRoutes.DELETE_post,
      PostRoutes.POST_comment, PostRoutes.PATCH_like.
  - now apply register_distinct.
  - exact (login_stable distinct_ids P req (mkWorld d (mkRes 200 None)) Hd).
  - destruct (guarded_upload_cases P req d (UserRoutes.upload_single P)
                (UserRoutes.update_profile P req))
      as [(r & -> & _)|[(err & _ & ->)|(u & file & _ & _ & ->)]];
      [exact Hd | exact Hd | now apply update_profile_distinct].
  - exact (get_profile_stable distinct_ids req (mkWorld d (mkRes 200 None)) Hd).
  - destruct (guarded_upload_cases P req d (PostRoutes.upload_single P)
                (PostRoutes.create_post P req))
      as [(r & -> & _)|[(err & _ & ->)|(u & file & _ & _ & ->)]];
      [exact Hd | exact Hd | now apply create_post_distinct].
  - exact (list_posts_stable distinct_ids P req (mkWorld d (mkRes 200 None)) Hd).
  - exact (get_post_stable distinct_ids req (mkWorld d (mkRes 200 None)) Hd).
  - destruct (guarded_upload_cases P req d (PostRoutes.upload_single P)
                (PostRoutes.update_post req))
      as [(r & -> & _)|[(err & _ & ->)|(u & file & _ & _ & ->)]];
      [exact Hd | exact Hd | now apply update_post_distinct].
  - destruct (guarded_cases P req d (PostRoutes.delete_post req))
      as [(r & -> & _)|(u & _ & ->)]; [exact Hd | now apply delete_post_distinct].
  - destruct (guarded_cases P req d (PostRoutes.add_comment P req))
      as [(r & -> & _)|(u & _ & ->)]; [exact Hd | now apply add_comment_distinct].
  - destruct (guarded_cases P req d (PostRoutes.like_post req))
      as [(r & -> & _)|(u & _ & ->)]; [exact Hd | now apply like_post_distinct].
Qed.

Lemma demo_db_distinct : distinct_ids demo_db.
Proof.
  split; cbn; repeat constructor; cbn; intuition discriminate.
Qed.

Lemma ids_stay_distinct_witness :
  distinct_ids (fst (serve demo_db (route demo_platform PostRegister carol_registers))).
Proof.
  apply (ids_stay_distinct demo_platform PostRegister carol_registers demo_db);
    [exact demo_db_distinct | reflexivity | reflexivity].
Defined.

Lemma not_taken_not_in (e n : string) (us : list User) :
  find (fun u => (email u =? e)%string || (username u =? n)%string) us = None ->
  ~ In e (map email us) /\ ~ In n (map username us).
Proof.
  intros Hf. split; intros Hin; apply in_map_iff in Hin as (v & Hv & Hin);
    pose proof (find_none_all _ _ Hf v Hin) as H; cbn in H;
    rewrite Hv, String.eqb_refl in H; [|rewrite orb_true_r in H]; discriminate H.
Qed.

(** X21: registration keeps e-mails and user names unique.  If no two
    stored users share an e-mail or a user name, and the id for the next
    user is not in use, then the same holds after any registration
    request, accepted or not. *)
Theorem register_keeps_credentials_unique (P : Platform) (d : Db) (req : Req) :
  distinct_credentials d ->
  find_user d (new_ObjectId P) = None ->
  distinct_credentials (fst (serve d (route P PostRegister req))).
Proof.
  intros [He Hn] Hfresh. cbn [route]. unfold UserRoutes.POST_register.
  destruct (register_outcome P d req Hfresh) as [->|[Hf ->]]; [now split|].
  destruct (not_taken_not_in _ _ _ Hf) as [Hne Hnn].
  split; cbn [users]; rewrite map_app; apply nodup_snoc; assumption.
Qed.

Lemma register_keeps_credentials_unique_witness :
  distinct_credentials
    (fst (serve demo_db (route demo_platform PostRegister carol_registers))).
Proof.
  apply (register_keeps_credentials_unique demo_platform demo_db carol_registers);
    [|reflexivity].
  split; cbn; repeat constructor; cbn; intuition discriminate.
Defined.

(* ------------------------------------------------------------------ *)
(** ** Login without credentials, uploads that are accepted *)
(* ------------------------------------------------------------------ *)

(** X22: a login request that lacks the e-mail or the password (absent
    or empty) is answered 400 'Please provide email and password',
    whether or not the e-mail is that of a stored user, and changes
    nothing. *)
Theorem login_requires_both_fields (P : Platform) (d : Db) (req : Req) :
  JS.truthy (body_email req) && JS.truthy (body_password req) = false ->
  serve d (route P PostLogin req)
  = (d, message_res 400 "Please provide email and password").
Proof.
  intros H. cbn [route]. unfold UserRoutes.POST_login, UserRoutes.login. run_handler.
  destruct (JS.truthy (body_email req)), (JS.truthy (body_password req));
    try discriminate H; reflexivity.
Qed.

Lemma login_requires_both_fields_witness :
  serve demo_db (route demo_platform PostLogin
                   (login_req (Some "alice@example.com") None))
  = (demo_db, message_res 400 "Please provide email and password").
Proof.
  apply (login_requires_both_fields demo_platform demo_db
           (login_req (Some "alice@example.com") None)).
  reflexivity.
Defined.

Lemma upload_accepted (fileFilter : File -> Thrown + bool) (filename : File -> string)
    (req : Req) (f : File) :
  file_part req = Some f ->
  fileFilter f = inr true ->
  size f <= Multer.fileSize_limit ->
  Multer.single fileFilter filename req = inr (Some (filename f)).
Proof.
  intros Hf Hacc Hsz. unfold Multer.single. rewrite Hf, Hacc.
  destruct (Z.ltb_spec Multer.fileSize_limit (size f)); [lia | reflexivity].
Qed.

(** X23: an accepted upload reaches the document.  When the file of a
    request passes the filter and is not larger than 5 MiB, the upload
    hands the handler the stored name; an update of a post by its author
    then stores "/uploads/posts/" and that name as the image of the
    post, and a profile update answered 200 stores "/uploads/profiles/"
    and that name as the profile picture of the caller. *)
Theorem accepted_upload_is_stored (P : Platform) (d : Db) (req : Req) (f : File) :
  file_part req = Some f ->
  PostRoutes.fileFilter f = inr true ->
  size f <= Multer.fileSize_limit ->
  PostRoutes.upload_single P req = inr (Some (PostRoutes.filename P f)) /\
  UserRoutes.upload_single P req = inr (Some (UserRoutes.filename P f)) /\
  (forall (user : User) (post : Post),
     find_post d (params_id req) = Some post ->
     author post = user_id user ->
     exists post',
       find_post (fst (serve d (PostRoutes.update_post req user
                                  (Some (PostRoutes.filename P f)))))
                 (params_id req) = Some post' /\
       image post' = "/uploads/posts/" ++ PostRoutes.filename P f) /\
  (forall (caller : User),
     statusCode (snd (serve d (UserRoutes.update_profile P req caller
                                 (Some (UserRoutes.filename P f))))) = 200 ->
     exists user',
       find_user (fst (serve d (UserRoutes.update_profile P req caller
                                  (Some (UserRoutes.filename P f)))))
                 (user_id caller) = Some user' /\
       profilePicture user' = "/uploads/profiles/" ++ UserRoutes.filename P f).
Proof.
  intros Hf Hacc Hsz.
  split; [now apply upload_accepted|]. split; [now apply upload_accepted|]. split.
  - intros user post Hfind Ha.
    assert (Ha' : (author post =? user_id user)%string = true) by now apply String.eqb_eq.
    rewrite (update_post_owner d req user _ post Hfind Ha'). cbn [fst].
    destruct (post_stored_after_replace (posts d) (params_id req) post
                (updated_post req (Some (PostRoutes.filename P f)) post) Hfind
                (find_some_id post_id _ _ _ Hfind)) as [_ Hst].
    eexists. split; [exact Hst | reflexivity].
  - intros caller H200. rewrite update_profile_run in *.
    destruct (find_user d (user_id caller)) as [user|] eqn:Hu; [|discriminate H200].
    destruct (UserModel.collides _ _); [discriminate H200|]. cbn [fst].
    assert (Hid : user_id (updated_user P req (Some (UserRoutes.filename P f)) user)
                  = user_id caller).
    { rewrite updated_user_id. exact (find_some_id user_id _ _ _ Hu). }
    destruct (user_stored_after_replace (users d) (user_id caller) user _ Hu Hid)
      as [_ Hst].
    eexists. split; [exact Hst|].
    unfold updated_user. destruct (JS.truthy (body_password req)); reflexivity.
Qed.

Lemma accepted_upload_is_stored_witness :
  PostRoutes.upload_single demo_platform
    (upload_req "Bearer tok:u1" "p1" (mkFile "holiday.PNG" "image/png" 2048))
  = inr (Some "post-1700000000000.PNG").
Proof.
  apply (accepted_upload_is_stored demo_platform demo_db
           (upload_req "Bearer tok:u1" "p1" (mkFile "holiday.PNG" "image/png" 2048))
           (mkFile "holiday.PNG" "image/png" 2048));
    [reflexivity | reflexivity | cbn; lia].
Defined.
